(** * Unified-diff parser of the review agent: embedding and properties

    Shallow embedding of [src/diff_parser.py] (data model, [_should_skip],
    [DiffResult.reviewable_files], [DiffResult.summary], [parse_diff]), of
    [format_diff] from [src/prompt.py], of [Reviewer._build_search_query]
    and [Reviewer.review] from [src/reviewer.py], of
    [GitLabClient.get_mr_diff_text] from [src/gitlab_client.py] and of
    [run_review] from [src/server.py].  The calls that leave the program (the
    HTTP requests, the model behind [_review_file]) are parameters.

    Python [str] values are [string]s (one [ascii] per character, so the
    model ranges over the strings whose characters lie below U+0100), Python
    [int]s are [Z].  The parser's loop mutates objects that stay reachable
    from [result.files]; the embedding keeps [result.files] as the store and
    represents the references [current_file] and [current_hunk] by positions
    in it.  The one operation of the loop that can raise is [int]; functions
    that reach it return an [outcome], and the interpreter's bound on the
    digits of a conversion is a parameter of the model. *)

From Stdlib Require Import ZArith Ascii String DecimalString DecimalFacts DecimalN.
From stdpp Require Import base tactics option list strings gmap.

Local Open Scope Z_scope.

(** ** Python string primitives *)

Module Py.

(** [s.startswith(p)] *)
Fixpoint startswith (s p : string) {struct p} : bool :=
  match p, s with
  | EmptyString, _ => true
  | String a p', String b s' => if Ascii.eqb a b then startswith s' p' else false
  | String _ _, EmptyString => false
  end.

(** [s[n:]] for [n >= 0] *)
Fixpoint slice_from (n : nat) (s : string) : string :=
  match n, s with
  | O, _ => s
  | S n', String _ s' => slice_from n' s'
  | S _, EmptyString => EmptyString
  end.

(** [s[:n]] for [n >= 0] *)
Fixpoint slice_to (n : nat) (s : string) : string :=
  match n, s with
  | S n', String c s' => String c (slice_to n' s')
  | _, _ => EmptyString
  end.

(** [s.endswith(p)] *)
Definition endswith (s p : string) : bool :=
  (String.length p <=? String.length s)%nat
  && String.eqb (slice_from (String.length s - String.length p) s) p.

(** [s.split("\n")]: never empty, one more element than there are line feeds. *)
Fixpoint split_lines (s : string) : list string :=
  match s with
  | EmptyString => [EmptyString]
  | String c r =>
      if Ascii.eqb c "010"%char then EmptyString :: split_lines r
      else match split_lines r with
           | h :: t => String c h :: t
           | [] => [String c EmptyString]
           end
  end.

(** ["\n".join(l)] *)
Definition join_lines (l : list string) : string := String.concat (String "010"%char "") l.

(** Leftmost occurrence of [sub] in [s]: the text before it and the text
    after it ([s.partition(sub)] when [sub] occurs). *)
Fixpoint find (s sub : string) : option (string * string) :=
  if startswith s sub then Some (EmptyString, slice_from (String.length sub) s)
  else match s with
       | EmptyString => None
       | String c r =>
           match find r sub with
           | Some (before, after) => Some (String c before, after)
           | None => None
           end
       end.

(** [c.isspace()] on the characters below U+0100. *)
Definition isspace (c : ascii) : bool :=
  let n := nat_of_ascii c in
  ((9 <=? n) && (n <=? 13) || (28 <=? n) && (n <=? 32)
   || (n =? 133) || (n =? 160))%nat.

Fixpoint lstrip (s : string) : string :=
  match s with
  | String c r => if isspace c then lstrip r else s
  | EmptyString => EmptyString
  end.

Fixpoint rstrip (s : string) : string :=
  match s with
  | String c r =>
      match rstrip r with
      | EmptyString => if isspace c then EmptyString else String c EmptyString
      | r' => String c r'
      end
  | EmptyString => EmptyString
  end.

(** [s.strip()] *)
Definition strip (s : string) : string := rstrip (lstrip s).

(** [s * n] *)
Fixpoint repeat_str (s : string) (n : nat) : string :=
  match n with
  | O => EmptyString
  | S n' => s +:+ repeat_str s n'
  end.

(** Truth value of a [str]. *)
Definition truthy (s : string) : bool :=
  match s with EmptyString => false | String _ _ => true end.

Definition isdigit (c : ascii) : bool :=
  let n := nat_of_ascii c in ((48 <=? n) && (n <=? 57))%nat.

Inductive exn : Set := ValueError.

Inductive outcome (A : Type) : Type :=
| Return (a : A)
| Raise (e : exn).
Global Arguments Return {A} a.
Global Arguments Raise {A} e.

Definition bind {A B} (m : outcome A) (k : A -> outcome B) : outcome B :=
  match m with
  | Return a => k a
  | Raise e => Raise e
  end.

(** [sys.int_info.str_digits_check_threshold]: shorter conversions are
    never checked against the bound. *)
Definition str_digits_check_threshold : nat := 640.

(** The interpreter's bound on int/str conversions
    ([sys.get_int_max_str_digits()]): a conversion that involves more than
    [max_str_digits] digits raises [ValueError]; 0 disables the bound. *)
Definition within_max_str_digits (max_str_digits digits : nat) : bool :=
  (digits <=? str_digits_check_threshold)%nat
  || (max_str_digits =? 0)%nat || (digits <=? max_str_digits)%nat.

(** [int(s)] on the strings the parser hands to it.  On a non-empty run of
    ASCII digits it is the decimal value, unless the run exceeds the bound
    on conversions.  Any other string is rejected here; the regular
    expression of the hunk header never captures one. *)
Definition int (max_str_digits : nat) (s : string) : outcome Z :=
  match NilZero.uint_of_string s with
  | Some d =>
      if within_max_str_digits max_str_digits (String.length s)
      then Return (Z.of_uint d)
      else Raise ValueError
  | None => Raise ValueError
  end.

(** [str(z)], as the f-strings of [format_diff] use it: the bound counts
    the digits, not the sign. *)
Definition str (max_str_digits : nat) (z : Z) : outcome string :=
  let digits := NilZero.string_of_uint (N.to_uint (Z.abs_N z)) in
  if within_max_str_digits max_str_digits (String.length digits)
  then Return (if z <? 0 then String "-" digits else digits)
  else Raise ValueError.

(** [sys.int_info.default_max_str_digits] *)
Definition default_max_str_digits : nat := 4300.

End Py.

Notation "'let*' x ':=' m 'in' k" := (Py.bind m (fun x => k))
  (at level 10, x name, m at level 100, k at level 200).

(** ** [src/diff_parser.py] *)

Module DiffParser.
Import Py.

Inductive LineType : Set := add | delete | context.
Inductive Status : Set := added | deleted | modified | renamed | binary.

Global Instance LineType_eq_dec : EqDecision LineType.
Proof. solve_decision. Defined.
Global Instance Status_eq_dec : EqDecision Status.
Proof. solve_decision. Defined.

Record Line : Set := {
  number : Z;
  content : string;
  type : LineType
}.

Record Hunk : Set := {
  old_start : Z;
  old_count : Z;
  new_start : Z;
  new_count : Z;
  lines : list Line
}.

Record FileDiff : Set := {
  filename : string;
  old_filename : option string;
  status : Status;
  hunks : list Hunk;
  is_binary : bool
}.

(** [FileDiff(filename=..., status=...)]: the other fields at their defaults. *)
Definition FileDiff_new (name : string) (st : Status) (bin : bool) : FileDiff :=
  {| filename := name; old_filename := None; status := st; hunks := [];
     is_binary := bin |}.

Definition lines_of_type (t : LineType) (f : FileDiff) : list Line :=
  h ← hunks f; filter (λ l, type l = t) (lines h).

Definition added_lines : FileDiff -> list Line := lines_of_type add.
Definition deleted_lines : FileDiff -> list Line := lines_of_type delete.

(** The skip patterns all have the shape [r"<literal>$"], the literal
    written with its dots escaped.  [re.search] finds such a pattern when the
    literal ends the string or stands right before a final line feed. *)
Inductive regex : Set := literal_dollar (literal : string).

Definition LF : string := String "010"%char EmptyString.

Definition re_search (p : regex) (s : string) : bool :=
  match p with
  | literal_dollar lit => endswith s lit || endswith s (lit +:+ LF)
  end.

Definition SKIP_PATTERNS : list regex :=
  [ literal_dollar "package-lock.json";
    literal_dollar "yarn.lock";
    literal_dollar "pnpm-lock.yaml";
    literal_dollar "poetry.lock";
    literal_dollar "Pipfile.lock";
    literal_dollar "go.sum";
    literal_dollar ".min.js";
    literal_dollar ".min.css";
    literal_dollar ".map";
    literal_dollar ".svg";
    literal_dollar ".ico" ].

Definition BINARY_MARKER : string := "Binary files".

Definition _should_skip (name : string) : bool :=
  existsb (fun p => re_search p name) SKIP_PATTERNS.

Record DiffResult : Set := { files : list FileDiff }.

Definition reviewable_files (d : DiffResult) : list FileDiff :=
  List.filter (fun f => negb (is_binary f) && negb (_should_skip (filename f)))
    (files d).

(** [sum(...)] over Python ints *)
Definition sum_ints (l : list Z) : Z := foldr Z.add 0 l.

(** [len(l)] *)
Definition len {A} (l : list A) : Z := Z.of_nat (length l).

(** The [summary] property: a dict with four keys. *)
Definition summary (d : DiffResult) : gmap string Z :=
  let total_added := sum_ints ((fun f => len (added_lines f)) <$> files d) in
  let total_deleted := sum_ints ((fun f => len (deleted_lines f)) <$> files d) in
  <["total_files" := len (files d)]>
    (<["reviewable_files" := len (reviewable_files d)]>
       (<["total_added" := total_added]>
          (<["total_deleted" := total_deleted]> ∅))).

(** *** The two regular expressions of [parse_diff] *)

(** Longest run of digits at the head of [s], and what follows it. *)
Fixpoint span_digits (s : string) : string * string :=
  match s with
  | String c r =>
      if isdigit c then let (d, rest) := span_digits r in (String c d, rest)
      else (EmptyString, s)
  | EmptyString => (EmptyString, EmptyString)
  end.

(** [(\d+)]: greedy; what follows a maximal run is no digit, so giving
    digits back never helps the rest of the pattern. *)
Definition re_digits (s : string) : option (string * string) :=
  match span_digits s with
  | (EmptyString, _) => None
  | (d, rest) => Some (d, rest)
  end.

(** [(?:,(\d+))?] *)
Definition re_opt_count (s : string) : option string * string :=
  match s with
  | String "," r =>
      match re_digits r with
      | Some (d, rest) => (Some d, rest)
      | None => (None, s)
      end
  | _ => (None, s)
  end.

(** The groups of
    [re.match(r"^@@ -(\d+)(?:,(\d+))? \+(\d+)(?:,(\d+))? @@", line)]. *)
Definition hunk_match (line : string)
  : option (string * option string * string * option string) :=
  if startswith line "@@ -" then
    match re_digits (slice_from 4 line) with
    | Some (g1, r1) =>
        let (g2, r2) := re_opt_count r1 in
        if startswith r2 " +" then
          match re_digits (slice_from 2 r2) with
          | Some (g3, r3) =>
              let (g4, r4) := re_opt_count r3 in
              if startswith r4 " @@" then Some (g1, g2, g3, g4) else None
          | None => None
          end
        else None
    | None => None
    end
  else None.

(** Group 1 of [re.search(r"and b/(.+?) differ", line)] on a [line] free of
    line feeds.  The lazy group takes at least one character and stops at
    the first [" differ"] after it; if the leftmost ["and b/"] has no such
    continuation, no later one has. *)
Definition binary_match (line : string) : option string :=
  match find line "and b/" with
  | Some (_, String c r) =>
      match find r " differ" with
      | Some (g, _) => Some (String c g)
      | None => None
      end
  | _ => None
  end.

(** *** The state of the scanning loop *)

(** [current_file] is the position in [result.files] of the object the
    variable refers to; [current_hunk] is the position of the file that owns
    the hunk and the position of the hunk in that file. *)
Record ParseState : Set := {
  result : DiffResult;
  current_file : option nat;
  current_hunk : option (nat * nat);
  new_line_num : Z;
  pending_status : option Status
}.

Definition initial : ParseState :=
  {| result := {| files := [] |}; current_file := None; current_hunk := None;
     new_line_num := 0; pending_status := None |}.

(** [current_file = None; current_hunk = None; pending_status = None] *)
Definition reset (st : ParseState) : ParseState :=
  {| result := result st; current_file := None; current_hunk := None;
     new_line_num := new_line_num st; pending_status := None |}.

Definition set_pending (s : Status) (st : ParseState) : ParseState :=
  {| result := result st; current_file := current_file st;
     current_hunk := current_hunk st; new_line_num := new_line_num st;
     pending_status := Some s |}.

(** [current_file = f; result.files.append(current_file)] *)
Definition open_file (f : FileDiff) (st : ParseState) : ParseState :=
  {| result := {| files := files (result st) ++ [f] |};
     current_file := Some (length (files (result st)));
     current_hunk := current_hunk st; new_line_num := new_line_num st;
     pending_status := pending_status st |}.

Definition push_hunk (h : Hunk) (f : FileDiff) : FileDiff :=
  {| filename := filename f; old_filename := old_filename f;
     status := status f; hunks := hunks f ++ [h]; is_binary := is_binary f |}.

Definition push_line (l : Line) (h : Hunk) : Hunk :=
  {| old_start := old_start h; old_count := old_count h;
     new_start := new_start h; new_count := new_count h;
     lines := lines h ++ [l] |}.

Definition with_hunks (g : list Hunk -> list Hunk) (f : FileDiff) : FileDiff :=
  {| filename := filename f; old_filename := old_filename f;
     status := status f; hunks := g (hunks f); is_binary := is_binary f |}.

(** [current_file.hunks.append(current_hunk);
     new_line_num = current_hunk.new_start], with [current_file] at [fi] *)
Definition open_hunk (fi : nat) (h : Hunk) (st : ParseState) : ParseState :=
  let fs := files (result st) in
  {| result := {| files := alter (push_hunk h) fi fs |};
     current_file := current_file st;
     current_hunk :=
       Some (fi, length (default [] (hunks <$> fs !! fi)));
     new_line_num := new_start h;
     pending_status := pending_status st |}.

(** [current_hunk.lines.append(Line(number=new_line_num, ...))], followed by
    [new_line_num += 1] when [advance] holds *)
Definition append_line (at_ : nat * nat) (t : LineType) (text : string)
    (advance : bool) (st : ParseState) : ParseState :=
  let l := {| number := new_line_num st; content := text; type := t |} in
  {| result :=
       {| files := alter (with_hunks (alter (push_line l) at_.2)) at_.1
                     (files (result st)) |};
     current_file := current_file st;
     current_hunk := current_hunk st;
     new_line_num := if advance then new_line_num st + 1 else new_line_num st;
     pending_status := pending_status st |}.

(** [int(group or 1)] *)
Definition int_or_1 (lim : nat) (group : option string) : outcome Z :=
  match group with
  | Some d => if truthy d then int lim d else Return 1
  | None => Return 1
  end.

(** The body of the [for] loop on one [line]. *)
Definition step (lim : nat) (st : ParseState) (line : string)
  : outcome ParseState :=
  if startswith line "diff --git" then Return (reset st)
  else if startswith line "new file" then Return (set_pending added st)
  else if startswith line "deleted file" then Return (set_pending deleted st)
  else if startswith line BINARY_MARKER then
    match binary_match line with
    | Some name => Return (open_file (FileDiff_new name binary true) st)
    | None => Return st
    end
  else if startswith line "--- " then
    let path := slice_from 4 line in
    if bool_decide (pending_status st = Some deleted) && startswith path "a/"
    then Return (open_file (FileDiff_new (slice_from 2 path) deleted false) st)
    else Return st
  else if startswith line "+++ " then
    let path := slice_from 4 line in
    if String.eqb path "/dev/null" then Return st
    else
      let name := if startswith path "b/" then slice_from 2 path else path in
      Return (open_file
                (FileDiff_new name (default modified (pending_status st)) false)
                st)
  else if startswith line "index " then Return st
  else
    match hunk_match line, current_file st with
    | Some (g1, g2, g3, g4), Some fi =>
        let* os := int lim g1 in
        let* oc := int_or_1 lim g2 in
        let* ns := int lim g3 in
        let* nc := int_or_1 lim g4 in
        Return (open_hunk fi
                  {| old_start := os; old_count := oc; new_start := ns;
                     new_count := nc; lines := [] |} st)
    | _, _ =>
        match current_hunk st with
        | Some at_ =>
            if startswith line "+" then
              Return (append_line at_ add (slice_from 1 line) true st)
            else if startswith line "-" then
              Return (append_line at_ delete (slice_from 1 line) false st)
            else if startswith line " " then
              Return (append_line at_ context (slice_from 1 line) true st)
            else Return st
        | None => Return st
        end
    end.

Fixpoint run (lim : nat) (st : ParseState) (ls : list string)
  : outcome ParseState :=
  match ls with
  | [] => Return st
  | line :: rest => let* st' := step lim st line in run lim st' rest
  end.

(** [parse_diff(diff_text)] under an interpreter whose conversion bound is
    [lim]. *)
Definition parse_diff (lim : nat) (diff_text : string) : outcome DiffResult :=
  let* st := run lim initial (split_lines diff_text) in
  Return (result st).

End DiffParser.


(** ** [format_diff] of [src/prompt.py] *)

Module Prompt.
Import Py DiffParser.

Definition marker (t : LineType) : string :=
  match t with
  | add => "+"
  | delete => "-"
  | context => " "
  end.

(** The line [format_diff] emits for one [Line]. *)
Definition format_line (l : Line) : string := marker (type l) +:+ content l.

(** The f-string of the hunk header. *)
Definition format_header (lim : nat) (h : Hunk) : outcome string :=
  let* os := str lim (old_start h) in
  let* oc := str lim (old_count h) in
  let* ns := str lim (new_start h) in
  let* nc := str lim (new_count h) in
  Return ("@@ -" +:+ os +:+ "," +:+ oc +:+ " +" +:+ ns +:+ "," +:+ nc +:+ " @@").

(** The [lines] list after the loop over [hs]. *)
Fixpoint format_hunks (lim : nat) (hs : list Hunk) : outcome (list string) :=
  match hs with
  | [] => Return []
  | h :: rest =>
      let* header := format_header lim h in
      let* tail := format_hunks lim rest in
      Return (header :: map format_line (lines h) ++ tail)
  end.

Definition format_diff (lim : nat) (file_diff : FileDiff) : outcome string :=
  let* ls := format_hunks lim (hunks file_diff) in
  Return (join_lines ls).

End Prompt.

(** ** [Reviewer._build_search_query] of [src/reviewer.py] *)

Module Reviewer.
Import Py DiffParser.

(** [[l.content for l in ls if l.content.strip()]] *)
Definition nonblank_contents (ls : list Line) : list string :=
  map content (List.filter (fun l => truthy (strip (content l))) ls).

Definition _build_search_query (file_diff : FileDiff) : string :=
  let added := nonblank_contents (added_lines file_diff) in
  let added :=
    match added with
    | [] => nonblank_contents (deleted_lines file_diff)
    | _ :: _ => added
    end in
  slice_to 500 (join_lines added).

End Reviewer.

(** ** [Reviewer.review] of [src/reviewer.py] *)

Module Review.
Import Py DiffParser.

Record ReviewComment : Set := {
  file : string;
  line : Z;
  severity : string;
  message : string
}.

Section review.

(** [self._review_file]: retrieval, prompt, the call to the model and the
    reading of its answer.  It is a parameter here: a call acts on the world
    of [W] (the model, the vector store) and returns the comments for the
    file or raises an error of [E] (an HTTP failure). *)
Context {W E : Type}
  (_review_file : FileDiff -> W -> (E + list ReviewComment) * W).

(** The [for] loop of [review] on the files yet to visit, [all_comments]
    being what it has gathered. *)
Fixpoint review_loop (fs : list FileDiff) (all_comments : list ReviewComment)
    (w : W) : (E + list ReviewComment) * W :=
  match fs with
  | [] => (inr all_comments, w)
  | file_diff :: rest =>
      if bool_decide (added_lines file_diff = [])
         && bool_decide (deleted_lines file_diff = [])
      then review_loop rest all_comments w
      else match _review_file file_diff w with
           | (inl e, w') => (inl e, w')
           | (inr comments, w') => review_loop rest (all_comments ++ comments) w'
           end
  end.

(** [review(diff_text)]: it fails with the error of [parse_diff] or with the
    error of [_review_file]. *)
Definition review (lim : nat) (diff_text : string) (w : W)
  : ((exn + E) + list ReviewComment) * W :=
  match parse_diff lim diff_text with
  | Raise e => (inl (inl e), w)
  | Return diff_result =>
      match review_loop (reviewable_files diff_result) [] w with
      | (inl e, w') => (inl (inr e), w')
      | (inr all_comments, w') => (inr all_comments, w')
      end
  end.

End review.

End Review.

(** ** [GitLabClient.get_mr_diff_text] of [src/gitlab_client.py] *)

Module GitLabClient.
Import Py DiffParser.

(** One entry of the [changes] list of the merge request API, with the keys
    the function reads.  A key may be missing ([None]); the values are typed
    as the API gives them, paths and diff as strings and flags as booleans. *)
Record Change : Set := {
  old_path : option string;
  new_path : option string;
  diff : option string;
  new_file : option bool;
  deleted_file : option bool;
  renamed_file : option bool
}.

(** [change.get(key, "")] *)
Definition get_str (v : option string) : string := default EmptyString v.

(** Truth value of [change.get(key)] *)
Definition get_flag (v : option bool) : bool := default false v.

(** What one turn of the loop appends to [diff_parts]. *)
Definition change_parts (change : Change) : list string :=
  let old_path := get_str (old_path change) in
  let new_path := get_str (new_path change) in
  let diff := get_str (diff change) in
  if negb (truthy diff) then []
  else
    [ "diff --git a/" +:+ old_path +:+ " b/" +:+ new_path ]
    ++ (if get_flag (new_file change) then
          [ "new file mode 100644"; "--- /dev/null"; "+++ b/" +:+ new_path ]
        else if get_flag (deleted_file change) then
          [ "deleted file mode 100644"; "--- a/" +:+ old_path; "+++ /dev/null" ]
        else if get_flag (renamed_file change) then
          [ "--- a/" +:+ old_path; "+++ b/" +:+ new_path ]
        else
          [ "--- a/" +:+ old_path; "+++ b/" +:+ new_path ])
    ++ [ diff ].

(** [get_mr_diff_text] on the list [data.get("changes", [])] that
    [get_mr_changes] fetched. *)
Definition get_mr_diff_text (changes : list Change) : string :=
  join_lines (changes ≫= change_parts).

End GitLabClient.

(** ** [run_review] of [src/server.py] *)

Module Server.
Import Py DiffParser Review GitLabClient.

Section run_review.
Context {W E : Type}
  (_review_file : FileDiff -> W -> (E + list ReviewComment) * W).

(** [run_review] once [get_mr_changes] has fetched [changes]: the comments
    it hands to [post_review], or [None] when it returns before that, either
    on a blank text or on an exception, which it logs and swallows. *)
Definition run_review (lim : nat) (changes : list Change) (w : W)
  : option (list ReviewComment) * W :=
  let diff_text := get_mr_diff_text changes in
  if negb (truthy (strip diff_text)) then (None, w)
  else match review _review_file lim diff_text w with
       | (inr comments, w') => (Some comments, w')
       | (inl _, w') => (None, w')
       end.

End run_review.

End Server.

(** ** Vocabulary of the properties *)

Module Spec.
Import Py DiffParser Prompt.

(** The hunk a reference [(file, hunk)] designates. *)
Definition hunk_of (d : DiffResult) (p : nat * nat) : option Hunk :=
  f ← files d !! p.1; hunks f !! p.2.

Definition hunk_at (st : ParseState) : nat * nat -> option Hunk :=
  hunk_of (result st).

(** A line that takes a number of its own in the new file. *)
Definition advances (l : Line) : Prop := type l = add \/ type l = context.

Global Instance advances_dec (l : Line) : Decision (advances l).
Proof. unfold advances. apply _. Defined.

(** The value of the counter after the lines of [h]. *)
Definition counter_after (h : Hunk) : Z :=
  new_start h + Z.of_nat (length (filter advances (lines h))).

Record wf (st : ParseState) : Prop := {
  wf_file : forall fi,
    current_file st = Some fi -> is_Some (files (result st) !! fi);
  wf_hunk : forall p,
    current_hunk st = Some p ->
    exists h, hunk_at st p = Some h /\ new_line_num st = counter_after h;
  wf_open : is_Some (current_hunk st) -> is_Some (current_file st)
}.

(** Every line of [h] carries the value the counter had when it was
    appended: [new_start] plus the add and context lines before it. *)
Definition numbered (h : Hunk) : Prop :=
  forall pre l post,
    lines h = pre ++ l :: post ->
    number l = new_start h + Z.of_nat (length (filter advances pre)).

(** Whether [current_file] refers to a [FileDiff] with [is_binary] set. *)
Definition current_is_binary (st : ParseState) : bool :=
  match current_file st with
  | Some fi => default false (is_binary <$> files (result st) !! fi)
  | None => false
  end.

(** A file that is not binary and whose name none of the skip patterns
    finds. *)
Definition reviewable (f : FileDiff) : Prop :=
  is_binary f = false
  /\ Forall (fun p => re_search p (filename f) = false) SKIP_PATTERNS.

Global Instance reviewable_dec (f : FileDiff) : Decision (reviewable f).
Proof. unfold reviewable. apply _. Defined.

(** A line whose text holds white space only. *)
Fixpoint all_space (s : string) : bool :=
  match s with
  | EmptyString => true
  | String c r => isspace c && all_space r
  end.

Definition blank (l : Line) : Prop := all_space (content l) = true.

(** The query as C10 words it: the text of the added lines, or of the
    deleted lines when there is no added line, joined and cut at 500. *)
Definition query_as_claimed (f : FileDiff) : string :=
  let ls := match added_lines f with
            | [] => deleted_lines f
            | _ :: _ => added_lines f
            end in
  slice_to 500 (join_lines (content <$> ls)).

(** The loop on a list of lines: [parse_diff] is this on the lines of its
    text. *)
Definition parse_lines (lim : nat) (ls : list string) : outcome DiffResult :=
  let* st := run lim initial ls in
  Return (result st).

(** [st2] is [st1] with the files [fs0] in front of its result: every
    reference is moved by their number.  The counters agree once a hunk is
    open. *)
Record framed (fs0 : list FileDiff) (st1 st2 : ParseState) : Prop := {
  framed_files : files (result st2) = fs0 ++ files (result st1);
  framed_file :
    current_file st2 = (fun i => (length fs0 + i)%nat) <$> current_file st1;
  framed_hunk :
    current_hunk st2
    = (fun p => ((length fs0 + p.1)%nat, p.2)) <$> current_hunk st1;
  framed_num : is_Some (current_hunk st1) -> new_line_num st2 = new_line_num st1;
  framed_pending : pending_status st2 = pending_status st1
}.

(** The end of a section: the end of the input or a [diff --git] line. *)
Definition section_end (post : list string) : Prop :=
  post = [] \/ exists dg rest, post = dg :: rest /\ startswith dg "diff --git" = true.

(** The marker lines of a rename. *)
Definition rename_marker (line : string) : bool :=
  startswith line "similarity index" || startswith line "rename from"
  || startswith line "rename to".

(** A content line led by ["-"] that the loop does not take for an old-path
    line. *)
Definition minus_line (line : string) : Prop :=
  startswith line "-" = true /\ startswith line "--- " = false.

(** The empty line and the "\ No newline at end of file" kind. *)
Definition trailer (line : string) : Prop :=
  line = "" \/ startswith line "\" = true.

(** The state right after the header of the first hunk of a new file [f],
    the files [fs] before it. *)
Definition in_hunk (fs : list FileDiff) (f : FileDiff) (n : Z)
    (pend : option Status) : ParseState :=
  {| result := {| files := fs ++ [f] |};
     current_file := Some (length fs);
     current_hunk := Some (length fs, 0%nat);
     new_line_num := n;
     pending_status := pend |}.

Definition one_hunk_file (name : string) (s : Status) (h : Hunk) : FileDiff :=
  {| filename := name; old_filename := None; status := s; hunks := [h];
     is_binary := false |}.

(** The [Line] recorded for the deleted line [l] under the number [n]. *)
Definition deleted_text (n : Z) (l : string) : Line :=
  {| number := n; content := slice_from 1 l; type := delete |}.

(** A non-empty run of ASCII digits: what [\d+] captures. *)
Fixpoint all_digits (s : string) : bool :=
  match s with
  | EmptyString => true
  | String c r => isdigit c && all_digits r
  end.

Definition decimal_run (s : string) : bool := truthy s && all_digits s.

(** The groups of a header that take part in a conversion. *)
Definition header_fields (line : string) : list string :=
  match hunk_match line with
  | Some (g1, g2, g3, g4) => g1 :: option_list g2 ++ g3 :: option_list g4
  | None => []
  end.

(** The line [line], met in state [st], appends a [FileDiff] to the result. *)
Definition constructs_file (lim : nat) (st : ParseState) (line : string) : Prop :=
  exists st', step lim st line = Return st'
    /\ length (files (result st')) = S (length (files (result st))).

(** What one line can do to the state. *)
Inductive effect (lim : nat) (st : ParseState) (line : string) : ParseState -> Prop :=
| effect_reset :
    startswith line "diff --git" = true -> effect lim st line (reset st)
| effect_pending s : effect lim st line (set_pending s st)
| effect_none : effect lim st line st
| effect_file name s bin :
    (bin = true -> startswith line BINARY_MARKER = true) ->
    effect lim st line (open_file (FileDiff_new name s bin) st)
| effect_hunk fi h g1 g2 g3 g4 :
    current_file st = Some fi -> hunk_match line = Some (g1, g2, g3, g4) ->
    int lim g1 = Return (old_start h) -> int_or_1 lim g2 = Return (old_count h) ->
    int lim g3 = Return (new_start h) -> int_or_1 lim g4 = Return (new_count h) ->
    lines h = [] ->
    effect lim st line (open_hunk fi h st)
| effect_line at_ t :
    current_hunk st = Some at_ -> startswith line (marker t) = true ->
    effect lim st line
      (append_line at_ t (slice_from 1 line) (bool_decide (t <> delete)) st).

(** The prefixes the loop looks for. *)
Definition keywords : list string :=
  [ "diff --git"; "new file"; "deleted file"; BINARY_MARKER; "--- "; "+++ ";
    "index "; "@@ -"; "+"; "-"; " " ].

(** [p] is comparable with none of them. *)
Definition foreign (p : string) : bool :=
  forallb (fun k => negb (startswith p k) && negb (startswith k p)) keywords.

(** The conversions of a header stay within the interpreter's bound. *)
Definition header_within (lim : nat) (line : string) : Prop :=
  Forall (fun g => within_max_str_digits lim (String.length g) = true)
    (header_fields line).

End Spec.

(** ** Sample inputs *)

Module Samples.
Import Py DiffParser Prompt Reviewer Spec.

(** A binary marker followed by a hunk. *)
Definition binary_then_header : string :=
  join_lines [ "Binary files a/x.png and b/x.png differ";
               "@@ -1 +1 @@";
               "+x" ].

(** A content line after a second new-path line. *)
Definition content_after_new_path : list string :=
  [ "+++ b/a.py"; "@@ -1 +1 @@"; "+x"; "+++ b/b.py"; "+y" ].

(** A new-path line, then a hunk header whose first number has 4301
    digits. *)
Definition oversized_header : string :=
  join_lines [ "+++ b/x"; "@@ -" +:+ repeat_str "1" 4301 +:+ " +1 @@" ].

(** The file of a hunk with an empty added line and a deleted line. *)
Definition blank_added_line : FileDiff :=
  {| filename := "f"; old_filename := None; status := modified;
     hunks := [ {| old_start := 1; old_count := 1; new_start := 1;
                   new_count := 1;
                   lines := [ {| number := 1; content := ""; type := add |};
                              {| number := 2; content := "x"; type := delete |} ]
                |} ];
     is_binary := false |}.

(** A rename without content change, as git prints it. *)
Definition pure_rename : string :=
  join_lines [ "diff --git a/old.py b/new.py"; "similarity index 100%";
               "rename from old.py"; "rename to new.py" ].

(** A deletion without its [deleted file] marker. *)
Definition deletion_without_marker : string :=
  join_lines [ "diff --git a/config.json b/config.json";
               "--- a/config.json"; "+++ /dev/null";
               "@@ -1,2 +0,0 @@"; "-a"; "-b" ].

(** An ordinary edit: one file, one hunk with lines of the three kinds. *)
Definition edit : string :=
  join_lines [ "diff --git a/m.py b/m.py"; "index 1a2b..3c4d 100644";
               "--- a/m.py"; "+++ b/m.py"; "@@ -4,4 +4,3 @@";
               " keep"; "-old"; "-older"; "+new"; " tail" ].

Definition edit_hunk : Hunk :=
  {| old_start := 4; old_count := 4; new_start := 4; new_count := 3;
     lines := [ {| number := 4; content := "keep"; type := context |};
                {| number := 5; content := "old"; type := delete |};
                {| number := 5; content := "older"; type := delete |};
                {| number := 5; content := "new"; type := add |};
                {| number := 6; content := "tail"; type := context |} ] |}.

Definition edit_file : FileDiff :=
  {| filename := "m.py"; old_filename := None; status := modified;
     hunks := [ edit_hunk ]; is_binary := false |}.

Definition edit_result : DiffResult := {| files := [ edit_file ] |}.

(** A binary file, then an edited file with its hunk. *)
Definition binary_then_edit : string :=
  join_lines [ "Binary files a/x.png and b/x.png differ";
               "+++ b/y"; "@@ -1 +1 @@"; "+x" ].

(** A hunk closed by the [diff --git] line of the next file. *)
Definition two_sections : string :=
  join_lines [ "+++ b/a.py"; "@@ -1 +1 @@"; "+x"; "diff --git a/b b/b"; "+y" ].

(** A deletion as git prints it. *)
Definition deletion : string :=
  join_lines [ "diff --git a/config.json b/config.json";
               "deleted file mode 100644"; "index 5d3c..0000";
               "--- a/config.json"; "+++ /dev/null"; "@@ -1,2 +0,0 @@";
               "-{"; "-}"; "" ].

Definition binary_then_edit_result : DiffResult :=
  {| files := [ FileDiff_new "x.png" binary true;
                {| filename := "y"; old_filename := None; status := modified;
                   hunks := [ {| old_start := 1; old_count := 1;
                                 new_start := 1; new_count := 1;
                                 lines := [ {| number := 1; content := "x";
                                               type := add |} ] |} ];
                   is_binary := false |} ] |}.

Definition lock_and_binary : DiffResult :=
  {| files := [ FileDiff_new "package-lock.json" modified false;
                FileDiff_new "x.png" binary true;
                edit_file ] |}.

End Samples.

(** ** Vocabulary of the further properties *)

Module SpecMore.
Import Py DiffParser Prompt Review GitLabClient Spec.

(** A string without line feed. *)
Fixpoint no_lf (s : string) : bool :=
  match s with
  | EmptyString => true
  | String c r => negb (Ascii.eqb c "010"%char) && no_lf r
  end.

(** The lines a change contributes to the text. *)
Definition section_lines (c : Change) : list string :=
  change_parts c ≫= split_lines.

(** The change carries a diff. *)
Definition has_diff (c : Change) : Prop := truthy (get_str (diff c)) = true.

Global Instance has_diff_dec (c : Change) : Decision (has_diff c).
Proof. unfold has_diff. apply _. Defined.

(** A line that opens no [FileDiff]: it begins with none of the binary
    marker, the old-path marker and the new-path marker. *)
Definition opens_no_file (l : string) : Prop :=
  startswith l BINARY_MARKER = false
  /\ startswith l "--- " = false /\ startswith l "+++ " = false.

(** The paths of the change are single lines and its diff opens no file. *)
Definition plain_change (c : Change) : Prop :=
  no_lf (get_str (old_path c)) = true /\ no_lf (get_str (new_path c)) = true
  /\ Forall opens_no_file (split_lines (get_str (diff c))).

(** The name and the status under which the parser reports a change. *)
Definition reported (c : Change) : string * Status * bool :=
  if get_flag (new_file c) then (get_str (new_path c), added, false)
  else if get_flag (deleted_file c) then (get_str (old_path c), deleted, false)
  else (get_str (new_path c), modified, false).

Definition report (f : FileDiff) : string * Status * bool :=
  (filename f, status f, is_binary f).

(** A file with an added or a deleted line: what [review] hands on. *)
Definition changed (f : FileDiff) : Prop :=
  added_lines f <> [] \/ deleted_lines f <> [].

Global Instance changed_dec (f : FileDiff) : Decision (changed f).
Proof. unfold changed. apply _. Defined.

(** The number of lines in the hunks of the files. *)
Definition total_lines (fs : list FileDiff) : Z :=
  sum_ints ((fun f => sum_ints ((fun h => len (lines h)) <$> hunks f)) <$> fs).

(** The fields of a [FileDiff] as the parser sets them. *)
Definition parsed_fields (f : FileDiff) : Prop :=
  old_filename f = None /\ status f <> renamed
  /\ (is_binary f = true <-> status f = binary).

(** The literal suffixes of the skip patterns. *)
Definition skip_suffixes : list string :=
  (fun p => match p with literal_dollar lit => lit end) <$> SKIP_PATTERNS.

(** The files [review] hands to [_review_file]. *)
Definition visited (d : DiffResult) : list FileDiff :=
  filter changed (reviewable_files d).

Section answered.
Context {W E : Type}
  (_review_file : FileDiff -> W -> (E + list ReviewComment) * W).

(** [_review_file] is called on the files of [fs] in turn, from the world
    [w]; every call returns, the answers are [css] and the world is [w'] in
    the end. *)
Inductive answered : list FileDiff -> W -> list (list ReviewComment) -> W -> Prop :=
| answered_nil w : answered [] w [] w
| answered_cons fd fs w comments w1 css w2 :
    _review_file fd w = (inr comments, w1) ->
    answered fs w1 css w2 ->
    answered (fd :: fs) w (comments :: css) w2.

End answered.

(** The branch of the loop a line takes, with what the branch knows of the
    line. *)
Inductive branch (st : ParseState) (line : string) : ParseState -> Prop :=
| branch_git :
    startswith line "diff --git" = true -> branch st line (reset st)
| branch_pending s :
    s = added \/ s = deleted -> branch st line (set_pending s st)
| branch_skip : branch st line st
| branch_binary name :
    startswith line BINARY_MARKER = true ->
    branch st line (open_file (FileDiff_new name binary true) st)
| branch_old_path name :
    startswith line "--- " = true -> pending_status st = Some deleted ->
    branch st line (open_file (FileDiff_new name deleted false) st)
| branch_new_path name :
    startswith line "+++ " = true ->
    branch st line
      (open_file (FileDiff_new name (default modified (pending_status st)) false)
         st)
| branch_header fi h :
    opens_no_file line -> lines h = [] ->
    0 <= old_start h -> 0 <= old_count h -> 0 <= new_start h ->
    0 <= new_count h ->
    branch st line (open_hunk fi h st)
| branch_content at_ t :
    opens_no_file line -> startswith line (marker t) = true ->
    current_hunk st = Some at_ ->
    branch st line
      (append_line at_ t (slice_from 1 line) (bool_decide (t <> delete)) st).

(** The values [pending_status] takes. *)
Definition pending_ok (st : ParseState) : Prop :=
  pending_status st = None \/ pending_status st = Some added
  \/ pending_status st = Some deleted.

(** A content line led by ["+"] that the loop does not take for a new-path
    line. *)
Definition plus_line (line : string) : Prop :=
  startswith line "+" = true /\ startswith line "+++ " = false.

(** A line led by one of the three markers that open a [FileDiff]. *)
Definition opener (line : string) : Prop := ~ opens_no_file line.

Global Instance opens_no_file_dec (l : string) : Decision (opens_no_file l).
Proof. unfold opens_no_file. apply _. Defined.

Global Instance plus_line_dec (l : string) : Decision (plus_line l).
Proof. unfold plus_line. apply _. Defined.

Global Instance minus_line_dec (l : string) : Decision (minus_line l).
Proof. unfold minus_line. apply _. Defined.

Global Instance opener_dec (l : string) : Decision (opener l).
Proof. unfold opener. apply _. Defined.

(** The number of lines of kind [t] in the store. *)
Definition count (t : LineType) (st : ParseState) : nat :=
  length (files (result st) ≫= lines_of_type t).

(** A [Line] that [format_diff] prints as one line which the loop takes for
    a content line. *)
Definition printable_line (l : Line) : Prop :=
  no_lf (content l) = true /\ opens_no_file (format_line l).

(** A hunk with the numbers of a header and lines numbered as the loop
    numbers them. *)
Definition printable_hunk (h : Hunk) : Prop :=
  0 <= old_start h /\ 0 <= old_count h /\ 0 <= new_start h /\ 0 <= new_count h
  /\ numbered h /\ Forall printable_line (lines h).

(** A file as the loop builds it from a new-path line and hunks. *)
Definition printable (f : FileDiff) : Prop :=
  no_lf (filename f) = true /\ old_filename f = None /\ status f = modified
  /\ is_binary f = false /\ Forall printable_hunk (hunks f).

(** The state while the loop reads the hunks of the one file [name]. *)
Definition printing (name : string) (hs : list Hunk)
    (open : option (nat * nat)) (n : Z) : ParseState :=
  {| result :=
       {| files := [ {| filename := name; old_filename := None;
                        status := modified; hunks := hs; is_binary := false |} ] |};
     current_file := Some 0%nat;
     current_hunk := open;
     new_line_num := n;
     pending_status := None |}.

Global Instance plain_change_dec (c : Change) : Decision (plain_change c).
Proof. unfold plain_change. apply _. Defined.

(** The lines of every hunk in the store are printable. *)
Definition lines_printable (st : ParseState) : Prop :=
  Forall (fun f => Forall (fun h => Forall printable_line (lines h)) (hunks f))
    (files (result st)).

End SpecMore.

(** ** Further sample inputs *)

Module SamplesMore.
Import Py DiffParser Prompt GitLabClient Spec Samples SpecMore.

(** The changes of a merge request: an edit, a rename without content
    change (no diff), a new file and a deleted file. *)
Definition sample_changes : list Change :=
  [ {| old_path := Some "a.py"; new_path := Some "a.py";
       diff := Some (join_lines [ "@@ -1 +1,2 @@"; " x"; "+y"; "" ]);
       new_file := Some false; deleted_file := Some false;
       renamed_file := Some false |};
    {| old_path := Some "old.py"; new_path := Some "new.py";
       diff := Some "";
       new_file := Some false; deleted_file := Some false;
       renamed_file := Some true |};
    {| old_path := Some "b.py"; new_path := Some "b.py";
       diff := Some (join_lines [ "@@ -0,0 +1 @@"; "+z"; "" ]);
       new_file := Some true; deleted_file := Some false;
       renamed_file := Some false |};
    {| old_path := Some "c.py"; new_path := Some "c.py";
       diff := Some (join_lines [ "@@ -1 +0,0 @@"; "-w"; "" ]);
       new_file := Some false; deleted_file := Some true;
       renamed_file := Some false |} ].

(** The first file section of [two_sections] and the section after it. *)
Definition first_section : string :=
  join_lines [ "+++ b/a.py"; "@@ -1 +1 @@"; "+x" ].

Definition second_section : string :=
  join_lines [ "diff --git a/b b/b"; "+y" ].

End SamplesMore.

(** * Properties *)

(** ** Strings *)

Section Strings.
Import Py.

Lemma app_String (a : ascii) (p r : string) :
  String a p +:+ r = String a (p +:+ r).
Proof. reflexivity. Qed.

Lemma startswith_app (p r : string) : startswith (p +:+ r) p = true.
Proof.
  induction p as [|a p IH]; [done|].
  rewrite app_String. cbn. by rewrite Ascii.eqb_refl.
Qed.

Lemma startswith_inv (s p : string) :
  startswith s p = true -> p +:+ slice_from (String.length p) s = s.
Proof.
  revert s. induction p as [|a p IH]; intros s H; [done|].
  destruct s as [|b s]; [done|]. rewrite app_String. cbn in H |- *.
  destruct (Ascii.eqb_spec a b) as [->|]; [|done].
  f_equal. by apply IH.
Qed.

(** Two prefixes of one string are comparable. *)
Lemma startswith_comparable (s p q : string) :
  startswith s p = true -> startswith s q = true ->
  startswith p q = true \/ startswith q p = true.
Proof.
  revert s q. induction p as [|a p IH]; intros s q Hp Hq.
  - right. by destruct q.
  - destruct q as [|b q]; [by left|].
    destruct s as [|c s]; [done|]. cbn in *.
    destruct (Ascii.eqb_spec a c) as [->|]; [|done].
    destruct (Ascii.eqb_spec b c) as [->|]; [|done].
    rewrite Ascii.eqb_refl. eauto.
Qed.

Lemma startswith_other (s p q : string) :
  startswith s p = true ->
  startswith p q = false -> startswith q p = false ->
  startswith s q = false.
Proof.
  intros Hp Hpq Hqp. destruct (startswith s q) eqn:Hq; [|done].
  destruct (startswith_comparable s p q Hp Hq); congruence.
Qed.

Lemma length_slice_to (n : nat) (s : string) :
  (String.length (slice_to n s) <= n)%nat.
Proof.
  revert s. induction n as [|n IH]; intros [|c s]; cbn; try lia.
  specialize (IH s). lia.
Qed.

End Strings.

(** ** The scanning loop *)

Section Loop.
Import Py DiffParser Prompt Spec.
Variable lim : nat.

Lemma bind_Return_inv {A B} (m : outcome A) (k : A -> outcome B) (b : B) :
  (let* a := m in k a) = Return b -> exists a, m = Return a /\ k a = Return b.
Proof. destruct m as [a|e]; [eauto|done]. Qed.

Lemma run_app (st : ParseState) (ls1 ls2 : list string) :
  run lim st (ls1 ++ ls2) = (let* st' := run lim st ls1 in run lim st' ls2).
Proof.
  revert st. induction ls1 as [|l ls1 IH]; intros st; [done|].
  cbn. destruct (step lim st l) as [st1|e]; [apply IH|done].
Qed.

Lemma run_snoc_inv (st st' : ParseState) (ls : list string) (l : string) :
  run lim st (ls ++ [l]) = Return st' ->
  exists st1, run lim st ls = Return st1 /\ step lim st1 l = Return st'.
Proof.
  rewrite run_app. intros (st1 & H1 & H2)%bind_Return_inv.
  exists st1. split; [done|]. cbn in H2. by destruct (step lim st1 l).
Qed.

(** Induction along the lines already scanned. *)
Lemma run_ind (ls : list string) (P : list string -> ParseState -> Prop) :
  P [] initial ->
  (forall pre st line st',
      pre ++ [line] `prefix_of` ls ->
      run lim initial pre = Return st -> P pre st ->
      step lim st line = Return st' -> P (pre ++ [line]) st') ->
  forall st, run lim initial ls = Return st -> P ls st.
Proof.
  intros H0 Hstep.
  assert (forall pre, pre `prefix_of` ls ->
            forall st, run lim initial pre = Return st -> P pre st) as H.
  { induction pre as [|l pre IH] using rev_ind; intros Hpre st Hrun.
    - cbn in Hrun. by simplify_eq.
    - apply run_snoc_inv in Hrun as (st1 & Hrun & Hl).
      eapply Hstep; eauto. apply IH; [|done].
      etrans; [|exact Hpre]. by apply prefix_app_r. }
  intros st Hrun. by apply H.
Qed.

Lemma step_effect (st st' : ParseState) (line : string) :
  step lim st line = Return st' -> effect lim st line st'.
Proof.
  unfold step.
  destruct (startswith line "diff --git") eqn:Hgit.
  { intros [= <-]. by constructor. }
  destruct (startswith line "new file"). { intros [= <-]. constructor. }
  destruct (startswith line "deleted file"). { intros [= <-]. constructor. }
  destruct (startswith line BINARY_MARKER) eqn:Hbin.
  { destruct (binary_match line); intros [= <-]; by constructor. }
  destruct (startswith line "--- ").
  { destruct (_ && _); intros [= <-]; by constructor. }
  destruct (startswith line "+++ ").
  { destruct (String.eqb _ _); intros [= <-]; by constructor. }
  destruct (startswith line "index "). { intros [= <-]. constructor. }
  assert (forall st0 : ParseState,
    match current_hunk st with
    | Some at_ =>
        if startswith line "+" then
          Return (append_line at_ add (slice_from 1 line) true st)
        else if startswith line "-" then
          Return (append_line at_ delete (slice_from 1 line) false st)
        else if startswith line " " then
          Return (append_line at_ context (slice_from 1 line) true st)
        else Return st
    | None => Return st
    end = Return st0 -> effect lim st line st0) as Hcontent.
  { intros st0. destruct (current_hunk st) as [at_|] eqn:Hat.
    - destruct (startswith line "+") eqn:Hp.
      { intros [= <-]. by apply (effect_line lim st line at_ add). }
      destruct (startswith line "-") eqn:Hm.
      { intros [= <-]. by apply (effect_line lim st line at_ delete). }
      destruct (startswith line " ") eqn:Hs.
      { intros [= <-]. by apply (effect_line lim st line at_ context). }
      intros [= <-]. constructor.
    - intros [= <-]. constructor. }
  destruct (hunk_match line) as [[[[g1 g2] g3] g4]|] eqn:Hm; [|apply Hcontent].
  destruct (current_file st) as [fi|] eqn:Hfi; [|apply Hcontent].
  intros (os & ? & (oc & ? & (ns & ? & (nc & ? & [= <-])%bind_Return_inv)
    %bind_Return_inv)%bind_Return_inv)%bind_Return_inv.
  by eapply effect_hunk.
Qed.

(** *** The store *)

Lemma hunk_at_open_file (st : ParseState) (f : FileDiff) (p : nat * nat) :
  hunks f = [] -> hunk_at (open_file f st) p = hunk_at st p.
Proof.
  intros Hf. unfold hunk_at, hunk_of, open_file; cbn.
  destruct (decide (p.1 < length (files (result st)))%nat) as [Hlt|Hge].
  - by rewrite lookup_app_l.
  - rewrite lookup_app_r; [|lia]. rewrite (lookup_ge_None_2 (files _)); [|lia].
    destruct (p.1 - _)%nat; cbn; [by rewrite Hf|done].
Qed.

Lemma hunk_at_open_hunk (st : ParseState) (fi : nat) (f : FileDiff) (h : Hunk)
    (p : nat * nat) :
  files (result st) !! fi = Some f ->
  hunk_at (open_hunk fi h st) p
  = if decide (p = (fi, length (hunks f))) then Some h else hunk_at st p.
Proof.
  intros Hf. unfold hunk_at, hunk_of, open_hunk; cbn. destruct p as [fj hj]; cbn.
  destruct (decide (fj = fi)) as [->|Hne].
  - rewrite list_lookup_alter_eq, Hf. cbn.
    case_decide as Hp.
    + simplify_eq. rewrite lookup_app_r by lia. by rewrite Nat.sub_diag.
    + destruct (decide (hj < length (hunks f))%nat).
      * by rewrite lookup_app_l.
      * rewrite lookup_app_r; [|lia]. rewrite (lookup_ge_None_2 (hunks f)); [|lia].
        destruct (hj - _)%nat eqn:?; [|done].
        destruct Hp. f_equal. lia.
  - rewrite list_lookup_alter_ne; [|done]. case_decide; [congruence|done].
Qed.

Lemma hunk_at_append_line (st : ParseState) (at_ p : nat * nat) (t : LineType)
    (text : string) (adv : bool) :
  hunk_at (append_line at_ t text adv st) p
  = if decide (p = at_)
    then push_line {| number := new_line_num st; content := text; type := t |}
           <$> hunk_at st p
    else hunk_at st p.
Proof.
  unfold hunk_at, hunk_of, append_line; cbn.
  destruct p as [fj hj], at_ as [fi hi]; cbn.
  destruct (decide (fj = fi)) as [->|Hne].
  - rewrite list_lookup_alter_eq. destruct (files (result st) !! fi) as [f|]; cbn.
    + destruct (decide (hj = hi)) as [->|Hne].
      * rewrite decide_True; [|done]. by rewrite list_lookup_alter_eq.
      * rewrite decide_False; [|congruence]. by rewrite list_lookup_alter_ne.
    + by case_decide.
  - rewrite list_lookup_alter_ne; [|done]. rewrite decide_False; [done|congruence].
Qed.

(** *** Well-formed states *)

Lemma is_Some_alter {A} (g : A -> A) (i j : nat) (l : list A) :
  is_Some (l !! j) -> is_Some (alter g i l !! j).
Proof. rewrite !lookup_lt_is_Some. by rewrite length_alter. Qed.

Lemma wf_initial : wf initial.
Proof. split; cbn; done. Qed.

Lemma counter_after_push (h : Hunk) (l : Line) :
  counter_after (push_line l h)
  = if bool_decide (type l <> delete) then counter_after h + 1
    else counter_after h.
Proof.
  unfold counter_after; cbn. rewrite filter_app, length_app.
  rewrite filter_cons, filter_nil.
  destruct l as [n c []]; case_bool_decide; try done;
    case_decide as Ha; unfold advances in Ha; cbn in *;
    try lia; try (by destruct Ha); try (by destruct Ha; auto).
Qed.

Lemma wf_effect (st st' : ParseState) (line : string) :
  wf st -> effect lim st line st' -> wf st'.
Proof.
  intros [Hfile Hhunk Hopen] He. destruct He as
    [Hgit|s| |name s bin Hbin|fi h g1 g2 g3 g4 Hfi Hm _ _ _ _ Hh|at_ t Hat Ht].
  - split; cbn; done.
  - split; cbn; done.
  - split; cbn; done.
  - split; cbn.
    + intros fi [= <-]. rewrite lookup_app_r by lia.
      rewrite Nat.sub_diag. by eexists.
    + intros p Hp. destruct (Hhunk p Hp) as (h & Hh & Hn).
      exists h. split; [|done].
      by rewrite (hunk_at_open_file st (FileDiff_new name s bin) p).
    + intros _. by eexists.
  - destruct (Hfile fi Hfi) as [f Hf]. split; cbn.
    + intros fj Hfj. apply is_Some_alter. by apply Hfile.
    + intros p [= <-]. exists h. rewrite Hf; cbn. split.
      * rewrite (hunk_at_open_hunk st fi f h _ Hf). by rewrite decide_True.
      * unfold counter_after. rewrite Hh. cbn. lia.
    + intros _. rewrite Hfi. by eexists.
  - destruct (Hhunk at_ Hat) as (h & Hh & Hn). split; cbn.
    + intros fj Hfj. apply is_Some_alter. by apply Hfile.
    + intros p Hp. assert (p = at_) as -> by congruence.
      eexists. rewrite hunk_at_append_line, decide_True, Hh by done. cbn.
      split; [done|]. rewrite counter_after_push; cbn.
      rewrite Hn. by destruct t.
    + done.
Qed.

Lemma wf_step (st st' : ParseState) (line : string) :
  wf st -> step lim st line = Return st' -> wf st'.
Proof. intros Hwf Hstep. eapply wf_effect; [done|]. by apply step_effect. Qed.

Lemma wf_run (ls : list string) (st : ParseState) :
  run lim initial ls = Return st -> wf st.
Proof.
  apply (run_ind ls (fun _ st => wf st)); [apply wf_initial|].
  intros pre st0 line st' _ _ Hwf Hstep. by eapply wf_step.
Qed.

(** What one line can do to the hunk at [p]: leave it, create it (empty,
    with the numbers of the header), or append the line to it. *)
Lemma effect_hunk_at (st st' : ParseState) (line : string) (p : nat * nat)
    (h' : Hunk) :
  wf st -> effect lim st line st' -> hunk_at st' p = Some h' ->
  hunk_at st p = Some h'
  \/ (hunk_at st p = None /\ lines h' = [] /\ current_hunk st' = Some p /\
      exists g1 g2 g3 g4,
        int lim g1 = Return (old_start h') /\
        int_or_1 lim g2 = Return (old_count h') /\
        int lim g3 = Return (new_start h') /\
        int_or_1 lim g4 = Return (new_count h'))
  \/ (exists h t,
        hunk_at st p = Some h /\ current_hunk st = Some p /\
        startswith line (marker t) = true /\
        h' = push_line {| number := new_line_num st;
                          content := slice_from 1 line; type := t |} h /\
        new_line_num st' = if bool_decide (t <> delete)
                           then new_line_num st + 1 else new_line_num st).
Proof.
  intros [Hfile Hhunk Hopen] He. destruct He as
    [Hgit|s| |name s bin Hbin|fi h g1 g2 g3 g4 Hfi Hm ? ? ? ? Hh|at_ t Hat Ht];
    try (by left).
  - rewrite hunk_at_open_file by done. by left.
  - destruct (Hfile fi Hfi) as [f Hf].
    rewrite (hunk_at_open_hunk st fi f h p Hf).
    case_decide as Hp; [|by left]. intros [= <-]. right; left.
    split_and!; [|done| |by exists g1, g2, g3, g4].
    + subst p. unfold hunk_at, hunk_of; cbn. rewrite Hf; cbn.
      by apply lookup_ge_None_2.
    + cbn. by rewrite Hf, Hp.
  - rewrite hunk_at_append_line. case_decide as Hp; [|by left].
    subst p. destruct (hunk_at st at_) as [h|] eqn:Hh; [|done].
    intros [= <-]. right; right. by exists h, t.
Qed.

(** A hunk, once in the store, stays at its place. *)
Lemma effect_hunk_at_mono (st st' : ParseState) (line : string)
    (p : nat * nat) :
  wf st -> effect lim st line st' ->
  is_Some (hunk_at st p) -> is_Some (hunk_at st' p).
Proof.
  intros [Hfile Hhunk Hopen] He [h0 Hp]. destruct He as
    [Hgit|s| |name s bin Hbin|fi h g1 g2 g3 g4 Hfi Hm ? ? ? ? Hh|at_ t Hat Ht];
    try (by eexists).
  - rewrite hunk_at_open_file by done. by eexists.
  - destruct (Hfile fi Hfi) as [f Hf].
    rewrite (hunk_at_open_hunk st fi f h p Hf). case_decide; by eexists.
  - rewrite hunk_at_append_line, Hp. case_decide; by eexists.
Qed.

(** Induction on the history of a hunk of the store: it was opened empty
    by a header line, and each later line left it alone or was appended to
    it under the number the counter had then. *)
Lemma hunks_ind (Q : list string -> Hunk -> Prop) :
  (forall pre h g1 g2 g3 g4,
      lines h = [] ->
      int lim g1 = Return (old_start h) -> int_or_1 lim g2 = Return (old_count h) ->
      int lim g3 = Return (new_start h) -> int_or_1 lim g4 = Return (new_count h) ->
      Q pre h) ->
  (forall pre line h, Q pre h -> Q (pre ++ [line]) h) ->
  (forall pre line h t,
      Q pre h -> startswith line (marker t) = true ->
      Q (pre ++ [line])
        (push_line {| number := counter_after h;
                      content := slice_from 1 line; type := t |} h)) ->
  forall ls st, run lim initial ls = Return st ->
  forall p h, hunk_at st p = Some h -> Q ls h.
Proof.
  intros Hnew Hkeep Hpush ls.
  apply (run_ind ls (fun pre st => forall p h, hunk_at st p = Some h -> Q pre h)).
  { intros p h. unfold hunk_at, hunk_of; cbn. by rewrite lookup_nil. }
  intros pre st line st' _ Hrun IH Hstep p h' Hh'.
  pose proof (wf_run _ _ Hrun) as Hwf.
  destruct (effect_hunk_at st st' line p h' Hwf (step_effect _ _ _ Hstep) Hh')
    as [Hsame|[(_ & Hl & _ & g1 & g2 & g3 & g4 & ? & ? & ? & ?)
              |(h & t & Hh & Hcur & Ht & -> & _)]].
  - apply Hkeep. by eapply IH.
  - by eapply Hnew.
  - destruct (wf_hunk st Hwf p Hcur) as (h0 & Hh0 & ->).
    assert (h0 = h) as -> by congruence.
    apply Hpush; [by eapply IH|done].
Qed.

Lemma numbered_run (ls : list string) (st : ParseState) (p : nat * nat)
    (h : Hunk) :
  run lim initial ls = Return st -> hunk_at st p = Some h -> numbered h.
Proof.
  intros Hrun. revert p h. revert ls st Hrun.
  apply (hunks_ind (fun _ h => numbered h)).
  - intros _ h0 _ _ _ _ Hl _ _ _ _ pre l post. rewrite Hl. by destruct pre.
  - done.
  - intros _ line h0 t IH _ pre l post. cbn.
    destruct post as [|y post _] using rev_ind.
    + intros [<- <-]%app_inj_tail. done.
    + rewrite app_comm_cons, app_assoc. intros [Hl _]%app_inj_tail.
      by apply (IH pre l post).
Qed.

Lemma filter_advances_deletes (ls : list Line) :
  Forall (fun l => type l = delete) ls -> filter advances ls = [].
Proof.
  induction 1 as [|l ls Hl _ IH]; [done|].
  rewrite filter_cons, decide_False; [done|].
  unfold advances. rewrite Hl. by intros [].
Qed.

Lemma parse_diff_inv (s : string) (r : DiffResult) :
  parse_diff lim s = Return r ->
  exists st, run lim initial (split_lines s) = Return st /\ result st = r.
Proof.
  unfold parse_diff. intros (st & Hrun & [= <-])%bind_Return_inv. eauto.
Qed.

Lemma elem_of_hunk_at (st : ParseState) (f : FileDiff) (h : Hunk) :
  f ∈ files (result st) -> h ∈ hunks f -> exists p, hunk_at st p = Some h.
Proof.
  intros [fi Hf]%list_elem_of_lookup_1 [hi Hh]%list_elem_of_lookup_1.
  exists (fi, hi). unfold hunk_at, hunk_of; cbn. by rewrite Hf.
Qed.

Lemma numbered_seqZ (n : Z) (ls : list Line) :
  (forall pre l post,
      ls = pre ++ l :: post ->
      number l = n + Z.of_nat (length (filter advances pre))) ->
  number <$> filter advances ls
  = seqZ n (Z.of_nat (length (filter advances ls))).
Proof.
  induction ls as [|x ls IH] using rev_ind; intros Hnum; [done|].
  rewrite filter_app, filter_cons, filter_nil.
  assert (number <$> filter advances ls
          = seqZ n (Z.of_nat (length (filter advances ls)))) as IH'.
  { apply IH. intros pre l post ->. apply (Hnum pre l (post ++ [x])).
    by rewrite <- app_assoc. }
  case_decide.
  - rewrite length_app, Nat.add_1_r, seqZ_S, fmap_app, IH'. cbn.
    by rewrite (Hnum ls x []).
  - by rewrite app_nil_r.
Qed.

End Loop.

(** ** Line numbers inside a hunk *)

Section Numbers.
Import Py DiffParser Prompt Spec.

(** C1.  In every hunk of a result of [parse_diff], the numbers of the add
    and context lines, read in order, are the consecutive integers that
    start at the hunk's [new_start]. *)
Theorem add_context_numbers_consecutive (lim : nat) (s : string)
    (r : DiffResult) (f : FileDiff) (h : Hunk) :
  parse_diff lim s = Return r -> f ∈ files r -> h ∈ hunks f ->
  number <$> filter advances (lines h)
  = seqZ (new_start h) (Z.of_nat (length (filter advances (lines h)))).
Proof.
  intros (st & Hrun & <-)%parse_diff_inv Hf Hh.
  destruct (elem_of_hunk_at st f h Hf Hh) as [p Hp].
  apply numbered_seqZ. exact (numbered_run lim _ st p h Hrun Hp).
Qed.

(** C2.  In every hunk of a result of [parse_diff], a delete line carries
    the value of the counter at its place ([new_start] plus the add and
    context lines before it), and the line after a run of delete lines, of
    whatever kind, carries that same number.  At the step that appends a
    delete line the counter keeps its value. *)
Theorem delete_lines_take_counter (lim : nat) (s : string) (r : DiffResult) :
  parse_diff lim s = Return r ->
  (forall f h pre d post,
      f ∈ files r -> h ∈ hunks f ->
      lines h = pre ++ d :: post -> type d = delete ->
      number d = new_start h + Z.of_nat (length (filter advances pre))
      /\ forall mid x post',
           post = mid ++ x :: post' ->
           Forall (fun l => type l = delete) mid ->
           number x = number d)
  /\ (forall pre line rest st st' p h d,
        split_lines s = pre ++ line :: rest ->
        run lim initial pre = Return st -> step lim st line = Return st' ->
        hunk_at st p = Some h -> hunk_at st' p = Some (push_line d h) ->
        type d = delete ->
        number d = new_line_num st /\ new_line_num st' = new_line_num st).
Proof.
  intros (st & Hrun & <-)%parse_diff_inv. split.
  - intros f h pre d post Hf Hh Hl Hd.
    destruct (elem_of_hunk_at st f h Hf Hh) as [p Hp].
    pose proof (numbered_run lim _ st p h Hrun Hp) as Hnum.
    split; [by apply (Hnum pre d post)|].
    intros mid x post' -> Hmid.
    rewrite (Hnum pre d _ Hl).
    rewrite (Hnum (pre ++ d :: mid) x post').
    2:{ rewrite Hl. by rewrite <- app_assoc. }
    rewrite filter_app, filter_cons, decide_False.
    2:{ unfold advances. rewrite Hd. by intros []. }
    by rewrite (filter_advances_deletes mid Hmid), app_nil_r.
  - intros pre line rest st0 st' p h d _ Hpre Hstep Hh Hh' Hd.
    pose proof (wf_run lim _ _ Hpre) as Hwf.
    destruct (effect_hunk_at lim st0 st' line p _ Hwf (step_effect _ _ _ _ Hstep) Hh')
      as [Hsame|[(Hnone & _)|(h0 & t & Hh0 & Hcur & Ht & Heq & Hn)]].
    + rewrite Hh in Hsame. injection Hsame as Hsame.
      apply (f_equal (fun x => length (lines x))) in Hsame. cbn in Hsame.
      rewrite length_app in Hsame. cbn in Hsame. lia.
    + congruence.
    + assert (h0 = h) as -> by congruence.
      apply (f_equal lines) in Heq. cbn in Heq.
      apply app_inj_tail in Heq as [_ ->]. cbn in *. subst t. done.
Qed.

End Numbers.

(** ** How the loop classifies a line *)

Section Lines.
Import Py DiffParser Prompt Spec.
Variable lim : nat.

Ltac other_prefix H := rewrite (startswith_other _ _ _ H) by reflexivity.

Lemma step_git (st : ParseState) (line : string) :
  startswith line "diff --git" = true -> step lim st line = Return (reset st).
Proof. intros H. unfold step. by rewrite H. Qed.

Lemma step_deleted_file (st : ParseState) (line : string) :
  startswith line "deleted file" = true ->
  step lim st line = Return (set_pending deleted st).
Proof. intros H. unfold step. do 2 other_prefix H. by rewrite H. Qed.

Lemma step_index (st : ParseState) (line : string) :
  startswith line "index " = true -> step lim st line = Return st.
Proof.
  intros H. unfold step. do 3 other_prefix H. unfold BINARY_MARKER.
  do 3 other_prefix H. by rewrite H.
Qed.

Lemma hunk_match_prefix (line : string) :
  is_Some (hunk_match line) -> startswith line "@@ -" = true.
Proof. unfold hunk_match. destruct (startswith line "@@ -"); [done|by intros []]. Qed.

(** A line that matches the header pattern reaches the header case. *)
Lemma step_header (st : ParseState) (line : string) (fi : nat)
    (g1 g3 : string) (g2 g4 : option string) :
  hunk_match line = Some (g1, g2, g3, g4) -> current_file st = Some fi ->
  step lim st line
  = (let* os := int lim g1 in
     let* oc := int_or_1 lim g2 in
     let* ns := int lim g3 in
     let* nc := int_or_1 lim g4 in
     Return (open_hunk fi
               {| old_start := os; old_count := oc; new_start := ns;
                  new_count := nc; lines := [] |} st)).
Proof.
  intros Hm Hfi. assert (startswith line "@@ -" = true) as H.
  { apply hunk_match_prefix. rewrite Hm. by eexists. }
  unfold step. do 3 other_prefix H. unfold BINARY_MARKER.
  do 4 other_prefix H. by rewrite Hm, Hfi.
Qed.

(** A line led by ["-"], the old-path marker apart, reaches the content
    case. *)
Lemma step_minus (st : ParseState) (line : string) (at_ : nat * nat) :
  startswith line "-" = true -> startswith line "--- " = false ->
  current_hunk st = Some at_ ->
  step lim st line
  = Return (append_line at_ delete (slice_from 1 line) false st).
Proof.
  intros H Hold Hat. unfold step. do 3 other_prefix H. unfold BINARY_MARKER.
  other_prefix H. rewrite Hold. do 2 other_prefix H.
  unfold hunk_match. other_prefix H. rewrite Hat. other_prefix H.
  by rewrite H.
Qed.

(** A line that begins with a foreign prefix changes nothing. *)
Lemma step_foreign (st : ParseState) (line p : string) :
  startswith line p = true -> foreign p = true -> step lim st line = Return st.
Proof.
  intros H Hp. unfold foreign in Hp. rewrite forallb_forall in Hp.
  assert (forall k, In k keywords -> startswith line k = false) as Hk.
  { intros k Hin. specialize (Hp k Hin).
    apply andb_true_iff in Hp as [Hpk Hkp].
    apply negb_true_iff in Hpk, Hkp. by apply (startswith_other line p k). }
  unfold step, hunk_match.
  rewrite !Hk by (cbn; tauto). by destruct (current_hunk st).
Qed.

(** The empty line changes nothing either. *)
Lemma step_empty (st : ParseState) : step lim st "" = Return st.
Proof. unfold step; cbn. by destruct (current_hunk st). Qed.

End Lines.

(** ** Life of a hunk *)

Section Lifecycle.
Import Py DiffParser Prompt Spec.
Variable lim : nat.

(** Where [current_hunk] can point after one line. *)
Lemma effect_current_hunk (st st' : ParseState) (line : string) :
  wf st -> effect lim st line st' ->
  current_hunk st' = current_hunk st \/ current_hunk st' = None
  \/ exists p, current_hunk st' = Some p /\ hunk_at st p = None.
Proof.
  intros Hwf He. destruct He as
    [Hgit|s| |name s bin Hbin|fi h g1 g2 g3 g4 Hfi Hm ? ? ? ? Hh|at_ t Hat Ht];
    cbn; auto.
  destruct (wf_file st Hwf fi Hfi) as [f Hf].
  right; right. eexists. split; [done|].
  rewrite Hf; cbn. unfold hunk_at, hunk_of; cbn. rewrite Hf; cbn.
  by apply lookup_ge_None_2.
Qed.

(** A hunk that [current_hunk] does not refer to is never touched again. *)
Lemma closed_step (st st' : ParseState) (line : string) (p : nat * nat)
    (h : Hunk) :
  wf st -> step lim st line = Return st' ->
  hunk_at st p = Some h -> current_hunk st <> Some p ->
  hunk_at st' p = Some h /\ current_hunk st' <> Some p.
Proof.
  intros Hwf Hstep%step_effect Hh Hcur. split.
  - destruct (effect_hunk_at_mono lim st st' line p Hwf Hstep) as [h' Hh'];
      [by eexists|].
    destruct (effect_hunk_at lim st st' line p h' Hwf Hstep Hh')
      as [Hsame|[(Hnone & _)|(h0 & t & _ & Hcur' & _)]]; congruence.
  - destruct (effect_current_hunk st st' line Hwf Hstep)
      as [->|[->|(p' & -> & Hnone)]]; congruence.
Qed.

Lemma closed_run (rest : list string) (st st' : ParseState) (p : nat * nat)
    (h : Hunk) :
  wf st -> run lim st rest = Return st' ->
  hunk_at st p = Some h -> current_hunk st <> Some p ->
  hunk_at st' p = Some h.
Proof.
  revert st. induction rest as [|line rest IH]; intros st Hwf Hrun Hh Hcur.
  - cbn in Hrun. by simplify_eq.
  - cbn in Hrun. apply bind_Return_inv in Hrun as (st1 & Hstep & Hrun).
    destruct (closed_step st st1 line p h Hwf Hstep Hh Hcur) as [Hh1 Hcur1].
    apply (IH st1); [by eapply wf_step|done..].
Qed.

(** A [diff --git] line and a line that matches the header pattern both
    take [current_hunk] away from the hunk it referred to. *)
Lemma boundary_closes (st st' : ParseState) (b : string) (p : nat * nat)
    (h : Hunk) :
  wf st -> step lim st b = Return st' ->
  current_hunk st = Some p -> hunk_at st p = Some h ->
  startswith b "diff --git" = true \/ is_Some (hunk_match b) ->
  hunk_at st' p = Some h /\ current_hunk st' <> Some p.
Proof.
  intros Hwf Hstep Hcur Hh [Hgit|[[[[g1 g2] g3] g4] Hm]].
  - rewrite (step_git lim st b Hgit) in Hstep. by simplify_eq.
  - destruct (wf_open st Hwf) as [fi Hfi]; [by eexists|].
    destruct (wf_file st Hwf fi Hfi) as [f Hf].
    rewrite (step_header lim st b fi g1 g3 g2 g4 Hm Hfi) in Hstep.
    apply bind_Return_inv in Hstep as (os & _ & Hstep).
    apply bind_Return_inv in Hstep as (oc & _ & Hstep).
    apply bind_Return_inv in Hstep as (ns & _ & Hstep).
    apply bind_Return_inv in Hstep as (nc & _ & [= <-]).
    assert (p <> (fi, length (hunks f))) as Hp.
    { intros ->. unfold hunk_at, hunk_of in Hh. cbn in Hh.
      rewrite Hf in Hh. cbn in Hh. apply lookup_lt_Some in Hh. lia. }
    split.
    + rewrite (hunk_at_open_hunk st fi f _ p Hf). by rewrite decide_False.
    + cbn. rewrite Hf. cbn. congruence.
Qed.

End Lifecycle.

Section LifecycleClaims.
Import Py DiffParser Prompt Spec Samples.

(** C8, as stated, fails: a new-path line that constructs a [FileDiff]
    leaves the open hunk open, and the content line after it is appended to
    that hunk. *)
Lemma new_path_line_keeps_hunk_open :
  exists pre b rest st p h r,
    split_lines (join_lines content_after_new_path) = pre ++ b :: rest
    /\ run default_max_str_digits initial pre = Return st
    /\ current_hunk st = Some p /\ hunk_at st p = Some h
    /\ constructs_file default_max_str_digits st b
    /\ parse_diff default_max_str_digits (join_lines content_after_new_path)
       = Return r
    /\ hunk_of r p <> Some h.
Proof.
  exists [ "+++ b/a.py"; "@@ -1 +1 @@"; "+x" ], "+++ b/b.py", [ "+y" ].
  eexists _, (0%nat, 0%nat), _, _.
  split; [vm_compute; reflexivity|].
  split; [vm_compute; reflexivity|].
  split; [reflexivity|]. split; [vm_compute; reflexivity|].
  split; [eexists; split; vm_compute; reflexivity|].
  split; [vm_compute; reflexivity|].
  vm_compute. discriminate.
Qed.

(** C8, amended.  Once a [diff --git] line or a line that matches the hunk
    header is seen, the hunk that was open before it is in the result as it
    was at that point: no further [Line] is appended to it. *)
Theorem hunk_closed_at_boundary (lim : nat) (s : string) (r : DiffResult)
    (pre rest : list string) (b : string) (st : ParseState) (p : nat * nat)
    (h : Hunk) :
  parse_diff lim s = Return r ->
  split_lines s = pre ++ b :: rest ->
  run lim initial pre = Return st ->
  current_hunk st = Some p -> hunk_at st p = Some h ->
  startswith b "diff --git" = true \/ is_Some (hunk_match b) ->
  hunk_of r p = Some h.
Proof.
  intros (st' & Hrun & <-)%parse_diff_inv Hs Hpre Hcur Hh Hb.
  rewrite Hs, run_app, Hpre in Hrun. cbn in Hrun.
  apply bind_Return_inv in Hrun as (st1 & Hstep & Hrun).
  pose proof (wf_run lim _ _ Hpre) as Hwf.
  destruct (boundary_closes lim st st1 b p h Hwf Hstep Hcur Hh Hb) as [Hh1 Hcur1].
  apply (closed_run lim rest st1 st' p h); [by eapply wf_step|done..].
Qed.

End LifecycleClaims.

(** ** Binary files *)

Section Binary.
Import Py DiffParser Prompt Spec Samples.

(** C3, as stated, fails: a hunk header that follows a binary marker opens
    a hunk in the binary [FileDiff]. *)
Lemma binary_file_receives_hunk :
  exists r f,
    parse_diff default_max_str_digits binary_then_header = Return r
    /\ f ∈ files r /\ is_binary f = true /\ hunks f <> [].
Proof.
  eexists _, _. split; [vm_compute; reflexivity|].
  split; [apply list_elem_of_here|]. by split.
Qed.

(** A file of the store stays at its place, keeps its [is_binary] flag and
    loses no hunk. *)
Lemma file_kept_effect (lim : nat) (st st' : ParseState) (line : string)
    (i : nat) (f : FileDiff) :
  effect lim st line st' -> files (result st) !! i = Some f ->
  exists f', files (result st') !! i = Some f'
    /\ is_binary f' = is_binary f
    /\ (length (hunks f) <= length (hunks f'))%nat.
Proof.
  intros He Hf. destruct He as
    [Hgit|s0| |name s0 bin Hbin|fi h g1 g2 g3 g4 Hfi Hm _ _ _ _ Hh|[fa ha] t Hat Ht];
    cbn; try (by exists f).
  - exists f. split; [by apply lookup_app_l_Some|done].
  - rewrite list_lookup_alter. destruct (decide (fi = i)) as [->|Hne].
    + rewrite Hf. eexists. split; [done|]. cbn. rewrite length_app. cbn.
      split; [done|lia].
    + by exists f.
  - rewrite list_lookup_alter. destruct (decide (fa = i)) as [->|Hne].
    + rewrite Hf. eexists. split; [done|]. cbn. by rewrite length_alter.
    + by exists f.
Qed.

Lemma file_kept_run (lim : nat) (rest : list string) (st st' : ParseState)
    (i : nat) (f : FileDiff) :
  run lim st rest = Return st' -> files (result st) !! i = Some f ->
  exists f', files (result st') !! i = Some f'
    /\ is_binary f' = is_binary f
    /\ (length (hunks f) <= length (hunks f'))%nat.
Proof.
  revert st f. induction rest as [|line rest IH]; intros st f Hrun Hf.
  - cbn in Hrun. simplify_eq. by exists f.
  - cbn in Hrun. apply bind_Return_inv in Hrun as (st1 & Hstep & Hrun).
    destruct (file_kept_effect lim st st1 line i f (step_effect _ _ _ _ Hstep) Hf)
      as (f1 & Hf1 & Hb1 & Hl1).
    destruct (IH st1 f1 Hrun Hf1) as (f' & Hf' & Hb' & Hl').
    exists f'. split; [done|]. split; [congruence|lia].
Qed.

(** C3, amended.  Every [FileDiff] of the result with [is_binary] set has
    no hunks exactly when no line of the input that matches the hunk header
    is met while [current_file] is a binary [FileDiff]. *)
Theorem binary_files_have_no_hunks (lim : nat) (s : string) (r : DiffResult) :
  parse_diff lim s = Return r ->
  (forall pre line rest st,
      split_lines s = pre ++ line :: rest ->
      run lim initial pre = Return st ->
      is_Some (hunk_match line) -> current_is_binary st = false)
  <-> (forall f, f ∈ files r -> is_binary f = true -> hunks f = []).
Proof.
  intros (st & Hrun & <-)%parse_diff_inv. split.
  - intros Hhdr f [fi Hf]%list_elem_of_lookup_1.
    revert fi f Hf. revert st Hrun.
    apply (run_ind lim (split_lines s)
             (fun _ st => forall fi f, files (result st) !! fi = Some f ->
                                       is_binary f = true -> hunks f = [])).
    { intros fi f. cbn. by rewrite lookup_nil. }
    intros pre st line st' [rest Hpre] Hrun IH Hstep fi f.
    rewrite <- app_assoc in Hpre. cbn in Hpre.
    pose proof (wf_run lim _ _ Hrun) as Hwf.
    destruct (step_effect lim _ _ _ Hstep) as
      [Hgit|s0| |name s0 bin Hbin|fi0 h g1 g2 g3 g4 Hfi Hm _ _ _ _ Hh|at_ t Hat Ht];
      cbn; try apply IH.
    + intros [[_ Hold]|[_ <-]]%lookup_snoc_Some; [by eapply IH|done].
    + rewrite list_lookup_alter. case_decide as Hfi0; [subst fi|by apply IH].
      destruct (files (result st) !! fi0) as [f0|] eqn:Hf0; [|done].
      intros [= <-]. cbn. intros Hb.
      assert (current_is_binary st = false) as Hnb.
      { eapply (Hhdr pre line rest); [done|done|]. rewrite Hm. by eexists. }
      unfold current_is_binary in Hnb. rewrite Hfi, Hf0 in Hnb. cbn in Hnb.
      congruence.
    + destruct at_ as [fa ha]; cbn.
      rewrite list_lookup_alter.
      destruct (decide (fa = fi)) as [<-|Hne]; [|by apply IH].
      destruct (files (result st) !! fa) as [f0|] eqn:Hf0; [|done].
      intros [= <-]. cbn. intros Hb. by rewrite (IH _ f0 Hf0 Hb).
  - intros Hnone pre line rest st0 Hs Hpre [[[[g1 g2] g3] g4] Hm].
    destruct (current_is_binary st0) eqn:Hbin; [exfalso|done].
    unfold current_is_binary in Hbin.
    destruct (current_file st0) as [fi|] eqn:Hfi; [|done].
    destruct (files (result st0) !! fi) as [f|] eqn:Hf; [|done]. cbn in Hbin.
    rewrite Hs, run_app, Hpre in Hrun. cbn in Hrun.
    apply bind_Return_inv in Hrun as (st1 & Hstep & Hrun).
    rewrite (step_header lim st0 line fi g1 g3 g2 g4 Hm Hfi) in Hstep.
    apply bind_Return_inv in Hstep as (os & _ & Hstep).
    apply bind_Return_inv in Hstep as (oc & _ & Hstep).
    apply bind_Return_inv in Hstep as (ns & _ & Hstep).
    apply bind_Return_inv in Hstep as (nc & _ & [= <-]).
    destruct (file_kept_run lim rest _ st fi
                (push_hunk {| old_start := os; old_count := oc; new_start := ns;
                              new_count := nc; lines := [] |} f) Hrun)
      as (f' & Hf' & Hb' & Hl').
    { cbn. by rewrite list_lookup_alter_eq, Hf. }
    cbn in Hb', Hl'. rewrite length_app in Hl'. cbn in Hl'.
    assert (hunks f' = []) as Hnil.
    { apply Hnone; [by eapply list_elem_of_lookup_2|congruence]. }
    rewrite Hnil in Hl'. cbn in Hl'. lia.
Qed.

End Binary.

(** ** Conversions between [str] and [int] *)

Section Conversions.
Import Py DiffParser Prompt Spec.
Variable lim : nat.

Lemma uint_of_char_digit (c : ascii) (d : Decimal.uint) :
  isdigit c = true -> is_Some (uint_of_char c (Some d)).
Proof.
  destruct c as [[|] [|] [|] [|] [|] [|] [|] [|]];
    vm_compute; first [discriminate | by eexists].
Qed.

Lemma uint_of_string_digits (s : string) :
  all_digits s = true -> is_Some (NilEmpty.uint_of_string s).
Proof.
  induction s as [|c s IH]; cbn; [by eexists|].
  intros [Hc Hs]%andb_true_iff. destruct (IH Hs) as [d ->].
  by apply uint_of_char_digit.
Qed.

Lemma within_max_str_digits_le (n m : nat) :
  (m <= n)%nat ->
  within_max_str_digits lim n = true -> within_max_str_digits lim m = true.
Proof.
  unfold within_max_str_digits.
  rewrite !orb_true_iff, !Nat.leb_le, !Nat.eqb_eq. lia.
Qed.

(** On what [\d+] captures, [int] raises for one reason only. *)
Lemma int_decimal_run (g : string) :
  decimal_run g = true ->
  int lim g
  = if within_max_str_digits lim (String.length g)
    then Return (Z.of_N (N.of_uint (default Decimal.Nil (NilEmpty.uint_of_string g))))
    else Raise ValueError.
Proof.
  intros [Hne Hd]%andb_true_iff. destruct g as [|c g]; [done|].
  unfold int, NilZero.uint_of_string.
  by destruct (uint_of_string_digits _ Hd) as [d ->].
Qed.

Lemma length_string_of_uint (d : Decimal.uint) :
  String.length (NilEmpty.string_of_uint d) = Decimal.nb_digits d.
Proof. induction d; cbn; by f_equal. Qed.

Lemma length_string_of_unorm (d : Decimal.uint) :
  d <> Decimal.Nil ->
  (String.length (NilZero.string_of_uint (Decimal.unorm d))
   <= Decimal.nb_digits d)%nat.
Proof.
  intros Hd. pose proof (nb_digits_unorm d Hd) as Hle.
  destruct (Decimal.unorm d) eqn:Hu;
    [cbn; destruct d; [done|cbn; lia..]|..];
    unfold NilZero.string_of_uint; by rewrite length_string_of_uint.
Qed.

(** What [int] returned, [str] prints without raising. *)
Lemma str_of_int (g : string) (z : Z) :
  int lim g = Return z -> exists s, str lim z = Return s.
Proof.
  unfold int, NilZero.uint_of_string. destruct g as [|c g]; [done|].
  destruct (NilEmpty.uint_of_string (String c g)) as [d|] eqn:Hd; [|done].
  destruct (within_max_str_digits lim _) eqn:Hw; [|done]. intros [= <-].
  unfold str. replace (Z.abs_N (Z.of_uint d)) with (N.of_uint d).
  2:{ unfold Z.of_uint, N.of_uint. by rewrite Zabs2N.id. }
  rewrite DecimalN.Unsigned.to_of.
  assert (d <> Decimal.Nil) as Hnil.
  { intros ->. apply NilEmpty.sus in Hd. done. }
  rewrite (within_max_str_digits_le _ _ (length_string_of_unorm d Hnil)).
  - by eexists.
  - apply NilEmpty.sus in Hd. by rewrite <- length_string_of_uint, Hd.
Qed.

Lemma span_digits_digits (s : string) : all_digits (span_digits s).1 = true.
Proof.
  induction s as [|c s IH]; cbn; [done|].
  destruct (isdigit c) eqn:Hc; [|done].
  destruct (span_digits s) as [d r]; cbn in *. by rewrite Hc.
Qed.

Lemma re_digits_decimal_run (s d r : string) :
  re_digits s = Some (d, r) -> decimal_run d = true.
Proof.
  unfold re_digits. pose proof (span_digits_digits s) as Hd.
  destruct (span_digits s) as [[|c d'] r']; [done|].
  intros [= <- <-]. exact Hd.
Qed.

Lemma re_opt_count_decimal_run (s d r : string) :
  re_opt_count s = (Some d, r) -> decimal_run d = true.
Proof.
  unfold re_opt_count. destruct s as [|c s]; [done|].
  destruct (Ascii.eqb_spec c ","%char) as [->|Hc].
  - destruct (re_digits s) as [[d' r']|] eqn:Hs; [|done].
    intros [= <- <-]. by eapply re_digits_decimal_run.
  - intros H. exfalso. revert H.
    destruct c as [[|] [|] [|] [|] [|] [|] [|] [|]]; try done.
Qed.

(** The header pattern captures runs of digits only. *)
Lemma hunk_match_decimal_run (line : string) :
  Forall (fun g => decimal_run g = true) (header_fields line).
Proof.
  unfold header_fields, hunk_match.
  destruct (startswith line "@@ -"); [|done].
  destruct (re_digits _) as [[g1 r1]|] eqn:H1; [|done].
  destruct (re_opt_count r1) as [g2 r2] eqn:H2.
  destruct (startswith r2 " +"); [|done].
  destruct (re_digits (slice_from 2 r2)) as [[g3 r3]|] eqn:H3; [|done].
  destruct (re_opt_count r3) as [g4 r4] eqn:H4.
  destruct (startswith r4 " @@"); [|done].
  apply re_digits_decimal_run in H1, H3.
  apply Forall_cons. split; [done|]. apply Forall_app. split.
  - destruct g2; [|done]. apply Forall_singleton.
    by eapply re_opt_count_decimal_run.
  - apply Forall_cons. split; [done|].
    destruct g4; [|done]. apply Forall_singleton.
    by eapply re_opt_count_decimal_run.
Qed.

End Conversions.

(** ** Totality *)

Section Totality.
Import Py DiffParser Prompt Spec Samples.

Lemma int_or_1_returns (lim : nat) (g : option string) :
  Forall (fun g => decimal_run g = true) (option_list g) ->
  Forall (fun g => within_max_str_digits lim (String.length g) = true)
    (option_list g) ->
  exists z, int_or_1 lim g = Return z.
Proof.
  destruct g as [d|]; cbn; [|by eexists].
  rewrite !Forall_singleton. intros Hd Hw.
  destruct (truthy d); [|by eexists].
  rewrite (int_decimal_run lim d Hd), Hw. by eexists.
Qed.

Lemma content_returns (st : ParseState) (line : string) :
  exists st',
    match current_hunk st with
    | Some at_ =>
        if startswith line "+" then
          Return (append_line at_ add (slice_from 1 line) true st)
        else if startswith line "-" then
          Return (append_line at_ delete (slice_from 1 line) false st)
        else if startswith line " " then
          Return (append_line at_ context (slice_from 1 line) true st)
        else Return st
    | None => Return st
    end = Return st'.
Proof.
  destruct (current_hunk st); [|by eexists].
  destruct (startswith line "+"); [by eexists|].
  destruct (startswith line "-"); [by eexists|].
  destruct (startswith line " "); by eexists.
Qed.

Lemma step_returns (lim : nat) (st : ParseState) (line : string) :
  (is_Some (current_file st) -> header_within lim line) ->
  exists st', step lim st line = Return st'.
Proof.
  intros Hw. pose proof (hunk_match_decimal_run line) as Hd. unfold step.
  destruct (startswith line "diff --git"); [by eexists|].
  destruct (startswith line "new file"); [by eexists|].
  destruct (startswith line "deleted file"); [by eexists|].
  destruct (startswith line BINARY_MARKER).
  { destruct (binary_match line); by eexists. }
  destruct (startswith line "--- "). { destruct (_ && _); by eexists. }
  destruct (startswith line "+++ ").
  { destruct (String.eqb _ _); by eexists. }
  destruct (startswith line "index "); [by eexists|].
  unfold header_within, header_fields in *.
  destruct (hunk_match line) as [[[[g1 g2] g3] g4]|]; [|apply content_returns].
  destruct (current_file st) as [fi|]; [|apply content_returns].
  specialize (Hw (ltac:(by eexists))).
  rewrite Forall_cons, Forall_app, Forall_cons in Hw, Hd.
  destruct Hw as (Hw1 & Hw2 & Hw3 & Hw4), Hd as (Hd1 & Hd2 & Hd3 & Hd4).
  rewrite (int_decimal_run lim g1 Hd1), Hw1, (int_decimal_run lim g3 Hd3), Hw3.
  destruct (int_or_1_returns lim g2 Hd2 Hw2) as [oc ->].
  destruct (int_or_1_returns lim g4 Hd4 Hw4) as [nc ->].
  by eexists.
Qed.

Lemma int_within (lim : nat) (g : string) (z : Z) :
  int lim g = Return z -> within_max_str_digits lim (String.length g) = true.
Proof.
  unfold int. destruct (NilZero.uint_of_string g); [|done].
  by destruct (within_max_str_digits lim _).
Qed.

Lemma int_or_1_within (lim : nat) (g : option string) (z : Z) :
  Forall (fun g => decimal_run g = true) (option_list g) ->
  int_or_1 lim g = Return z ->
  Forall (fun g => within_max_str_digits lim (String.length g) = true)
    (option_list g).
Proof.
  destruct g as [d|]; cbn; [|done]. rewrite !Forall_singleton.
  intros [-> _]%andb_true_iff. apply int_within.
Qed.

(** A header that the loop converts without raising is within the bound. *)
Lemma step_within (lim : nat) (st st' : ParseState) (line : string) :
  step lim st line = Return st' -> is_Some (current_file st) ->
  header_within lim line.
Proof.
  intros Hstep [fi Hfi]. pose proof (hunk_match_decimal_run line) as Hd.
  unfold header_within, header_fields in *.
  destruct (hunk_match line) as [[[[g1 g2] g3] g4]|] eqn:Hm; [|done].
  rewrite (step_header lim st line fi g1 g3 g2 g4 Hm Hfi) in Hstep.
  apply bind_Return_inv in Hstep as (os & H1 & Hstep).
  apply bind_Return_inv in Hstep as (oc & H2 & Hstep).
  apply bind_Return_inv in Hstep as (ns & H3 & Hstep).
  apply bind_Return_inv in Hstep as (nc & H4 & _).
  rewrite Forall_cons, Forall_app, Forall_cons in Hd.
  destruct Hd as (Hd1 & Hd2 & Hd3 & Hd4).
  rewrite Forall_cons, Forall_app, Forall_cons.
  split_and!; eauto using int_within, int_or_1_within.
Qed.

(** The loop returns from [st], reached on [pre], when every header yet to
    come is within the bound at the point where a file is open. *)
Lemma run_returns_from (lim : nat) (ls rest : list string) :
  forall pre st,
    ls = pre ++ rest -> run lim initial pre = Return st ->
    (forall pre' line rest' st',
        ls = pre' ++ line :: rest' -> run lim initial pre' = Return st' ->
        is_Some (current_file st') -> header_within lim line) ->
    exists st', run lim st rest = Return st'.
Proof.
  induction rest as [|line rest IH]; intros pre st Hls Hpre Hw; [by eexists|].
  cbn. destruct (step_returns lim st line) as [st1 Hstep].
  { by apply (Hw pre line rest st). }
  rewrite Hstep. cbn. apply (IH (pre ++ [line])); [|
    by rewrite run_app, Hpre; cbn; rewrite Hstep|done].
  by rewrite <- app_assoc.
Qed.

Lemma run_returns (lim : nat) (ls : list string) (st : ParseState) :
  Forall (header_within lim) ls -> exists st', run lim st ls = Return st'.
Proof.
  revert st. induction ls as [|line ls IH]; intros st Hls; [by eexists|].
  apply Forall_cons in Hls as [Hline Hls]. cbn.
  destruct (step_returns lim st line) as [st1 ->]; [done|]. cbn. by apply IH.
Qed.

Lemma parse_diff_within (lim : nat) (s : string) :
  Forall (header_within lim) (split_lines s) ->
  exists r, parse_diff lim s = Return r.
Proof.
  intros Hs. unfold parse_diff.
  destruct (run_returns lim _ initial Hs) as [st ->]. by eexists.
Qed.

Lemma header_within_0 (line : string) : header_within 0 line.
Proof.
  unfold header_within. apply Forall_forall. intros g _.
  unfold within_max_str_digits. cbn. by rewrite orb_true_r.
Qed.

(** C4.  The code breaks the claim.  On a new-path line followed by a hunk
    header whose first number has 4301 digits, [parse_diff] raises
    [ValueError] under the interpreter's default bound on conversions: the
    header pattern accepts a run of digits of any length and [int] is called
    on it with no guard, so the exception leaves [parse_diff].  With the
    bound disabled the same code returns on this input: the failure is an
    unguarded conversion, no decision of the parser. *)
Theorem oversized_header_raises :
  parse_diff default_max_str_digits oversized_header = Raise ValueError
  /\ exists r, parse_diff 0 oversized_header = Return r.
Proof.
  split; [vm_compute; reflexivity|].
  apply parse_diff_within. apply Forall_forall. intros line _.
  apply header_within_0.
Qed.

(** The extent of that defect.  [parse_diff] raises exactly on the inputs in
    which some line that matches the hunk header and is met while a file is
    open has a numeric field beyond the interpreter's bound on int/str
    conversions; it returns on every other input, and on every input when
    the bound is disabled.  The empty string yields the empty file list, and
    a line that begins like a hunk header but does not match the pattern
    changes nothing and raises nothing. *)
Theorem parse_diff_returns :
  (forall lim s,
      (exists r, parse_diff lim s = Return r)
      <-> (forall pre line rest st,
              split_lines s = pre ++ line :: rest ->
              run lim initial pre = Return st ->
              is_Some (current_file st) -> header_within lim line))
  /\ (forall s, exists r, parse_diff 0 s = Return r)
  /\ (forall lim, parse_diff lim "" = Return {| files := [] |})
  /\ (forall lim st line,
        startswith line "@@" = true -> hunk_match line = None ->
        step lim st line = Return st).
Proof.
  split_and!; [| |done|].
  - intros lim s. split.
    + intros [r (st & Hrun & _)%parse_diff_inv] pre line rest st0 Hs Hpre Hfi.
      rewrite Hs, run_app, Hpre in Hrun. cbn in Hrun.
      apply bind_Return_inv in Hrun as (st1 & Hstep & _).
      by eapply step_within.
    + intros Hw. unfold parse_diff.
      destruct (run_returns_from lim (split_lines s) (split_lines s) [] initial)
        as [st ->]; [done|done|done|by eexists].
  - intros s. apply parse_diff_within. apply Forall_forall. intros line _.
    apply header_within_0.
  - intros lim st line H Hm. unfold step.
    do 3 rewrite (startswith_other _ _ _ H) by reflexivity.
    unfold BINARY_MARKER.
    do 4 rewrite (startswith_other _ _ _ H) by reflexivity.
    rewrite Hm. destruct (current_hunk st); [|done].
    by do 3 rewrite (startswith_other _ _ _ H) by reflexivity.
Qed.

End Totality.

(** ** The reviewable files *)

Section Filter.
Import Py DiffParser Prompt Spec.

Lemma should_skip_false (name : string) :
  _should_skip name = false
  <-> Forall (fun p => re_search p name = false) SKIP_PATTERNS.
Proof.
  unfold _should_skip. induction SKIP_PATTERNS as [|p ps IH]; cbn.
  - split; [constructor|done].
  - rewrite orb_false_iff, Forall_cons, IH. done.
Qed.

Lemma reviewable_spec (f : FileDiff) :
  negb (is_binary f) && negb (_should_skip (filename f)) = true
  <-> reviewable f.
Proof.
  unfold reviewable.
  rewrite andb_true_iff, !negb_true_iff, should_skip_false. done.
Qed.

(** C5.  [reviewable_files] is the files that are not binary and match no
    skip pattern, in their order in [files]; none of them is binary, and a
    file called package-lock.json is not among them. *)
Theorem reviewable_files_filter (d : DiffResult) :
  reviewable_files d = filter reviewable (files d)
  /\ reviewable_files d `sublist_of` files d
  /\ (forall f, f ∈ reviewable_files d -> is_binary f = false)
  /\ (forall f, f ∈ files d -> filename f = "package-lock.json" ->
                f ∉ reviewable_files d).
Proof.
  assert (reviewable_files d = filter reviewable (files d)) as Heq.
  { unfold reviewable_files. induction (files d) as [|f fs IH]; [done|].
    rewrite filter_cons. cbn [List.filter]. rewrite IH.
    destruct (negb (is_binary f) && negb (_should_skip (filename f))) eqn:Hb.
    - apply reviewable_spec in Hb. by rewrite decide_True.
    - rewrite decide_False; [done|]. rewrite <- reviewable_spec. congruence. }
  rewrite Heq. split_and!; [done|apply sublist_filter| |].
  - by intros f [[Hb _] _]%list_elem_of_filter.
  - intros f _ Hname [[_ Hskip] _]%list_elem_of_filter.
    rewrite Hname in Hskip. apply Forall_cons in Hskip as [Hskip _].
    vm_compute in Hskip. discriminate.
Qed.

End Filter.

(** ** The search query *)

Section Query.
Import Py DiffParser Prompt Reviewer Spec Samples.

Lemma rstrip_empty (s : string) : rstrip s = "" <-> all_space s = true.
Proof.
  induction s as [|c s IH]; cbn; [done|].
  rewrite andb_true_iff, <- IH.
  destruct (rstrip s); destruct (isspace c); intuition congruence.
Qed.

Lemma all_space_lstrip (s : string) : all_space (lstrip s) = all_space s.
Proof.
  induction s as [|c s IH]; cbn; [done|].
  destruct (isspace c) eqn:Hc; cbn; [done|]. by rewrite Hc.
Qed.

(** [l.content.strip()] is false exactly on a blank line. *)
Lemma truthy_strip (s : string) : truthy (strip s) = negb (all_space s).
Proof.
  unfold strip. rewrite <- all_space_lstrip.
  destruct (all_space (lstrip s)) eqn:Hs.
  - apply rstrip_empty in Hs. by rewrite Hs.
  - destruct (rstrip (lstrip s)) eqn:Hr; [|done].
    apply rstrip_empty in Hr. congruence.
Qed.

Lemma nonblank_contents_filter (ls : list Line) :
  nonblank_contents ls = content <$> filter (fun l => ~ blank l) ls.
Proof.
  unfold nonblank_contents. induction ls as [|l ls IH]; [done|].
  rewrite filter_cons. cbn [List.filter]. rewrite truthy_strip.
  destruct (decide (~ blank l)) as [Hb|Hb].
  - apply not_true_is_false in Hb. rewrite Hb. cbn. by f_equal.
  - apply dec_stable in Hb. unfold blank in Hb. by rewrite Hb.
Qed.

Lemma filter_nonblank_id (ls : list Line) :
  Forall (fun l => ~ blank l) ls -> filter (fun l => ~ blank l) ls = ls.
Proof.
  induction 1 as [|l ls Hl _ IH]; [done|].
  by rewrite filter_cons, decide_True, IH.
Qed.

(** C10, as stated, fails: the file that [parse_diff] builds from a hunk
    with one empty added line and one deleted line has an added line, yet
    the query is the text of the deleted line. *)
Lemma blank_added_line_falls_back :
  parse_diff default_max_str_digits
    (join_lines [ "+++ b/f"; "@@ -1 +1 @@"; "+"; "-x" ])
  = Return {| files := [ blank_added_line ] |}
  /\ added_lines blank_added_line <> []
  /\ _build_search_query blank_added_line <> query_as_claimed blank_added_line.
Proof. split_and!; [by vm_compute|by vm_compute|by vm_compute]. Qed.

(** C10, amended.  The query is the text of the added lines that are not
    blank, joined by line feeds and cut at 500 characters; the deleted lines
    that are not blank take their place exactly when no added line is left.
    On a file without blank added or deleted lines this is the query as C10
    words it. *)
Theorem build_search_query_nonblank (f : FileDiff) :
  let adds := filter (fun l => ~ blank l) (added_lines f) in
  let dels := filter (fun l => ~ blank l) (deleted_lines f) in
  _build_search_query f
  = slice_to 500
      (join_lines (content <$> (if decide (adds = []) then dels else adds)))
  /\ (String.length (_build_search_query f) <= 500)%nat
  /\ (Forall (fun l => ~ blank l) (added_lines f ++ deleted_lines f) ->
      _build_search_query f = query_as_claimed f).
Proof.
  intros adds dels.
  assert (_build_search_query f
          = slice_to 500
              (join_lines
                 (content <$> (if decide (adds = []) then dels else adds))))
    as Heq.
  { unfold _build_search_query. rewrite !nonblank_contents_filter.
    fold adds dels. by destruct adds. }
  split_and!; [done|rewrite Heq; apply length_slice_to|].
  intros [Ha Hd]%Forall_app. rewrite Heq. unfold query_as_claimed.
  subst adds dels. rewrite !filter_nonblank_id by done.
  by destruct (added_lines f).
Qed.

End Query.

(** ** Formatting against classification *)

Section Formatting.
Import Py DiffParser Prompt Spec.

(** The marker put back in front of what the loop stored is the line. *)
Lemma format_line_recorded (line : string) (t : LineType) (n : Z) :
  startswith line (marker t) = true ->
  format_line {| number := n; content := slice_from 1 line; type := t |} = line.
Proof.
  intros H. unfold format_line; cbn.
  rewrite <- (startswith_inv line (marker t) H) at 2. by destruct t.
Qed.

Lemma str_1_returns (lim : nat) : exists s, str lim 1 = Return s.
Proof. by eexists. Qed.

Lemma str_of_int_or_1 (lim : nat) (g : option string) (z : Z) :
  int_or_1 lim g = Return z -> exists s, str lim z = Return s.
Proof.
  destruct g as [d|]; cbn.
  - destruct (truthy d); [apply str_of_int|].
    intros [= <-]. apply str_1_returns.
  - intros [= <-]. apply str_1_returns.
Qed.

(** The header of a hunk that [parse_diff] built can be printed. *)
Lemma format_header_run (lim : nat) (ls : list string) (st : ParseState)
    (p : nat * nat) (h : Hunk) :
  run lim initial ls = Return st -> hunk_at st p = Some h ->
  exists header, format_header lim h = Return header.
Proof.
  intros Hrun. revert p h. revert ls st Hrun.
  apply (hunks_ind lim (fun _ h => exists header, format_header lim h = Return header)).
  - intros _ h g1 g2 g3 g4 _ H1 H2 H3 H4. unfold format_header.
    destruct (str_of_int lim _ _ H1) as [s1 ->].
    destruct (str_of_int_or_1 lim _ _ H2) as [s2 ->].
    destruct (str_of_int lim _ _ H3) as [s3 ->].
    destruct (str_of_int_or_1 lim _ _ H4) as [s4 ->].
    by eexists.
  - done.
  - done.
Qed.

(** The lines [format_diff] emits for hunks whose headers print as
    [headers]: each header, then the lines of its hunk. *)
Lemma format_hunks_returns (lim : nat) (hs : list Hunk) :
  Forall (fun h => exists header, format_header lim h = Return header) hs ->
  exists headers,
    Forall2 (fun h header => format_header lim h = Return header) hs headers
    /\ format_hunks lim hs
       = Return (mjoin (zip_with (fun header h => header :: (format_line <$> lines h))
                          headers hs)).
Proof.
  induction 1 as [|h hs [header Hh] _ (headers & Hall & IH)].
  - exists []. by split.
  - exists (header :: headers). split; [by constructor|].
    cbn. by rewrite Hh, IH.
Qed.

(** The formatted lines of a hunk are lines of the input, in their order. *)
Lemma format_lines_sublist (lim : nat) (ls : list string) (st : ParseState)
    (p : nat * nat) (h : Hunk) :
  run lim initial ls = Return st -> hunk_at st p = Some h ->
  (format_line <$> lines h) `sublist_of` ls.
Proof.
  intros Hrun. revert p h. revert ls st Hrun.
  apply (hunks_ind lim (fun pre h => (format_line <$> lines h) `sublist_of` pre)).
  - intros pre h _ _ _ _ -> _ _ _ _. apply sublist_nil_l.
  - intros pre line h IH. by apply sublist_inserts_r.
  - intros pre line h t IH Ht. cbn. rewrite fmap_app. cbn.
    rewrite (format_line_recorded line t _ Ht). by apply sublist_app.
Qed.

(** C9.  For a file of a result of [parse_diff]: [format_diff] returns the
    header of each hunk followed by one line per [Line], the marker of its
    kind put in front of its content; the line emitted for a [Line] is the
    input line the loop recorded it from; so the lines emitted for a hunk
    are lines of the input in their order. *)
Theorem format_inverts_classification (lim : nat) (s : string)
    (r : DiffResult) :
  parse_diff lim s = Return r ->
  (forall f, f ∈ files r ->
      exists headers,
        Forall2 (fun h header => format_header lim h = Return header)
          (hunks f) headers
        /\ format_diff lim f
           = Return (join_lines
                       (mjoin (zip_with
                                 (fun header h =>
                                    header :: (format_line <$> lines h))
                                 headers (hunks f)))))
  /\ (forall l, format_line l = marker (type l) +:+ content l)
  /\ (forall pre line rest st st' p h l,
        split_lines s = pre ++ line :: rest ->
        run lim initial pre = Return st -> step lim st line = Return st' ->
        hunk_at st p = Some h -> hunk_at st' p = Some (push_line l h) ->
        format_line l = line)
  /\ (forall f h, f ∈ files r -> h ∈ hunks f ->
        (format_line <$> lines h) `sublist_of` split_lines s).
Proof.
  intros (st & Hrun & <-)%parse_diff_inv. split_and!.
  - intros f Hf. unfold format_diff.
    destruct (format_hunks_returns lim (hunks f)) as (headers & Hall & ->).
    + apply Forall_forall. intros h Hh.
      destruct (elem_of_hunk_at st f h Hf Hh) as [p Hp].
      by eapply format_header_run.
    + by exists headers.
  - done.
  - intros pre line rest st0 st' p h l _ Hpre Hstep Hh Hh'.
    pose proof (wf_run lim _ _ Hpre) as Hwf.
    destruct (effect_hunk_at lim st0 st' line p _ Hwf (step_effect _ _ _ _ Hstep) Hh')
      as [Hsame|[(Hnone & _)|(h0 & t & Hh0 & Hcur & Ht & Heq & Hn)]].
    + rewrite Hh in Hsame. injection Hsame as Hsame.
      apply (f_equal (fun x => length (lines x))) in Hsame. cbn in Hsame.
      rewrite length_app in Hsame. cbn in Hsame. lia.
    + congruence.
    + apply (f_equal lines) in Heq. cbn in Heq.
      apply app_inj_tail in Heq as [_ ->]. by apply format_line_recorded.
  - intros f h Hf Hh. destruct (elem_of_hunk_at st f h Hf Hh) as [p Hp].
    by eapply format_lines_sublist.
Qed.

End Formatting.

(** ** Sections of the input *)

Section Frame.
Import Py DiffParser Prompt Spec.
Variable lim : nat.
Variable fs0 : list FileDiff.

Lemma framed_open_file (st1 st2 : ParseState) (f : FileDiff) :
  framed fs0 st1 st2 -> framed fs0 (open_file f st1) (open_file f st2).
Proof.
  intros [Hfs Hfile Hhunk Hnum Hpend]. split; cbn; try done.
  - by rewrite Hfs, app_assoc.
  - by rewrite Hfs, length_app.
Qed.

Lemma framed_open_hunk (st1 st2 : ParseState) (fi : nat) (h : Hunk) :
  framed fs0 st1 st2 ->
  framed fs0 (open_hunk fi h st1) (open_hunk (length fs0 + fi) h st2).
Proof.
  intros [Hfs Hfile Hhunk Hnum Hpend]. split; cbn; try done.
  - by rewrite Hfs, alter_app_r.
  - rewrite Hfs, lookup_app_r by lia.
    by replace (length fs0 + fi - length fs0)%nat with fi by lia.
Qed.

Lemma framed_append_line (st1 st2 : ParseState) (at_ : nat * nat)
    (t : LineType) (text : string) (adv : bool) :
  framed fs0 st1 st2 -> current_hunk st1 = Some at_ ->
  framed fs0 (append_line at_ t text adv st1)
    (append_line ((length fs0 + at_.1)%nat, at_.2) t text adv st2).
Proof.
  intros [Hfs Hfile Hhunk Hnum Hpend] Hat.
  assert (new_line_num st2 = new_line_num st1) as Hn.
  { apply Hnum. rewrite Hat. by eexists. }
  split; cbn; try done.
  - by rewrite Hfs, alter_app_r, Hn.
  - intros _. by rewrite Hn.
Qed.

(** The loop does on [st2] what it does on [st1]. *)
Lemma framed_step (st1 st2 st2' : ParseState) (line : string) :
  framed fs0 st1 st2 -> step lim st2 line = Return st2' ->
  exists st1', step lim st1 line = Return st1' /\ framed fs0 st1' st2'.
Proof.
  intros Hfr. pose proof Hfr as [Hfs Hfile Hhunk Hnum Hpend]. unfold step.
  destruct (startswith line "diff --git").
  { intros [= <-]. eexists. split; [done|]. split; cbn; done. }
  destruct (startswith line "new file").
  { intros [= <-]. eexists. split; [done|]. split; cbn; done. }
  destruct (startswith line "deleted file").
  { intros [= <-]. eexists. split; [done|]. split; cbn; done. }
  destruct (startswith line BINARY_MARKER).
  { destruct (binary_match line); intros [= <-]; eexists; (split; [done|]);
      [by apply framed_open_file|done]. }
  destruct (startswith line "--- ").
  { rewrite Hpend. destruct (_ && _); intros [= <-]; eexists;
      (split; [done|]); [by apply framed_open_file|done]. }
  destruct (startswith line "+++ ").
  { rewrite Hpend. destruct (String.eqb _ _); intros [= <-]; eexists;
      (split; [done|]); [done|by apply framed_open_file]. }
  destruct (startswith line "index ").
  { intros [= <-]. by eexists. }
  assert (forall st2'',
    match current_hunk st2 with
    | Some at_ =>
        if startswith line "+" then
          Return (append_line at_ add (slice_from 1 line) true st2)
        else if startswith line "-" then
          Return (append_line at_ delete (slice_from 1 line) false st2)
        else if startswith line " " then
          Return (append_line at_ context (slice_from 1 line) true st2)
        else Return st2
    | None => Return st2
    end = Return st2'' ->
    exists st1',
      match current_hunk st1 with
      | Some at_ =>
          if startswith line "+" then
            Return (append_line at_ add (slice_from 1 line) true st1)
          else if startswith line "-" then
            Return (append_line at_ delete (slice_from 1 line) false st1)
          else if startswith line " " then
            Return (append_line at_ context (slice_from 1 line) true st1)
          else Return st1
      | None => Return st1
      end = Return st1' /\ framed fs0 st1' st2'') as Hcontent.
  { intros st2''. rewrite Hhunk.
    destruct (current_hunk st1) as [at_|] eqn:Hat;
      cbn [fmap option_fmap option_map].
    - destruct (startswith line "+").
      { intros [= <-]. eexists. split; [done|]. by apply framed_append_line. }
      destruct (startswith line "-").
      { intros [= <-]. eexists. split; [done|]. by apply framed_append_line. }
      destruct (startswith line " ").
      { intros [= <-]. eexists. split; [done|]. by apply framed_append_line. }
      intros [= <-]. by eexists.
    - intros [= <-]. by eexists. }
  destruct (hunk_match line) as [[[[g1 g2] g3] g4]|]; [|apply Hcontent].
  rewrite Hfile. destruct (current_file st1) as [fi|];
    cbn [fmap option_fmap option_map]; [|apply Hcontent].
  destruct (int lim g1) as [os|]; cbn [bind]; [|done].
  destruct (int_or_1 lim g2) as [oc|]; cbn [bind]; [|done].
  destruct (int lim g3) as [ns|]; cbn [bind]; [|done].
  destruct (int_or_1 lim g4) as [nc|]; cbn [bind]; [|done].
  intros [= <-]. eexists. split; [done|]. by apply framed_open_hunk.
Qed.

Lemma framed_run (ls : list string) (st1 st2 st2' : ParseState) :
  framed fs0 st1 st2 -> run lim st2 ls = Return st2' ->
  exists st1', run lim st1 ls = Return st1' /\ framed fs0 st1' st2'.
Proof.
  revert st1 st2. induction ls as [|line ls IH]; intros st1 st2 Hfr; cbn.
  - intros [= <-]. by exists st1.
  - intros (st2a & Hstep & Hrun)%bind_Return_inv.
    destruct (framed_step st1 st2 st2a line Hfr Hstep) as (st1a & -> & Hfra).
    cbn. by eapply IH.
Qed.

End Frame.

Section Sections.
Import Py DiffParser Prompt Spec.
Variable lim : nat.

(** After a reset, the loop goes on as from the start, in front of the
    files it has. *)
Lemma framed_reset (st : ParseState) :
  framed (files (result st)) initial (reset st).
Proof. split; cbn; try done. by rewrite app_nil_r. Qed.

Lemma run_after_reset (ls : list string) (st st' : ParseState) :
  run lim (reset st) ls = Return st' ->
  exists r, parse_lines lim ls = Return r
    /\ files (result st') = files (result st) ++ files r.
Proof.
  intros Hrun.
  destruct (framed_run lim _ ls initial (reset st) st' (framed_reset st) Hrun)
    as (st1 & Hrun1 & Hfr).
  exists (result st1). unfold parse_lines. rewrite Hrun1. split; [done|].
  apply (framed_files _ _ _ Hfr).
Qed.

Lemma run_section_end (post : list string) (st st' : ParseState) :
  section_end post -> run lim st post = Return st' ->
  exists r, parse_lines lim post = Return r
    /\ files (result st') = files (result st) ++ files r.
Proof.
  intros [->|(dg & rest & -> & Hdg)]; cbn.
  - intros [= <-]. exists {| files := [] |}. split; [done|].
    cbn. by rewrite app_nil_r.
  - rewrite (step_git lim st dg Hdg). cbn. intros Hrun.
    destruct (run_after_reset rest st st' Hrun) as (r & Hr & Hfs).
    exists r. split; [|done]. unfold parse_lines in *. cbn.
    by rewrite (step_git lim initial dg Hdg).
Qed.

(** Lines the loop does not react to. *)
Lemma run_inert (ls : list string) (st : ParseState) :
  Forall (fun l => step lim st l = Return st) ls -> run lim st ls = Return st.
Proof.
  induction 1 as [|l ls Hl _ IH]; [done|]. cbn. by rewrite Hl.
Qed.

End Sections.

(** ** Renames and deletions *)

Section FileSections.
Import Py DiffParser Prompt Spec Samples.

Lemma step_rename_marker (lim : nat) (st : ParseState) (line : string) :
  rename_marker line = true -> step lim st line = Return st.
Proof.
  unfold rename_marker. rewrite !orb_true_iff. intros [[H|H]|H];
    by apply (step_foreign lim st line _ H).
Qed.

(** C7, as stated, fails: the loop has no case for the rename markers, and
    a section made of them yields no [FileDiff]. *)
Lemma pure_rename_yields_nothing :
  exists r, parse_diff default_max_str_digits pure_rename = Return r
    /\ ~ exists f, f ∈ files r.
Proof.
  eexists. split; [vm_compute; reflexivity|].
  cbn. intros [f Hf]. by apply elem_of_nil in Hf.
Qed.

(** C7, amended.  A section made of a [diff --git] line and rename markers
    adds no [FileDiff]: [parse_diff] returns whenever the header fields of
    the input are within the bound on conversions, and the files of its
    result are those of the lines before the section followed by those of
    the lines after it. *)
Theorem pure_rename_section_adds_no_file (lim : nat) (s : string)
    (pre markers post : list string) (dg : string) :
  split_lines s = pre ++ dg :: markers ++ post ->
  startswith dg "diff --git" = true ->
  Forall (fun l => rename_marker l = true) markers ->
  (Forall (header_within lim) (split_lines s) ->
   exists r, parse_diff lim s = Return r)
  /\ forall r,
      parse_diff lim s = Return r ->
      exists r_pre r_post,
        parse_lines lim pre = Return r_pre
        /\ parse_lines lim post = Return r_post
        /\ files r = files r_pre ++ files r_post.
Proof.
  intros Hs Hdg Hmarkers. split; [apply parse_diff_within|].
  intros r (st & Hrun & <-)%parse_diff_inv.
  rewrite Hs, run_app in Hrun.
  apply bind_Return_inv in Hrun as (st_pre & Hpre & Hrun).
  cbn in Hrun. rewrite (step_git lim st_pre dg Hdg) in Hrun. cbn in Hrun.
  rewrite run_app, (run_inert lim markers) in Hrun.
  2:{ eapply Forall_impl; [exact Hmarkers|]. intros l Hl.
      by apply step_rename_marker. }
  cbn in Hrun. destruct (run_after_reset lim post st_pre st Hrun)
    as (r_post & Hpost & Hfiles).
  exists (result st_pre), r_post. unfold parse_lines. by rewrite Hpre.
Qed.

Lemma alter_snoc {A} (g : A -> A) (l : list A) (x : A) :
  alter g (length l) (l ++ [x]) = l ++ [g x].
Proof. by rewrite <- (Nat.add_0_r (length l)), alter_app_r. Qed.

Lemma step_old_path_deleted (lim : nat) (st : ParseState) (path : string) :
  pending_status st = Some deleted -> startswith path "a/" = true ->
  step lim st ("--- " +:+ path)
  = Return (open_file (FileDiff_new (slice_from 2 path) deleted false) st).
Proof.
  intros Hpend Hpath. pose proof (startswith_app "--- " path) as H.
  unfold step. do 3 rewrite (startswith_other _ _ _ H) by reflexivity.
  unfold BINARY_MARKER. rewrite (startswith_other _ _ _ H) by reflexivity.
  rewrite H. cbv zeta.
  change (slice_from 4 ("--- " +:+ path)) with path.
  by rewrite Hpend, Hpath, bool_decide_eq_true_2.
Qed.

Lemma step_dev_null (lim : nat) (st : ParseState) :
  step lim st "+++ /dev/null" = Return st.
Proof. reflexivity. Qed.

Lemma step_trailer (lim : nat) (st : ParseState) (line : string) :
  trailer line -> step lim st line = Return st.
Proof.
  intros [->|H]; [apply step_empty|]. by apply (step_foreign lim st line "\").
Qed.

(** The header of the first hunk of a file just opened. *)
Lemma open_hunk_fresh (st : ParseState) (name : string) (s : Status) (h : Hunk) :
  open_hunk (length (files (result st))) h
    (open_file (FileDiff_new name s false) st)
  = in_hunk (files (result st)) (one_hunk_file name s h) (new_start h)
      (pending_status st).
Proof.
  unfold open_hunk, open_file, in_hunk; cbn. f_equal.
  - by rewrite alter_snoc.
  - rewrite lookup_app_r by lia. by rewrite Nat.sub_diag.
Qed.

(** Deleted lines go to the open hunk under the number the counter has. *)
Lemma run_minus_lines (lim : nat) (fs : list FileDiff) (name : string)
    (s : Status) (os oc ns nc : Z) (pend : option Status) (dels : list string) :
  Forall minus_line dels ->
  forall ls,
    run lim
      (in_hunk fs
         (one_hunk_file name s
            {| old_start := os; old_count := oc; new_start := ns;
               new_count := nc; lines := ls |}) ns pend) dels
    = Return
        (in_hunk fs
           (one_hunk_file name s
              {| old_start := os; old_count := oc; new_start := ns;
                 new_count := nc; lines := ls ++ (deleted_text ns <$> dels) |})
           ns pend).
Proof.
  induction 1 as [|l dels [Hl Hold] _ IH]; intros ls.
  - cbn. by rewrite app_nil_r.
  - cbn [run]. rewrite (step_minus lim _ l (length fs, 0%nat) Hl Hold) by done.
    cbn [bind].
    match goal with
    | |- run lim ?st dels = _ =>
        replace st with
          (in_hunk fs
             (one_hunk_file name s
                {| old_start := os; old_count := oc; new_start := ns;
                   new_count := nc; lines := ls ++ [deleted_text ns l] |})
             ns pend)
    end.
    + rewrite IH. by rewrite <- app_assoc.
    + unfold append_line, in_hunk, one_hunk_file, deleted_text.
      cbn -[slice_from]. by rewrite alter_snoc.
Qed.

Lemma lines_of_type_one_hunk (t : LineType) (name : string) (s : Status)
    (h : Hunk) :
  lines_of_type t (one_hunk_file name s h) = filter (fun l => type l = t) (lines h).
Proof. unfold lines_of_type; cbn. by rewrite app_nil_r. Qed.

Lemma filter_deleted_text (n : Z) (t : LineType) (dels : list string) :
  filter (fun l => type l = t) (deleted_text n <$> dels)
  = if decide (t = delete) then deleted_text n <$> dels else [].
Proof.
  induction dels as [|l dels IH]; [by case_decide|].
  rewrite fmap_cons, filter_cons, IH. cbn.
  destruct t; by repeat case_decide.
Qed.

(** C6, as stated, fails: without a [deleted file] marker the old-path
    line opens no [FileDiff], the hunk has no file to go to, and the section
    yields nothing. *)
Lemma deletion_without_marker_yields_nothing :
  exists r, parse_diff default_max_str_digits deletion_without_marker = Return r
    /\ ~ exists f, f ∈ files r /\ status f = deleted.
Proof.
  eexists. split; [vm_compute; reflexivity|].
  cbn. intros (f & Hf & _). by apply elem_of_nil in Hf.
Qed.

(** C6, amended.  A section made of a [deleted file] marker, index lines,
    the old-path line [--- a/config.json], the new-path line
    [+++ /dev/null], a hunk header and content lines that all begin with
    ["-"] (none of them with ["--- "]), up to the end of the input or the
    next [diff --git] line, yields exactly one [FileDiff]: config.json, with
    status deleted, one deleted line per content line and no added line.
    [parse_diff] returns whenever the header fields of the input are within
    the bound on conversions. *)
Theorem deleted_file_section (lim : nat) (s : string)
    (pre meta dels trail post : list string) (del hh : string) :
  split_lines s
  = pre ++ del :: meta ++ [ "--- a/config.json"; "+++ /dev/null"; hh ]
        ++ dels ++ trail ++ post ->
  startswith del "deleted file" = true ->
  Forall (fun l => startswith l "index " = true) meta ->
  is_Some (hunk_match hh) ->
  Forall minus_line dels -> Forall trailer trail -> section_end post ->
  (Forall (header_within lim) (split_lines s) ->
   exists r, parse_diff lim s = Return r)
  /\ forall r,
      parse_diff lim s = Return r ->
      exists r_pre r_post f,
        parse_lines lim pre = Return r_pre
        /\ parse_lines lim post = Return r_post
        /\ files r = files r_pre ++ f :: files r_post
        /\ filename f = "config.json" /\ status f = deleted
        /\ is_binary f = false
        /\ content <$> deleted_lines f = slice_from 1 <$> dels
        /\ length (deleted_lines f) = length dels
        /\ added_lines f = [].
Proof.
  intros Hs Hdel Hmeta [[[[g1 g2] g3] g4] Hhh] Hdels Htrail Hpost.
  split; [apply parse_diff_within|].
  intros r (st & Hrun & <-)%parse_diff_inv.
  rewrite Hs, run_app in Hrun.
  apply bind_Return_inv in Hrun as (st_pre & Hpre & Hrun).
  cbn [run] in Hrun. rewrite (step_deleted_file lim st_pre del Hdel) in Hrun.
  cbn [bind] in Hrun. rewrite run_app, (run_inert lim meta) in Hrun.
  2:{ eapply Forall_impl; [exact Hmeta|]. intros l Hl. by apply step_index. }
  cbn [bind app run] in Hrun.
  rewrite (step_old_path_deleted lim _ "a/config.json") in Hrun by done.
  cbn [bind] in Hrun. rewrite step_dev_null in Hrun. cbn [bind] in Hrun.
  rewrite (step_header lim _ hh (length (files (result st_pre))) g1 g3 g2 g4 Hhh)
    in Hrun by done.
  apply bind_Return_inv in Hrun as (st_h & Hhdr & Hrun).
  apply bind_Return_inv in Hhdr as (os & _ & Hhdr).
  apply bind_Return_inv in Hhdr as (oc & _ & Hhdr).
  apply bind_Return_inv in Hhdr as (ns & _ & Hhdr).
  apply bind_Return_inv in Hhdr as (nc & _ & [= <-]).
  change (files (result st_pre))
    with (files (result (set_pending deleted st_pre))) in Hrun.
  rewrite open_hunk_fresh in Hrun. cbn [new_start] in Hrun.
  rewrite run_app, (run_minus_lines lim _ _ _ _ _ _ _ _ dels Hdels) in Hrun.
  cbn [bind app] in Hrun. rewrite run_app, (run_inert lim trail) in Hrun.
  2:{ eapply Forall_impl; [exact Htrail|]. intros l Hl. by apply step_trailer. }
  cbn [bind] in Hrun.
  destruct (run_section_end lim post _ st Hpost Hrun) as (r_post & Hr_post & Hfs).
  eexists (result st_pre), r_post, _. unfold parse_lines. rewrite Hpre.
  split; [done|]. split; [done|]. split.
  { rewrite Hfs. cbn. by rewrite <- app_assoc. }
  unfold added_lines, deleted_lines.
  rewrite !lines_of_type_one_hunk. cbn [lines app].
  rewrite !filter_deleted_text, decide_True, decide_False by done.
  split_and!; try done.
  - by rewrite <- list_fmap_compose.
  - by rewrite length_fmap.
Qed.

End FileSections.

(** ** The theorems at the sample inputs *)

Section Instances.
Import Py DiffParser Prompt Reviewer Spec Samples.

Lemma parse_edit : parse_diff default_max_str_digits edit = Return edit_result.
Proof. vm_compute. reflexivity. Defined.

Lemma add_context_numbers_consecutive_edit :
  parse_diff default_max_str_digits edit = Return edit_result
  /\ number <$> filter advances (lines edit_hunk) = [4; 5; 6].
Proof.
  split; [exact parse_edit|].
  apply (add_context_numbers_consecutive default_max_str_digits edit
           edit_result edit_file edit_hunk);
    [exact parse_edit|apply list_elem_of_here|apply list_elem_of_here].
Defined.

Lemma delete_lines_take_counter_edit :
  parse_diff default_max_str_digits edit = Return edit_result
  /\ number {| number := 5; content := "old"; type := delete |}
     = new_start edit_hunk
       + Z.of_nat (length (filter advances
                             [ {| number := 4; content := "keep";
                                  type := context |} ])).
Proof.
  split; [exact parse_edit|].
  apply (proj1 (delete_lines_take_counter default_max_str_digits edit
                  edit_result parse_edit)
           edit_file edit_hunk
           [ {| number := 4; content := "keep"; type := context |} ]
           {| number := 5; content := "old"; type := delete |}
           [ {| number := 5; content := "older"; type := delete |};
             {| number := 5; content := "new"; type := add |};
             {| number := 6; content := "tail"; type := context |} ]);
    [apply list_elem_of_here|apply list_elem_of_here|reflexivity|reflexivity].
Defined.

Lemma binary_files_have_no_hunks_binary_then_edit :
  parse_diff default_max_str_digits binary_then_edit
  = Return binary_then_edit_result
  /\ hunks (FileDiff_new "x.png" binary true) = [].
Proof.
  assert (parse_diff default_max_str_digits binary_then_edit
          = Return binary_then_edit_result) as Hr by (vm_compute; reflexivity).
  split; [exact Hr|].
  apply (proj1 (binary_files_have_no_hunks _ _ _ Hr));
    [|apply list_elem_of_here|reflexivity].
  intros pre line rest st Hs Hrun Hm. vm_compute in Hs.
  destruct pre as [|l0 pre]; cbn in Hs; [injection Hs as <- <-|injection Hs as <- Hs].
  { vm_compute in Hm. destruct Hm as [x Hx]. discriminate Hx. }
  destruct pre as [|l1 pre]; cbn in Hs; [injection Hs as <- <-|injection Hs as <- Hs].
  { vm_compute in Hm. destruct Hm as [x Hx]. discriminate Hx. }
  destruct pre as [|l2 pre]; cbn in Hs; [injection Hs as <- <-|injection Hs as <- Hs].
  { vm_compute in Hrun. injection Hrun as <-. reflexivity. }
  destruct pre as [|l3 pre]; cbn in Hs; [injection Hs as <- <-|injection Hs as <- Hs].
  { vm_compute in Hm. destruct Hm as [x Hx]. discriminate Hx. }
  destruct pre; discriminate Hs.
Defined.

Lemma parse_diff_returns_edit :
  (exists r, parse_diff default_max_str_digits edit = Return r)
  /\ header_within default_max_str_digits "@@ -4,4 +4,3 @@".
Proof.
  assert (exists r, parse_diff default_max_str_digits edit = Return r) as H.
  { eexists. exact parse_edit. }
  split; [exact H|].
  apply (proj1 (proj1 parse_diff_returns default_max_str_digits edit) H
           [ "diff --git a/m.py b/m.py"; "index 1a2b..3c4d 100644";
             "--- a/m.py"; "+++ b/m.py" ]
           "@@ -4,4 +4,3 @@"
           [ " keep"; "-old"; "-older"; "+new"; " tail" ]
           (open_file (FileDiff_new "m.py" modified false) initial));
    [vm_compute; reflexivity|vm_compute; reflexivity|by eexists].
Defined.

Lemma reviewable_files_filter_lock_and_binary :
  reviewable_files lock_and_binary = [ edit_file ]
  /\ is_binary edit_file = false.
Proof.
  split; [reflexivity|].
  apply (proj1 (proj2 (proj2 (reviewable_files_filter lock_and_binary)))).
  apply list_elem_of_here.
Defined.

Lemma deleted_file_section_deletion :
  exists r r_pre r_post f,
    parse_diff default_max_str_digits deletion = Return r
    /\ files r = files r_pre ++ f :: files r_post
    /\ status f = deleted /\ length (deleted_lines f) = 2%nat
    /\ added_lines f = [].
Proof.
  destruct (deleted_file_section default_max_str_digits deletion
              [ "diff --git a/config.json b/config.json" ]
              [ "index 5d3c..0000" ] [ "-{"; "-}" ] [ "" ] []
              "deleted file mode 100644" "@@ -1,2 +0,0 @@")
    as [Hret Hfile].
  - vm_compute. reflexivity.
  - reflexivity.
  - repeat constructor.
  - vm_compute. eexists. reflexivity.
  - repeat constructor.
  - constructor; [left; reflexivity|constructor].
  - left. reflexivity.
  - destruct Hret as [r Hr]; [vm_compute; repeat constructor|].
    destruct (Hfile r Hr)
      as (r_pre & r_post & f & _ & _ & Hfs & _ & Hst & _ & _ & Hlen & Hadd).
    exists r, r_pre, r_post, f. repeat split; assumption.
Defined.

Lemma pure_rename_section_adds_no_file_pure_rename :
  exists r r_pre r_post,
    parse_diff default_max_str_digits pure_rename = Return r
    /\ files r = files r_pre ++ files r_post.
Proof.
  destruct (pure_rename_section_adds_no_file default_max_str_digits pure_rename
              []
              [ "similarity index 100%"; "rename from old.py"; "rename to new.py" ]
              [] "diff --git a/old.py b/new.py")
    as [Hret Hfiles].
  - vm_compute. reflexivity.
  - reflexivity.
  - repeat constructor.
  - destruct Hret as [r Hr]; [vm_compute; repeat constructor|].
    destruct (Hfiles r Hr) as (r_pre & r_post & _ & _ & Hfs).
    by exists r, r_pre, r_post.
Defined.

Lemma hunk_closed_at_boundary_two_sections :
  exists r h,
    parse_diff default_max_str_digits two_sections = Return r
    /\ lines h = [ {| number := 1; content := "x"; type := add |} ]
    /\ hunk_of r (0%nat, 0%nat) = Some h.
Proof.
  eexists _, _. split; [vm_compute; reflexivity|]. split; [|
    eapply (hunk_closed_at_boundary default_max_str_digits two_sections _
              [ "+++ b/a.py"; "@@ -1 +1 @@"; "+x" ] [ "+y" ] "diff --git a/b b/b"
              _ (0%nat, 0%nat));
      [vm_compute; reflexivity|vm_compute; reflexivity|vm_compute; reflexivity
      |reflexivity|vm_compute; reflexivity|left; reflexivity] ].
  reflexivity.
Defined.

Lemma format_inverts_classification_edit :
  parse_diff default_max_str_digits edit = Return edit_result
  /\ (format_line <$> lines edit_hunk) `sublist_of` split_lines edit.
Proof.
  split; [exact parse_edit|].
  apply (proj2 (proj2 (proj2 (format_inverts_classification
                                default_max_str_digits edit edit_result
                                parse_edit)))
           edit_file edit_hunk);
    apply list_elem_of_here.
Defined.

Lemma build_search_query_nonblank_edit :
  Forall (fun l => ~ blank l) (added_lines edit_file ++ deleted_lines edit_file)
  /\ _build_search_query edit_file = query_as_claimed edit_file.
Proof.
  assert (Forall (fun l => ~ blank l)
            (added_lines edit_file ++ deleted_lines edit_file)) as H.
  { vm_compute. repeat constructor; discriminate. }
  split; [exact H|].
  exact (proj2 (proj2 (build_search_query_nonblank edit_file)) H).
Defined.

End Instances.

(** ** The text assembled from the changes of a merge request *)

Section Assembly.
Import Py DiffParser Prompt GitLabClient Spec SpecMore.

Lemma split_lines_cons (s : string) :
  exists h t, split_lines s = h :: t.
Proof.
  induction s as [|c s (h & t & IH)]; cbn; [by eexists _, _|].
  destruct (Ascii.eqb c "010"); [by eexists _, _|]. rewrite IH. by eexists _, _.
Qed.

Lemma split_lines_app_lf (x rest : string) :
  split_lines (x +:+ String "010" rest) = split_lines x ++ split_lines rest.
Proof.
  induction x as [|c x IH]; [done|]. rewrite app_String. cbn.
  destruct (Ascii.eqb c "010"); [by rewrite IH|].
  rewrite IH. destruct (split_lines_cons x) as (h & t & ->). done.
Qed.

Lemma split_lines_join (parts : list string) :
  parts <> [] -> split_lines (join_lines parts) = parts ≫= split_lines.
Proof.
  induction parts as [|x [|y parts] IH]; [done| |]; intros _.
  - cbn. by rewrite app_nil_r.
  - change (join_lines (x :: y :: parts))
      with (x +:+ String "010" (join_lines (y :: parts))).
    rewrite split_lines_app_lf, IH by done. done.
Qed.

Lemma split_lines_no_lf (s : string) : no_lf s = true -> split_lines s = [s].
Proof.
  induction s as [|c s IH]; [done|]. cbn.
  intros [Hc Hs]%andb_true_iff. apply negb_true_iff in Hc. rewrite Hc.
  by rewrite (IH Hs).
Qed.

Lemma no_lf_app (p r : string) :
  no_lf p = true -> no_lf r = true -> no_lf (p +:+ r) = true.
Proof.
  intros Hp Hr. induction p as [|c p IH]; [done|]. rewrite app_String.
  cbn in *. apply andb_true_iff in Hp as [-> Hp]. by apply IH.
Qed.

(** The first line of a string that begins with a text free of line feeds
    begins with that text. *)
Lemma split_lines_head (p r : string) :
  no_lf p = true ->
  exists h t, split_lines (p +:+ r) = (p +:+ h) :: t.
Proof.
  intros Hp. induction p as [|c p IH].
  - destruct (split_lines_cons r) as (h & t & Hr). exists h, t. exact Hr.
  - cbn in Hp. apply andb_true_iff in Hp as [Hc Hp].
    apply negb_true_iff in Hc. destruct (IH Hp) as (h & t & IH').
    rewrite app_String. cbn. rewrite Hc, IH'. by exists h, t.
Qed.

(** [parse_diff] on a text joined from parts is the loop on their lines. *)
Lemma parse_diff_join (lim : nat) (parts : list string) :
  parse_diff lim (join_lines parts) = parse_lines lim (parts ≫= split_lines).
Proof.
  destruct parts as [|x parts]; [done|].
  unfold parse_diff, parse_lines. by rewrite split_lines_join.
Qed.

Lemma bind_single {A B} (g : A -> list B) (x : A) : [x] ≫= g = g x.
Proof. cbn. by rewrite app_nil_r. Qed.

Lemma bind_split_lines_no_lf (ls : list string) :
  Forall (fun l => no_lf l = true) ls -> ls ≫= split_lines = ls.
Proof.
  induction 1 as [|l ls Hl _ IH]; [done|].
  change ((l :: ls) ≫= split_lines) with (split_lines l ++ (ls ≫= split_lines)).
  by rewrite (split_lines_no_lf l Hl), IH.
Qed.

Lemma bind_section_lines (changes : list Change) :
  (changes ≫= change_parts) ≫= split_lines = changes ≫= section_lines.
Proof.
  induction changes as [|c cs IH]; [done|].
  cbn. rewrite bind_app. by rewrite IH.
Qed.

Lemma parse_diff_text (lim : nat) (changes : list Change) :
  parse_diff lim (get_mr_diff_text changes)
  = parse_lines lim (changes ≫= section_lines).
Proof.
  unfold get_mr_diff_text. by rewrite parse_diff_join, bind_section_lines.
Qed.

(** A change without diff gives no line; the lines of any other begin with
    a [diff --git] line. *)
Lemma section_lines_shape (c : Change) :
  (~ has_diff c /\ section_lines c = [])
  \/ (has_diff c /\ exists dg body,
        section_lines c = dg :: body /\ startswith dg "diff --git" = true).
Proof.
  unfold has_diff, section_lines, change_parts.
  destruct (truthy (get_str (diff c))); cbn [negb]; [right|left; done].
  split; [done|].
  destruct (split_lines_head "diff --git a/"
              (get_str (old_path c) +:+ " b/" +:+ get_str (new_path c)))
    as (h & t & Hh); [done|].
  rewrite bind_app, bind_single.
  rewrite Hh. eexists _, _. split; [done|]. done.
Qed.

(** The loop on the sections of several changes, from any state. *)
Lemma run_sections (lim : nat) (changes : list Change) :
  forall st st',
    run lim st (changes ≫= section_lines) = Return st' ->
    exists rs,
      Forall2 (fun c rc => parse_lines lim (section_lines c) = Return rc)
        changes rs
      /\ files (result st') = files (result st) ++ (rs ≫= files).
Proof.
  induction changes as [|c cs IH]; intros st st'.
  - cbn. intros [= <-]. exists []. split; [constructor|]. cbn.
    by rewrite app_nil_r.
  - change ((c :: cs) ≫= section_lines)
      with (section_lines c ++ (cs ≫= section_lines)).
    rewrite run_app. intros (st1 & Hc & Hcs)%bind_Return_inv.
    destruct (IH st1 st' Hcs) as (rs & Hall & Hfs).
    destruct (section_lines_shape c) as [[_ Hnil]|(_ & dg & body & Hsec & Hdg)].
    + rewrite Hnil in Hc. cbn in Hc. simplify_eq.
      exists ({| files := [] |} :: rs). split; [|done].
      constructor; [|done]. by rewrite Hnil.
    + rewrite Hsec in Hc. cbn [run] in Hc.
      rewrite (step_git lim st dg Hdg) in Hc. cbn [bind] in Hc.
      destruct (run_after_reset lim body st st1 Hc) as (rc & Hrc & Hfs1).
      exists (rc :: rs). split.
      * constructor; [|done]. rewrite Hsec. unfold parse_lines in *. cbn [run].
        by rewrite (step_git lim initial dg Hdg).
      * rewrite Hfs, Hfs1. cbn. by rewrite <- app_assoc.
Qed.

Lemma step_new_path (lim : nat) (st : ParseState) (p : string) :
  step lim st ("+++ b/" +:+ p)
  = Return (open_file
              (FileDiff_new p (default modified (pending_status st)) false) st).
Proof.
  pose proof (startswith_app "+++ " ("b/" +:+ p)) as H.
  change ("+++ " +:+ "b/" +:+ p) with ("+++ b/" +:+ p) in H.
  unfold step. do 3 rewrite (startswith_other _ _ _ H) by reflexivity.
  unfold BINARY_MARKER. do 2 rewrite (startswith_other _ _ _ H) by reflexivity.
  rewrite H. reflexivity.
Qed.

Lemma step_old_path_skip (lim : nat) (st : ParseState) (path : string) :
  pending_status st <> Some deleted ->
  step lim st ("--- " +:+ path) = Return st.
Proof.
  intros Hpend. pose proof (startswith_app "--- " path) as H.
  unfold step. do 3 rewrite (startswith_other _ _ _ H) by reflexivity.
  unfold BINARY_MARKER. rewrite (startswith_other _ _ _ H) by reflexivity.
  rewrite H. cbv zeta. by rewrite bool_decide_eq_false_2.
Qed.

Lemma fmap_report_alter (g : FileDiff -> FileDiff) (i : nat)
    (fs : list FileDiff) :
  (forall f, report (g f) = report f) ->
  report <$> alter g i fs = report <$> fs.
Proof.
  intros Hg. revert i. induction fs as [|f fs IH]; intros [|i]; cbn; [done..| |].
  - by rewrite Hg.
  - by rewrite IH.
Qed.

(** A line that opens no file leaves the names, the statuses and the
    binary flags of the files as they are. *)
Lemma report_step (lim : nat) (st st' : ParseState) (l : string) :
  opens_no_file l -> step lim st l = Return st' ->
  report <$> files (result st') = report <$> files (result st).
Proof.
  intros (Hbin & Hold & Hnew). unfold step. rewrite Hbin, Hold, Hnew.
  destruct (startswith l "diff --git"); [by intros [= <-]|].
  destruct (startswith l "new file"); [by intros [= <-]|].
  destruct (startswith l "deleted file"); [by intros [= <-]|].
  destruct (startswith l "index "); [by intros [= <-]|].
  assert (forall st0,
    match current_hunk st with
    | Some at_ =>
        if startswith l "+" then
          Return (append_line at_ add (slice_from 1 l) true st)
        else if startswith l "-" then
          Return (append_line at_ delete (slice_from 1 l) false st)
        else if startswith l " " then
          Return (append_line at_ context (slice_from 1 l) true st)
        else Return st
    | None => Return st
    end = Return st0 ->
    report <$> files (result st0) = report <$> files (result st)) as Hcontent.
  { intros st0. destruct (current_hunk st) as [at_|]; [|by intros [= <-]].
    destruct (startswith l "+");
      [intros [= <-]; by apply fmap_report_alter|].
    destruct (startswith l "-");
      [intros [= <-]; by apply fmap_report_alter|].
    destruct (startswith l " ");
      [intros [= <-]; by apply fmap_report_alter|].
    by intros [= <-]. }
  destruct (hunk_match l) as [[[[g1 g2] g3] g4]|]; [|apply Hcontent].
  destruct (current_file st) as [fi|]; [|apply Hcontent].
  intros (os & _ & (oc & _ & (ns & _ & (nc & _ & [= <-])%bind_Return_inv)
    %bind_Return_inv)%bind_Return_inv)%bind_Return_inv.
  by apply fmap_report_alter.
Qed.

Lemma report_run (lim : nat) (ls : list string) (st st' : ParseState) :
  Forall opens_no_file ls -> run lim st ls = Return st' ->
  report <$> files (result st') = report <$> files (result st).
Proof.
  intros Hls. revert st. induction Hls as [|l ls Hl _ IH]; intros st; cbn.
  - by intros [= <-].
  - intros (st1 & Hstep & Hrun)%bind_Return_inv.
    rewrite (IH st1 Hrun). by eapply report_step.
Qed.

(** The section of one plain change yields one file, reported as the flags
    of the change say. *)
Lemma section_reported (lim : nat) (c : Change) (rc : DiffResult) :
  has_diff c -> plain_change c ->
  parse_lines lim (section_lines c) = Return rc ->
  report <$> files rc = [ reported c ].
Proof.
  intros Hdiff (Hold & Hnew & Hbody). unfold has_diff in Hdiff.
  unfold parse_lines, section_lines, change_parts, reported.
  rewrite Hdiff. cbn [negb].
  set (old := get_str (old_path c)) in *.
  set (new := get_str (new_path c)) in *.
  assert (no_lf ("diff --git a/" +:+ old +:+ " b/" +:+ new) = true) as Hdg.
  { apply (no_lf_app "diff --git a/"); [done|]. apply no_lf_app; [done|].
    by apply (no_lf_app " b/"). }
  assert (no_lf ("--- a/" +:+ old) = true) as Hm by by apply (no_lf_app "--- a/").
  assert (no_lf ("+++ b/" +:+ new) = true) as Hp by by apply (no_lf_app "+++ b/").
  assert (startswith ("diff --git a/" +:+ old +:+ " b/" +:+ new) "diff --git"
          = true) as Hgit by done.
  rewrite !bind_app, !bind_single.
  rewrite (split_lines_no_lf _ Hdg). cbn [app run].
  rewrite (step_git lim initial _ Hgit). cbn [bind].
  rewrite !run_app.
  intros (st & Hall & [= <-])%bind_Return_inv.
  apply bind_Return_inv in Hall as (st_h & Hheaders & Hrun).
  rewrite (report_run lim _ st_h _ Hbody Hrun). clear Hrun.
  destruct (get_flag (new_file c)); [|destruct (get_flag (deleted_file c))].
  - revert Hheaders. rewrite bind_split_lines_no_lf by (by repeat constructor).
    cbn [run].
    change (step lim (reset initial) "new file mode 100644")
      with (Return (set_pending added (reset initial))). cbn [bind].
    change (step lim (set_pending added (reset initial)) "--- /dev/null")
      with (Return (set_pending added (reset initial))). cbn [bind].
    rewrite step_new_path. cbn [bind]. by intros [= <-].
  - revert Hheaders. rewrite bind_split_lines_no_lf by (by repeat constructor).
    cbn [run].
    change (step lim (reset initial) "deleted file mode 100644")
      with (Return (set_pending deleted (reset initial))). cbn [bind].
    change ("--- a/" +:+ old) with ("--- " +:+ "a/" +:+ old).
    rewrite step_old_path_deleted by done. cbn [bind].
    rewrite step_dev_null. cbn [bind]. by intros [= <-].
  - assert (run lim (reset initial)
              ([ "--- a/" +:+ old; "+++ b/" +:+ new ] ≫= split_lines)
            = Return st_h) as Hh by (by destruct (get_flag (renamed_file c))).
    revert Hh. rewrite bind_split_lines_no_lf by (by repeat constructor).
    cbn [run].
    change ("--- a/" +:+ old) with ("--- " +:+ "a/" +:+ old).
    rewrite step_old_path_skip by done. cbn [bind].
    rewrite step_new_path. cbn [bind]. by intros [= <-].
Qed.

(** X1.  The result for a merge request is made of the results for its
    changes, each parsed on its own: the [diff --git] line that
    [get_mr_diff_text] puts in front of every change keeps the sections
    apart. *)
Theorem changes_parse_separately (lim : nat) (changes : list Change)
    (r : DiffResult) :
  parse_diff lim (get_mr_diff_text changes) = Return r ->
  exists rs,
    Forall2 (fun c rc => parse_diff lim (get_mr_diff_text [c]) = Return rc)
      changes rs
    /\ files r = rs ≫= files.
Proof.
  rewrite parse_diff_text. unfold parse_lines.
  intros (st & Hrun & [= <-])%bind_Return_inv.
  destruct (run_sections lim changes initial st Hrun) as (rs & Hall & Hfs).
  exists rs. split; [|done].
  eapply Forall2_impl; [exact Hall|]. intros c rc Hc.
  rewrite parse_diff_text. cbn. by rewrite app_nil_r.
Qed.

(** X2.  For changes with single-line paths whose diffs hold no line that
    begins with the binary, old-path or new-path marker, the parser reports
    the changes that carry a diff, one [FileDiff] each and in their order: a
    new file as added under its new path, a deleted file as deleted under
    its old path, any other (a renamed one too) as modified under its new
    path. *)
Theorem changes_reported (lim : nat) (changes : list Change) (r : DiffResult) :
  Forall (fun c => has_diff c -> plain_change c) changes ->
  parse_diff lim (get_mr_diff_text changes) = Return r ->
  report <$> files r = reported <$> filter has_diff changes.
Proof.
  intros Hplain. rewrite parse_diff_text. unfold parse_lines.
  intros (st & Hrun & [= <-])%bind_Return_inv.
  destruct (run_sections lim changes initial st Hrun) as (rs & Hall & ->).
  cbn [initial files result app]. clear Hrun.
  induction Hall as [|c rc cs rs Hc _ IH]; [done|].
  apply Forall_cons in Hplain as [Hp Hplain].
  change ((rc :: rs) ≫= files) with (files rc ++ (rs ≫= files)).
  rewrite fmap_app, (IH Hplain), filter_cons.
  destruct (section_lines_shape c) as [[Hno Hnil]|(Hyes & _)].
  - rewrite Hnil in Hc. injection Hc as <-. by rewrite decide_False.
  - rewrite decide_True by done.
    by rewrite (section_reported lim c rc Hyes (Hp Hyes) Hc).
Qed.

End Assembly.

(** ** Review of a merge request *)

Section Blank.
Import Py DiffParser Prompt GitLabClient Review Server Spec SpecMore.

Lemma no_diff_no_parts (changes : list Change) :
  Forall (fun c => ~ has_diff c) changes -> changes ≫= change_parts = [].
Proof.
  induction 1 as [|c cs Hc _ IH]; [done|].
  change ((c :: cs) ≫= change_parts) with (change_parts c ++ (cs ≫= change_parts)).
  rewrite IH, app_nil_r. unfold change_parts. unfold has_diff in Hc.
  by destruct (truthy (get_str (diff c))).
Qed.

Lemma some_diff_text (changes : list Change) :
  Exists has_diff changes ->
  exists r, get_mr_diff_text changes = String "d" r.
Proof.
  unfold get_mr_diff_text.
  induction 1 as [c cs Hc|c cs _ IH].
  - change ((c :: cs) ≫= change_parts) with (change_parts c ++ (cs ≫= change_parts)).
    unfold change_parts. unfold has_diff in Hc. rewrite Hc. cbn [negb].
    rewrite <- !app_assoc. cbn [app].
    match goal with |- context [join_lines (?x :: ?l)] =>
      destruct l eqn:Hl end.
    + by destruct (get_flag (new_file c)), (get_flag (deleted_file c)), (get_flag (renamed_file c)).
    + by eexists.
  - change ((c :: cs) ≫= change_parts) with (change_parts c ++ (cs ≫= change_parts)).
    destruct (change_parts c) as [|x l] eqn:Hparts; [done|].
    revert Hparts. unfold change_parts.
    destruct (negb _); [done|]. cbn [app]. intros [= <- <-].
    match goal with |- context [join_lines (?x :: ?l)] =>
      destruct l eqn:Hl end; by eexists.
Qed.

Lemma text_blank_iff (changes : list Change) :
  truthy (strip (get_mr_diff_text changes)) = true <-> Exists has_diff changes.
Proof.
  split.
  - intros Ht. destruct (decide (Exists has_diff changes)) as [|Hno]; [done|].
    apply not_Exists_Forall in Hno; [|apply _].
    unfold get_mr_diff_text in Ht. rewrite no_diff_no_parts in Ht; [done|].
    eapply Forall_impl; [exact Hno|]. done.
  - intros (r & ->)%some_diff_text. rewrite truthy_strip. done.
Qed.

End Blank.

Section ReviewLoop.
Import Py DiffParser Prompt GitLabClient Review Server Spec SpecMore.
Context {W E : Type}
  (_review_file : FileDiff -> W -> (E + list ReviewComment) * W).

Lemma unchanged_guard (f : FileDiff) :
  bool_decide (added_lines f = []) && bool_decide (deleted_lines f = [])
  = negb (bool_decide (changed f)).
Proof.
  unfold changed.
  destruct (decide (added_lines f = [])) as [Ha|Ha],
           (decide (deleted_lines f = [])) as [Hd|Hd].
  - rewrite !bool_decide_eq_true_2 by done. cbn.
    symmetry. apply negb_true_iff, bool_decide_eq_false_2. tauto.
  - rewrite (bool_decide_eq_false_2 _ Hd), andb_false_r. symmetry.
    apply negb_false_iff, bool_decide_eq_true_2. tauto.
  - rewrite (bool_decide_eq_false_2 _ Ha). symmetry.
    apply negb_false_iff, bool_decide_eq_true_2. tauto.
  - rewrite (bool_decide_eq_false_2 _ Ha). symmetry.
    apply negb_false_iff, bool_decide_eq_true_2. tauto.
Qed.

(** The loop returns exactly when every call returns; its comments are
    those it had followed by the answers. *)
Lemma review_loop_returns (fs : list FileDiff) (acc cs : list ReviewComment)
    (w w' : W) :
  review_loop _review_file fs acc w = (inr cs, w')
  <-> exists css,
        answered _review_file (filter changed fs) w css w'
        /\ cs = acc ++ concat css.
Proof.
  revert acc w. induction fs as [|f fs IH]; intros acc w.
  - cbn. split.
    + intros [= <- <-]. exists []. split; [constructor|]. cbn. by rewrite app_nil_r.
    + intros (css & Hans & ->). inversion Hans; subst. cbn. by rewrite app_nil_r.
  - cbn [review_loop]. rewrite unchanged_guard, filter_cons.
    destruct (decide (changed f)) as [Hc|Hc].
    + rewrite bool_decide_eq_true_2 by done. cbn [negb].
      destruct (_review_file f w) as [[e|comments] w1] eqn:Hcall.
      * split; [done|]. intros (css & Hans & _). inversion Hans; subst. congruence.
      * rewrite IH. split.
        -- intros (css & Hans & ->). exists (comments :: css).
           split; [by econstructor|]. cbn. by rewrite app_assoc.
        -- intros (css & Hans & ->). inversion Hans; subst.
           assert (comments0 = comments /\ w2 = w1) as [-> ->] by (split; congruence).
           eexists. split; [done|]. cbn. by rewrite app_assoc.
    + rewrite bool_decide_eq_false_2 by done. cbn [negb]. apply IH.
Qed.

(** The loop fails exactly at the first call that fails. *)
Lemma review_loop_fails (fs : list FileDiff) (acc : list ReviewComment)
    (w w' : W) (e : E) :
  review_loop _review_file fs acc w = (inl e, w')
  <-> exists pre fd post css w1,
        filter changed fs = pre ++ fd :: post
        /\ answered _review_file pre w css w1
        /\ _review_file fd w1 = (inl e, w').
Proof.
  revert acc w. induction fs as [|f fs IH]; intros acc w.
  - cbn. split; [done|]. intros (pre & fd & post & css & w1 & Hf & _).
    by destruct pre.
  - cbn [review_loop]. rewrite unchanged_guard, filter_cons.
    destruct (decide (changed f)) as [Hc|Hc].
    + rewrite bool_decide_eq_true_2 by done. cbn [negb].
      destruct (_review_file f w) as [[e0|comments] w1] eqn:Hcall.
      * split.
        -- intros [= <- <-]. exists [], f, (filter changed fs), [], w.
           split; [done|]. split; [constructor|done].
        -- intros (pre & fd & post & css & w2 & Hf & Hans & Hfail).
           destruct pre as [|x pre]; cbn in Hf; simplify_eq.
           ++ inversion Hans; subst. congruence.
           ++ inversion Hans; subst. congruence.
      * rewrite IH. split.
        -- intros (pre & fd & post & css & w2 & Hf & Hans & Hfail).
           exists (f :: pre), fd, post, (comments :: css), w2.
           split; [by rewrite Hf|]. split; [by econstructor|done].
        -- intros (pre & fd & post & css & w2 & Hf & Hans & Hfail).
           destruct pre as [|x pre]; cbn in Hf; simplify_eq.
           ++ inversion Hans; subst. congruence.
           ++ inversion Hans; subst.
              assert (comments0 = comments /\ w3 = w1) as [-> ->] by (split; congruence).
              by eexists _, _, _, _, _.
    + rewrite bool_decide_eq_false_2 by done. cbn [negb]. apply IH.
Qed.

(** X3.  [review] returns exactly when [parse_diff] returns and every call
    of [_review_file] returns.  The calls are made on the reviewable files
    that have an added or a deleted line, in the order of the result, each
    from the world the call before left; the comments returned are the
    answers of the calls, one after the other. *)
Theorem review_returns_iff (lim : nat) (diff_text : string)
    (cs : list ReviewComment) (w w' : W) :
  review _review_file lim diff_text w = (inr cs, w')
  <-> exists d css,
        parse_diff lim diff_text = Return d
        /\ answered _review_file (visited d) w css w'
        /\ cs = concat css.
Proof.
  unfold review, visited. destruct (parse_diff lim diff_text) as [d|e].
  - destruct (review_loop _ _ _ _) as [[e|cs0] w0] eqn:Hloop.
    + split; [done|]. intros (d' & css & [= <-] & Hans & ->).
      assert (review_loop _review_file (reviewable_files d) [] w
              = (inr ([] ++ concat css), w')) as Hr.
      { apply review_loop_returns. by exists css. }
      congruence.
    + apply review_loop_returns in Hloop as (css & Hans & ->). split.
      * intros [= <- <-]. by exists d, css.
      * intros (d' & css' & [= <-] & Hans' & ->).
        assert (review_loop _review_file (reviewable_files d) [] w
                = (inr ([] ++ concat css'), w')) as Hr.
        { apply review_loop_returns. by exists css'. }
        assert (review_loop _review_file (reviewable_files d) [] w
                = (inr ([] ++ concat css), w0)) as Hr0.
        { apply review_loop_returns. by exists css. }
        cbn in *. congruence.
  - split; [done|]. by intros (d & css & [=] & _).
Qed.

(** X4.  [review] fails with an error of [_review_file] exactly at the first
    call that fails: the calls before it returned, their comments are lost,
    and no later file is visited. *)
Theorem review_fails_iff (lim : nat) (diff_text : string) (e : E) (w w' : W) :
  review _review_file lim diff_text w = (inl (inr e), w')
  <-> exists d pre fd post css w1,
        parse_diff lim diff_text = Return d
        /\ visited d = pre ++ fd :: post
        /\ answered _review_file pre w css w1
        /\ _review_file fd w1 = (inl e, w').
Proof.
  unfold review, visited. destruct (parse_diff lim diff_text) as [d|e0].
  - destruct (review_loop _ _ _ _) as [[e1|cs0] w0] eqn:Hloop.
    + split.
      * intros [= <- <-]. apply review_loop_fails in Hloop
          as (pre & fd & post & css & w1 & ? & ? & ?).
        by exists d, pre, fd, post, css, w1.
      * intros (d' & pre & fd & post & css & w1 & [= <-] & Hf & Hans & Hfail).
        assert (review_loop _review_file (reviewable_files d) [] w = (inl e, w')) as Hr.
        { apply review_loop_fails. by exists pre, fd, post, css, w1. }
        congruence.
    + split; [done|].
      intros (d' & pre & fd & post & css & w1 & [= <-] & Hf & Hans & Hfail).
      assert (review_loop _review_file (reviewable_files d) [] w = (inl e, w')) as Hr.
      { apply review_loop_fails. by exists pre, fd, post, css, w1. }
      congruence.
  - split; [done|]. by intros (d & pre & fd & post & css & w1 & [=] & _).
Qed.

End ReviewLoop.

Section RunReview.
Import Py DiffParser Prompt GitLabClient Review Server Spec SpecMore.
Context {W E : Type}
  (_review_file : FileDiff -> W -> (E + list ReviewComment) * W).

(** X5.  [run_review] goes on to the review exactly when some change of the
    merge request carries a diff: the text assembled from changes without
    diff is empty, and the text of any other begins with a [diff --git] line,
    so it is never blank, whatever the diffs hold.  Without a diff nothing is
    reviewed and nothing is posted; otherwise [post_review] gets the comments
    of [review], and a failure of [review] is swallowed. *)
Theorem run_review_guard (lim : nat) (changes : list Change) (w : W) :
  run_review _review_file lim changes w
  = if decide (Exists has_diff changes) then
      match review _review_file lim (get_mr_diff_text changes) w with
      | (inr comments, w') => (Some comments, w')
      | (inl _, w') => (None, w')
      end
    else (None, w).
Proof.
  unfold run_review. cbv zeta.
  destruct (decide (Exists has_diff changes)) as [Hyes|Hno].
  - apply text_blank_iff in Hyes. by rewrite Hyes.
  - destruct (truthy (strip (get_mr_diff_text changes))) eqn:Ht; [|done].
    by apply text_blank_iff in Ht.
Qed.

End RunReview.

(** ** The summary of a result *)

Section Summary.
Import Py DiffParser Prompt Spec SpecMore.

Lemma summary_total_files (d : DiffResult) :
  summary d !! "total_files" = Some (len (files d)).
Proof. unfold summary. by rewrite lookup_insert. Qed.

Lemma summary_reviewable_files (d : DiffResult) :
  summary d !! "reviewable_files" = Some (len (reviewable_files d)).
Proof. unfold summary. rewrite lookup_insert_ne by done. by rewrite lookup_insert. Qed.

Lemma summary_total_added (d : DiffResult) :
  summary d !! "total_added"
  = Some (sum_ints ((fun f => len (added_lines f)) <$> files d)).
Proof.
  unfold summary. rewrite !lookup_insert_ne by done. by rewrite lookup_insert.
Qed.

Lemma summary_total_deleted (d : DiffResult) :
  summary d !! "total_deleted"
  = Some (sum_ints ((fun f => len (deleted_lines f)) <$> files d)).
Proof.
  unfold summary. rewrite !lookup_insert_ne by done. by rewrite lookup_insert.
Qed.

Lemma sum_ints_cons (x : Z) (l : list Z) : sum_ints (x :: l) = x + sum_ints l.
Proof. done. Qed.

Lemma sum_ints_len_bind {A B} (g : A -> list B) (l : list A) :
  sum_ints ((fun x => len (g x)) <$> l) = len (l ≫= g).
Proof.
  induction l as [|x l IH]; [done|].
  change ((x :: l) ≫= g) with (g x ++ (l ≫= g)).
  rewrite fmap_cons, sum_ints_cons, IH. unfold len. rewrite length_app. lia.
Qed.

Lemma length_by_type (ls : list Line) :
  (length (filter (λ l, type l = add) ls)
   + length (filter (λ l, type l = delete) ls)
   + length (filter (λ l, type l = context) ls) = length ls)%nat.
Proof.
  induction ls as [|l ls IH]; [done|]. rewrite !filter_cons.
  destruct (type l); repeat case_decide; try done; cbn; lia.
Qed.

Lemma length_lines_of_type (f : FileDiff) :
  len (lines_of_type add f) + len (lines_of_type delete f)
  + len (lines_of_type context f)
  = sum_ints ((fun h => len (lines h)) <$> hunks f).
Proof.
  unfold lines_of_type. induction (hunks f) as [|h hs IH]; [done|].
  rewrite fmap_cons, sum_ints_cons, <- IH.
  change ((h :: hs) ≫= ?g) with (g h ++ (hs ≫= g)).
  unfold len. rewrite !length_app. pose proof (length_by_type (lines h)). lia.
Qed.

(** X6.  In [summary], [total_added] and [total_deleted] are not negative,
    and together with the number of context lines they add up to the number
    of lines of all hunks of all files: every [Line] is counted once. *)
Theorem summary_counts_partition (d : DiffResult) :
  exists total_added total_deleted,
    summary d !! "total_added" = Some total_added
    /\ summary d !! "total_deleted" = Some total_deleted
    /\ 0 <= total_added /\ 0 <= total_deleted
    /\ total_added + total_deleted + len (files d ≫= lines_of_type context)
       = total_lines (files d).
Proof.
  eexists _, _. split; [apply summary_total_added|].
  split; [apply summary_total_deleted|].
  rewrite !sum_ints_len_bind. unfold len at 1 2. split; [lia|]. split; [lia|].
  rewrite <- !sum_ints_len_bind. unfold total_lines, added_lines, deleted_lines.
  induction (files d) as [|f fs IH]; [done|].
  rewrite !fmap_cons, !sum_ints_cons. pose proof (length_lines_of_type f). lia.
Qed.

(** X7.  In [summary], [reviewable_files] lies between 0 and [total_files]
    and equals it exactly when every file is reviewable (not binary, matched
    by no skip pattern). *)
Theorem summary_reviewable_le_total (d : DiffResult) :
  exists total reviewable_count,
    summary d !! "total_files" = Some total
    /\ summary d !! "reviewable_files" = Some reviewable_count
    /\ 0 <= reviewable_count <= total
    /\ (reviewable_count = total <-> Forall reviewable (files d)).
Proof.
  eexists _, _. split; [apply summary_total_files|].
  split; [apply summary_reviewable_files|].
  unfold reviewable_files, len.
  set (keep := fun f => negb (is_binary f) && negb (_should_skip (filename f))).
  assert (forall f, keep f = true <-> reviewable f) as Hkeep.
  { intros f. unfold keep. rewrite reviewable_spec. done. }
  induction (files d) as [|f fs IH]; cbn [List.filter].
  - split; [done|]. split; [constructor|done].
  - pose proof (List.filter_length_le keep fs) as Hle.
    destruct IH as [IH1 IH2]. rewrite Forall_cons.
    destruct (keep f) eqn:Hf.
    + cbn [length]. split; [lia|]. rewrite <- IH2, <- Hkeep. split.
      * intros Heq. split; [done|]. lia.
      * intros [_ Heq]. lia.
    + cbn [length]. split; [lia|]. split; [lia|].
      intros [Hr%Hkeep _]. congruence.
Qed.

End Summary.

(** ** The branches of the loop *)

Section Branches.
Import Py DiffParser Prompt Spec SpecMore.
Variable lim : nat.

Lemma int_nonneg (s : string) (z : Z) : int lim s = Return z -> 0 <= z.
Proof.
  unfold int. destruct (NilZero.uint_of_string s) as [d|]; [|done].
  destruct (within_max_str_digits _ _); [|done]. intros [= <-].
  unfold Z.of_uint. lia.
Qed.

Lemma int_or_1_nonneg (g : option string) (z : Z) :
  int_or_1 lim g = Return z -> 0 <= z.
Proof.
  destruct g as [d|]; cbn; [|intros [= <-]; lia].
  destruct (truthy d); [apply int_nonneg|intros [= <-]; lia].
Qed.

Lemma step_branch (st st' : ParseState) (line : string) :
  step lim st line = Return st' -> branch st line st'.
Proof.
  unfold step.
  destruct (startswith line "diff --git") eqn:Hgit.
  { intros [= <-]. by constructor. }
  destruct (startswith line "new file"). { intros [= <-]. constructor. by left. }
  destruct (startswith line "deleted file").
  { intros [= <-]. constructor. by right. }
  destruct (startswith line BINARY_MARKER) eqn:Hbin.
  { destruct (binary_match line); intros [= <-]; by constructor. }
  destruct (startswith line "--- ") eqn:Hold.
  { destruct (bool_decide _) eqn:Hpend; cbn [andb].
    - apply bool_decide_eq_true in Hpend.
      destruct (startswith _ "a/"); intros [= <-]; by constructor.
    - intros [= <-]. constructor. }
  destruct (startswith line "+++ ") eqn:Hnew.
  { destruct (String.eqb _ _); intros [= <-]; by constructor. }
  assert (opens_no_file line) as Hno by done.
  destruct (startswith line "index "). { intros [= <-]. constructor. }
  assert (forall st0 : ParseState,
    match current_hunk st with
    | Some at_ =>
        if startswith line "+" then
          Return (append_line at_ add (slice_from 1 line) true st)
        else if startswith line "-" then
          Return (append_line at_ delete (slice_from 1 line) false st)
        else if startswith line " " then
          Return (append_line at_ context (slice_from 1 line) true st)
        else Return st
    | None => Return st
    end = Return st0 -> branch st line st0) as Hcontent.
  { intros st0. destruct (current_hunk st) as [at_|] eqn:Hat;
      [|intros [= <-]; constructor].
    destruct (startswith line "+") eqn:Hp.
    { intros [= <-]. by apply (branch_content st line at_ add). }
    destruct (startswith line "-") eqn:Hm.
    { intros [= <-]. by apply (branch_content st line at_ delete). }
    destruct (startswith line " ") eqn:Hs.
    { intros [= <-]. by apply (branch_content st line at_ context). }
    intros [= <-]. constructor. }
  destruct (hunk_match line) as [[[[g1 g2] g3] g4]|]; [|apply Hcontent].
  destruct (current_file st) as [fi|]; [|apply Hcontent].
  intros (os & Hos & (oc & Hoc & (ns & Hns & (nc & Hnc & [= <-])%bind_Return_inv)
    %bind_Return_inv)%bind_Return_inv)%bind_Return_inv.
  constructor; cbn; try done;
    eauto using int_nonneg, int_or_1_nonneg.
Qed.

(** *** The fields the parser sets *)

Lemma fields_branch (st st' : ParseState) (line : string) :
  branch st line st' ->
  Forall parsed_fields (files (result st)) /\ pending_ok st ->
  Forall parsed_fields (files (result st')) /\ pending_ok st'.
Proof.
  unfold pending_ok.
  intros [Hgit|s Hs| |name Hbin|name Hold Hpend|name Hnew|fi h _ _ _ _ _ _|at_ t _ _ _]
    [Hfs Hp]; cbn; try done.
  - split; [done|]. by left.
  - split; [done|]. destruct Hs as [->| ->]; tauto.
  - split; [|done]. apply Forall_app. split; [done|].
    apply Forall_singleton. by split_and!.
  - split; [|done]. apply Forall_app. split; [done|].
    apply Forall_singleton. by split_and!.
  - split; [|done]. apply Forall_app. split; [done|].
    apply Forall_singleton. unfold parsed_fields; cbn.
    destruct Hp as [->|[->| ->]]; cbn; by split_and!.
  - split; [|done]. apply Forall_alter; [done|]. by intros f _.
  - split; [|done]. apply Forall_alter; [done|]. by intros f _.
Qed.

Lemma fields_run (ls : list string) (st : ParseState) :
  run lim initial ls = Return st ->
  Forall parsed_fields (files (result st)) /\ pending_ok st.
Proof.
  apply (run_ind lim ls (fun _ st =>
    Forall parsed_fields (files (result st)) /\ pending_ok st)).
  - split; [constructor|by left].
  - intros pre st0 line st' _ _ IH Hstep.
    eapply fields_branch; [|done]. by apply step_branch.
Qed.

(** *** Counting *)

Lemma length_bind_alter {A B} (g : A -> A) (φ : A -> list B) (k i : nat)
    (l : list A) :
  (forall x, length (φ (g x)) <= length (φ x) + k)%nat ->
  (length (alter g i l ≫= φ) <= length (l ≫= φ) + k)%nat.
Proof.
  intros Hg. revert i. induction l as [|x l IH]; intros [|i]; cbn; try lia.
  - rewrite !length_app. specialize (Hg x). lia.
  - rewrite !length_app. specialize (IH i). cbn in IH. lia.
Qed.

Lemma count_branch (t : LineType) (st st' : ParseState) (line : string) :
  branch st line st' ->
  (count t st' <= count t st
     + (if decide (opens_no_file line /\ startswith line (marker t) = true)
        then 1 else 0))%nat.
Proof.
  unfold count.
  intros [Hgit|s Hs| |name Hbin|name Hold Hpend|name Hnew|fi h _ Hl _ _ _ _|at_ t' Hno Ht' _];
    cbn [result files reset set_pending open_file open_hunk append_line];
    try lia.
  - rewrite bind_app, length_app. cbn. lia.
  - rewrite bind_app, length_app. cbn. lia.
  - rewrite bind_app, length_app. cbn. lia.
  - etrans; [apply (length_bind_alter _ _ 0)|lia].
    intros f. unfold lines_of_type; cbn. rewrite bind_app, length_app. cbn.
    rewrite Hl. cbn. lia.
  - destruct (decide (t' = t)) as [->|Hne].
    + rewrite decide_True by done. apply length_bind_alter.
      intros f. unfold lines_of_type; cbn.
      apply (length_bind_alter _ (fun h => filter (λ l, type l = t) (lines h))).
      intros h. cbn. rewrite filter_app, length_app, filter_cons, filter_nil.
      case_decide; cbn; lia.
    + etrans; [apply (length_bind_alter _ _ 0)|lia].
      intros f. unfold lines_of_type; cbn.
      apply (length_bind_alter _ (fun h => filter (λ l, type l = t) (lines h))).
      intros h. cbn. rewrite filter_app, length_app, filter_cons, filter_nil.
      rewrite decide_False by done. cbn; lia.
Qed.

Lemma count_run (t : LineType) (ls : list string) (st : ParseState) :
  run lim initial ls = Return st ->
  (count t st
   <= length (filter (fun l => opens_no_file l /\ startswith l (marker t) = true)
                ls))%nat.
Proof.
  apply (run_ind lim ls (fun pre st =>
    (count t st
     <= length (filter (fun l => opens_no_file l /\ startswith l (marker t) = true)
                  pre))%nat)).
  - done.
  - intros pre st0 line st' _ _ IH Hstep.
    pose proof (count_branch t st0 st' line (step_branch _ _ _ Hstep)) as Hc.
    rewrite filter_app, length_app, filter_cons, filter_nil.
    destruct (decide _); cbn in *; lia.
Qed.

Lemma files_branch (st st' : ParseState) (line : string) :
  branch st line st' ->
  (length (files (result st'))
   <= length (files (result st)) + (if decide (opener line) then 1 else 0))%nat.
Proof.
  unfold opener, opens_no_file.
  intros [Hgit|s Hs| |name Hbin|name Hold Hpend|name Hnew|fi h _ Hl _ _ _ _|at_ t' Hno Ht' _];
    cbn [result files reset set_pending open_file open_hunk append_line];
    rewrite ?length_app, ?length_alter; cbn [length]; try lia.
  - rewrite decide_True; [lia|]. intros (? & _). congruence.
  - rewrite decide_True; [lia|]. intros (? & ? & _). congruence.
  - rewrite decide_True; [lia|]. intros (? & ? & ?). congruence.
Qed.

Lemma files_run (ls : list string) (st : ParseState) :
  run lim initial ls = Return st ->
  (length (files (result st)) <= length (filter opener ls))%nat.
Proof.
  apply (run_ind lim ls (fun pre st =>
    (length (files (result st)) <= length (filter opener pre))%nat)).
  - done.
  - intros pre st0 line st' _ _ IH Hstep.
    pose proof (files_branch st0 st' line (step_branch _ _ _ Hstep)) as Hc.
    rewrite filter_app, length_app, filter_cons, filter_nil.
    destruct (decide _); cbn in *; lia.
Qed.

End Branches.

Section ParserInvariants.
Import Py DiffParser Prompt Spec SpecMore.

(** X8.  Every [FileDiff] of a result of [parse_diff] has [old_filename]
    unset and a status other than "renamed", and it has [is_binary] set
    exactly when its status is "binary". *)
Theorem parsed_files_fields (lim : nat) (s : string) (r : DiffResult)
    (f : FileDiff) :
  parse_diff lim s = Return r -> f ∈ files r ->
  old_filename f = None /\ status f <> renamed
  /\ (is_binary f = true <-> status f = binary).
Proof.
  intros (st & Hrun & <-)%parse_diff_inv Hf.
  destruct (fields_run lim _ st Hrun) as [Hall _].
  rewrite Forall_forall in Hall. by apply Hall.
Qed.

(** X9.  For a result of [parse_diff], [total_added] is at most the number
    of input lines led by ["+"] but not by the new-path marker, and
    [total_deleted] at most the number of input lines led by ["-"] but not by
    the old-path marker. *)
Theorem summary_bounded_by_input (lim : nat) (s : string) (r : DiffResult) :
  parse_diff lim s = Return r ->
  exists total_added total_deleted,
    summary r !! "total_added" = Some total_added
    /\ summary r !! "total_deleted" = Some total_deleted
    /\ total_added <= len (filter plus_line (split_lines s))
    /\ total_deleted <= len (filter minus_line (split_lines s)).
Proof.
  intros (st & Hrun & <-)%parse_diff_inv.
  eexists _, _. split; [apply summary_total_added|].
  split; [apply summary_total_deleted|].
  rewrite !sum_ints_len_bind. unfold len.
  pose proof (count_run lim add _ st Hrun) as Ha.
  pose proof (count_run lim delete _ st Hrun) as Hd.
  unfold count in *. 
  assert (forall (P Q : string -> Prop) `{!forall l, Decision (P l)}
            `{!forall l, Decision (Q l)} (ls : list string),
            (forall l, P l -> Q l) ->
            (length (filter P ls) <= length (filter Q ls))%nat) as Hmono.
  { intros P Q ? ? ls HPQ. induction ls as [|l ls IH]; [done|].
    rewrite !filter_cons. destruct (decide (P l)) as [HP|HP].
    - rewrite decide_True by auto. cbn. lia.
    - destruct (decide (Q l)); cbn; lia. }
  split.
  - apply Nat2Z.inj_le. etrans; [exact Ha|]. apply Hmono.
    intros l [(_ & _ & Hnew) Hp]. by split.
  - apply Nat2Z.inj_le. etrans; [exact Hd|]. apply Hmono.
    intros l [(_ & Hold & _) Hp]. by split.
Qed.

(** X10.  A result of [parse_diff] has at most as many files as the input
    has lines led by the binary marker, the old-path marker or the new-path
    marker; a text without such a line yields no file, whatever hunks it
    holds. *)
Theorem files_bounded_by_openers (lim : nat) (s : string) (r : DiffResult) :
  parse_diff lim s = Return r ->
  len (files r) <= len (filter opener (split_lines s)).
Proof.
  intros (st & Hrun & <-)%parse_diff_inv. unfold len.
  apply Nat2Z.inj_le. by apply (files_run lim).
Qed.

End ParserInvariants.

Section HunkNumbers.
Import Py DiffParser Prompt Spec SpecMore.

Lemma header_numbers_run (lim : nat) (ls : list string) (st : ParseState)
    (p : nat * nat) (h : Hunk) :
  run lim initial ls = Return st -> hunk_at st p = Some h ->
  0 <= old_start h /\ 0 <= old_count h /\ 0 <= new_start h /\ 0 <= new_count h.
Proof.
  intros Hrun. revert p h. revert ls st Hrun.
  apply (hunks_ind lim (fun _ h =>
    0 <= old_start h /\ 0 <= old_count h /\ 0 <= new_start h
    /\ 0 <= new_count h)).
  - intros _ h g1 g2 g3 g4 _ H1 H2 H3 H4.
    split_and!; eauto using int_nonneg, int_or_1_nonneg.
  - done.
  - done.
Qed.

(** X11.  In every hunk of a result of [parse_diff] the four numbers of the
    header are not negative, the number of every line lies between
    [new_start] and [new_start] plus the number of add and context lines of
    the hunk, and the numbers never decrease along the lines. *)
Theorem hunk_numbers_ordered (lim : nat) (s : string) (r : DiffResult)
    (f : FileDiff) (h : Hunk) :
  parse_diff lim s = Return r -> f ∈ files r -> h ∈ hunks f ->
  (0 <= old_start h /\ 0 <= old_count h /\ 0 <= new_start h /\ 0 <= new_count h)
  /\ (forall l, l ∈ lines h ->
        new_start h <= number l
        <= new_start h + len (filter advances (lines h)))
  /\ (forall a x b y c, lines h = a ++ x :: b ++ y :: c -> number x <= number y).
Proof.
  intros (st & Hrun & <-)%parse_diff_inv Hf Hh.
  destruct (elem_of_hunk_at st f h Hf Hh) as [p Hp].
  pose proof (numbered_run lim _ st p h Hrun Hp) as Hnum.
  split; [|split].
  - by eapply header_numbers_run.
  - intros l (pre & post & Hl)%list_elem_of_split.
    unfold len. rewrite (Hnum pre l post Hl), Hl, filter_app, length_app. lia.
  - intros a x b y c Hl. rewrite (Hnum a x _ Hl).
    rewrite (Hnum (a ++ x :: b) y c) by (by rewrite Hl, <- app_assoc).
    rewrite filter_app, length_app. lia.
Qed.

End HunkNumbers.

(** ** Skip patterns *)

Section Skip.
Import Py DiffParser Prompt Spec SpecMore.

Lemma string_app_assoc (a b c : string) : (a +:+ b) +:+ c = a +:+ (b +:+ c).
Proof. induction a as [|x a IH]; [done|]. rewrite !app_String. by rewrite IH. Qed.

Lemma length_string_app (a b : string) :
  String.length (a +:+ b) = (String.length a + String.length b)%nat.
Proof. induction a as [|x a IH]; [done|]. rewrite app_String. cbn. by rewrite IH. Qed.

Lemma slice_from_app (a b : string) : slice_from (String.length a) (a +:+ b) = b.
Proof. induction a as [|x a IH]; [done|]. by rewrite app_String. Qed.

Lemma slice_to_from (n : nat) (s : string) : slice_to n s +:+ slice_from n s = s.
Proof.
  revert s. induction n as [|n IH]; intros [|c s]; try done.
  cbn. rewrite app_String. by rewrite IH.
Qed.

Lemma endswith_true (s p : string) :
  endswith s p = true <-> exists pre, s = pre +:+ p.
Proof.
  unfold endswith. rewrite andb_true_iff, String.eqb_eq, Nat.leb_le. split.
  - intros [_ Heq].
    pose proof (slice_to_from (String.length s - String.length p) s) as Hs.
    rewrite Heq in Hs. by eexists.
  - intros [pre ->]. rewrite length_string_app. split; [lia|].
    replace (String.length pre + String.length p - String.length p)%nat
      with (String.length pre) by lia.
    apply slice_from_app.
Qed.

(** X12.  [_should_skip] holds of a name exactly when the name, a final
    line feed apart, ends with one of the eleven literal suffixes; so it is
    kept when a directory (any text) is put in front of the name. *)
Theorem should_skip_suffix (name : string) :
  (_should_skip name = true
   <-> exists pre lit,
         lit ∈ skip_suffixes
         /\ (name = pre +:+ lit \/ name = pre +:+ lit +:+ LF))
  /\ forall dir,
       _should_skip name = true -> _should_skip (dir +:+ name) = true.
Proof.
  assert (forall name, _should_skip name = true
    <-> exists pre lit,
          lit ∈ skip_suffixes
          /\ (name = pre +:+ lit \/ name = pre +:+ lit +:+ LF)) as Hiff.
  { intros n. unfold _should_skip, skip_suffixes. rewrite existsb_exists. split.
    - intros ([lit] & Hin & Hs). cbn in Hs.
      apply orb_true_iff in Hs as [[pre ->]%endswith_true|[pre ->]%endswith_true].
      + exists pre, lit. split; [|by left].
        apply list_elem_of_fmap. exists (literal_dollar lit).
        split; [done|]. by apply list_elem_of_In.
      + exists pre, lit. split; [|by right].
        apply list_elem_of_fmap. exists (literal_dollar lit).
        split; [done|]. by apply list_elem_of_In.
    - intros (pre & lit & ([lit'] & -> & Hin)%list_elem_of_fmap & Hn).
      exists (literal_dollar lit'). split; [by apply list_elem_of_In|].
      cbn. apply orb_true_iff.
      destruct Hn as [->| ->]; [left|right]; apply endswith_true; by exists pre. }
  split; [apply Hiff|].
  intros dir (pre & lit & Hlit & Hn)%Hiff. apply Hiff.
  exists (dir +:+ pre), lit. split; [done|].
  destruct Hn as [->| ->]; [left|right]; by rewrite string_app_assoc.
Qed.

End Skip.

(** ** The empty query *)

Section EmptyQuery.
Import Py DiffParser Prompt Reviewer Spec SpecMore.

Lemma filter_nonblank_nil (ls : list Line) :
  filter (fun l => ~ blank l) ls = [] <-> Forall blank ls.
Proof.
  induction ls as [|l ls IH]; [done|].
  rewrite filter_cons, Forall_cons. destruct (decide (~ blank l)) as [Hb|Hb].
  - split; [done|]. intros [? _]. done.
  - apply dec_stable in Hb. rewrite IH. tauto.
Qed.

Lemma query_of_nonblank (ls : list Line) :
  Forall (fun l => ~ blank l) ls -> ls <> [] ->
  slice_to 500 (join_lines (content <$> ls)) <> "".
Proof.
  destruct 1 as [|l ls Hl _]; [done|]. intros _.
  unfold blank in Hl. destruct (content l) as [|c r] eqn:Hc; [done|].
  cbn [fmap list_fmap]. rewrite Hc. by destruct ls.
Qed.

Lemma build_search_query_filter (f : FileDiff) :
  _build_search_query f
  = slice_to 500
      (join_lines
         (content <$> (if decide (filter (fun l => ~ blank l) (added_lines f) = [])
                       then filter (fun l => ~ blank l) (deleted_lines f)
                       else filter (fun l => ~ blank l) (added_lines f)))).
Proof.
  unfold _build_search_query. rewrite !nonblank_contents_filter.
  by destruct (filter _ (added_lines f)).
Qed.

(** X13.  The search query is empty exactly when every added line and every
    deleted line of the file is blank. *)
Theorem build_search_query_empty (f : FileDiff) :
  _build_search_query f = ""
  <-> Forall blank (added_lines f) /\ Forall blank (deleted_lines f).
Proof.
  rewrite build_search_query_filter, <- !filter_nonblank_nil.
  set (adds := filter _ (added_lines f)). set (dels := filter _ (deleted_lines f)).
  assert (Forall (fun l => ~ blank l) adds) as Ha.
  { apply Forall_forall. by intros l [? _]%list_elem_of_filter. }
  assert (Forall (fun l => ~ blank l) dels) as Hd.
  { apply Forall_forall. by intros l [? _]%list_elem_of_filter. }
  destruct (decide (adds = [])) as [Hnil|Hne].
  - split.
    + intros Hq. split; [done|].
      destruct (decide (dels = [])) as [|Hdne]; [done|].
      by destruct (query_of_nonblank dels Hd Hdne).
    + by intros [_ ->].
  - split.
    + intros Hq. by destruct (query_of_nonblank adds Ha Hne).
    + by intros [? _].
Qed.

End EmptyQuery.

(** ** Empty lines and sections *)

Section BlankLines.
Import Py DiffParser Prompt Spec SpecMore.

(** X14.  [parse_diff] ignores empty lines: an empty line inside the text,
    a line feed at its end and a line feed at its start change neither the
    result nor whether it raises. *)
Theorem empty_lines_ignored (lim : nat) (a b : string) :
  parse_diff lim (a +:+ LF +:+ LF +:+ b) = parse_diff lim (a +:+ LF +:+ b)
  /\ parse_diff lim (a +:+ LF) = parse_diff lim a
  /\ parse_diff lim (LF +:+ a) = parse_diff lim a.
Proof.
  unfold parse_diff, LF. split_and!.
  - change (String "010" "" +:+ String "010" "" +:+ b)
      with (String "010" ("" +:+ String "010" b)).
    change (String "010" "" +:+ b) with (String "010" b).
    rewrite !split_lines_app_lf. rewrite !(run_app lim initial).
    destruct (run lim initial (split_lines a)) as [st|e]; [|done].
    cbn [bind split_lines app run]. by rewrite step_empty.
  - rewrite (split_lines_app_lf a ""). rewrite run_app. cbn [split_lines run].
    destruct (run lim initial (split_lines a)) as [st|e]; [|done].
    cbn [bind]. by rewrite step_empty.
  - change (String "010" "" +:+ a) with ("" +:+ String "010" a).
    rewrite (split_lines_app_lf "" a). cbn [split_lines app run].
    by rewrite step_empty.
Qed.

End BlankLines.

Section Distribution.
Import Py DiffParser Prompt Spec SpecMore.
Variable lim : nat.

(** Where the loop raises on [st2], it raises on [st1]. *)
Lemma framed_step_raise (fs0 : list FileDiff) (st1 st2 : ParseState)
    (line : string) (e : exn) :
  framed fs0 st1 st2 -> step lim st2 line = Raise e ->
  step lim st1 line = Raise e.
Proof.
  intros [Hfs Hfile Hhunk Hnum Hpend]. unfold step.
  destruct (startswith line "diff --git"); [done|].
  destruct (startswith line "new file"); [done|].
  destruct (startswith line "deleted file"); [done|].
  destruct (startswith line BINARY_MARKER); [by destruct (binary_match line)|].
  destruct (startswith line "--- "); [by destruct (_ && _)|].
  destruct (startswith line "+++ "); [by destruct (String.eqb _ _)|].
  destruct (startswith line "index "); [done|].
  assert (match current_hunk st2 with
    | Some at_ =>
        if startswith line "+" then
          Return (append_line at_ add (slice_from 1 line) true st2)
        else if startswith line "-" then
          Return (append_line at_ delete (slice_from 1 line) false st2)
        else if startswith line " " then
          Return (append_line at_ context (slice_from 1 line) true st2)
        else Return st2
    | None => Return st2
    end <> Raise e) as Hcontent.
  { destruct (current_hunk st2); [|done].
    by destruct (startswith line "+"), (startswith line "-"),
      (startswith line " "). }
  destruct (hunk_match line) as [[[[g1 g2] g3] g4]|]; [|done].
  rewrite Hfile. destruct (current_file st1) as [fi|];
    cbn [fmap option_fmap option_map]; [|done].
  destruct (int lim g1) as [os|]; cbn [bind]; [|done].
  destruct (int_or_1 lim g2) as [oc|]; cbn [bind]; [|done].
  destruct (int lim g3) as [ns|]; cbn [bind]; [|done].
  destruct (int_or_1 lim g4) as [nc|]; cbn [bind]; done.
Qed.

Lemma framed_run_raise (fs0 : list FileDiff) (ls : list string)
    (st1 st2 : ParseState) (e : exn) :
  framed fs0 st1 st2 -> run lim st2 ls = Raise e -> run lim st1 ls = Raise e.
Proof.
  revert st1 st2. induction ls as [|line ls IH]; intros st1 st2 Hfr; [done|].
  cbn [run]. destruct (step lim st2 line) as [st2a|e2] eqn:Hstep; cbn [bind].
  - destruct (framed_step lim fs0 st1 st2 st2a line Hfr Hstep)
      as (st1a & -> & Hfra).
    cbn [bind]. by apply IH.
  - intros [= ->]. by rewrite (framed_step_raise fs0 st1 st2 line e Hfr Hstep).
Qed.

Lemma split_lines_git (b : string) :
  startswith b "diff --git" = true ->
  exists dg rest, split_lines b = dg :: rest /\ startswith dg "diff --git" = true.
Proof.
  intros Hb. apply startswith_inv in Hb. rewrite <- Hb.
  destruct (split_lines_head "diff --git" (slice_from 10 b)) as (h & t & Hh);
    [done|].
  exists ("diff --git" +:+ h), t. split; [done|]. apply startswith_app.
Qed.

(** X15.  [parse_diff] works section by section: on a text followed, on a
    new line, by a text that begins with [diff --git], it raises when it
    raises on one of the two, and otherwise returns the files of the first
    followed by the files of the second. *)
Theorem parse_diff_distributes (a b : string) :
  startswith b "diff --git" = true ->
  parse_diff lim (a +:+ LF +:+ b)
  = let* ra := parse_diff lim a in
    let* rb := parse_diff lim b in
    Return {| files := files ra ++ files rb |}.
Proof.
  intros (dg & rest & Hb & Hdg)%split_lines_git. unfold parse_diff, LF.
  change (String "010" "" +:+ b) with (String "010" b).
  rewrite split_lines_app_lf, run_app, Hb.
  destruct (run lim initial (split_lines a)) as [st|e]; cbn [bind run]; [|done].
  rewrite !(step_git lim _ dg Hdg). cbn [bind].
  change (reset initial) with initial.
  destruct (run lim (reset st) rest) as [st2|e] eqn:Hrun.
  - destruct (framed_run lim _ rest initial (reset st) st2 (framed_reset st) Hrun)
      as (st1 & -> & Hfr).
    cbn [bind]. f_equal. destruct (result st2) eqn:Hres. f_equal.
    pose proof (framed_files _ _ _ Hfr) as Hfs. by rewrite Hres in Hfs.
  - by rewrite (framed_run_raise _ rest initial (reset st) e (framed_reset st) Hrun).
Qed.

End Distribution.

(** ** Printing and parsing again *)

Section RoundTrip.
Import Py DiffParser Prompt Spec SpecMore.
Variable lim : nat.

Lemma N_to_uint_nonnil (n : N) : N.to_uint n <> Decimal.Nil.
Proof. destruct n; [done|]. apply DecimalPos.Unsigned.to_uint_nonnil. Qed.

Lemma all_digits_string_of_uint (d : Decimal.uint) :
  all_digits (NilEmpty.string_of_uint d) = true.
Proof. induction d; done. Qed.

(** [int] reads back what [str] printed for a number that is not negative. *)
Lemma int_of_str (z : Z) (s : string) :
  0 <= z -> str lim z = Return s ->
  decimal_run s = true /\ int lim s = Return z.
Proof.
  intros Hz. unfold str. cbv zeta.
  pose proof (N_to_uint_nonnil (Z.abs_N z)) as Hnil.
  assert (NilZero.string_of_uint (N.to_uint (Z.abs_N z))
          = NilEmpty.string_of_uint (N.to_uint (Z.abs_N z))) as Hs
    by (by destruct (N.to_uint (Z.abs_N z))).
  destruct (within_max_str_digits _ _) eqn:Hw; [|done].
  rewrite (proj2 (Z.ltb_ge z 0)) by lia. intros [= <-]. split.
  - unfold decimal_run. rewrite Hs, all_digits_string_of_uint, andb_true_r.
    by destruct (N.to_uint (Z.abs_N z)).
  - unfold int. rewrite NilZero.usu by done. rewrite Hw. f_equal.
    unfold Z.of_uint. rewrite DecimalN.Unsigned.of_to, N2Z.inj_abs_N. lia.
Qed.

Lemma all_digits_no_lf (s : string) : all_digits s = true -> no_lf s = true.
Proof.
  induction s as [|c s IH]; [done|]. cbn.
  intros [Hc Hs]%andb_true_iff. rewrite (IH Hs), andb_true_r.
  destruct (Ascii.eqb_spec c "010") as [->|]; done.
Qed.

Lemma span_digits_app (d r : string) :
  all_digits d = true ->
  (forall c r', r = String c r' -> isdigit c = false) ->
  span_digits (d +:+ r) = (d, r).
Proof.
  intros Hd Hr. induction d as [|c d IH].
  - change ("" +:+ r) with r. destruct r as [|c r']; [done|].
    cbn [span_digits]. by rewrite (Hr c r').
  - rewrite app_String. cbn [span_digits all_digits] in Hd |- *.
    apply andb_true_iff in Hd as [-> Hd]. by rewrite (IH Hd).
Qed.

Lemma re_digits_app (d r : string) :
  decimal_run d = true ->
  (forall c r', r = String c r' -> isdigit c = false) ->
  re_digits (d +:+ r) = Some (d, r).
Proof.
  intros [Hne Hd]%andb_true_iff Hr. unfold re_digits.
  rewrite span_digits_app by done. by destruct d.
Qed.

Lemma re_opt_count_app (d r : string) :
  decimal_run d = true ->
  (forall c r', r = String c r' -> isdigit c = false) ->
  re_opt_count ("," +:+ d +:+ r) = (Some d, r).
Proof.
  intros Hd Hr. change ("," +:+ d +:+ r) with (String "," (d +:+ r)).
  unfold re_opt_count. by rewrite re_digits_app.
Qed.

Lemma hunk_match_header (os oc ns nc : string) :
  decimal_run os = true -> decimal_run oc = true ->
  decimal_run ns = true -> decimal_run nc = true ->
  hunk_match ("@@ -" +:+ os +:+ "," +:+ oc +:+ " +" +:+ ns +:+ "," +:+ nc +:+ " @@")
  = Some (os, Some oc, ns, Some nc).
Proof.
  intros Hos Hoc Hns Hnc. unfold hunk_match. rewrite startswith_app.
  change (slice_from 4 ("@@ -" +:+ ?x)) with x.
  rewrite re_digits_app; [|done|by intros c r' [= <- _]].
  rewrite re_opt_count_app; [|done|by intros c r' [= <- _]].
  rewrite startswith_app.
  change (slice_from 2 (" +" +:+ ?x)) with x.
  rewrite re_digits_app; [|done|by intros c r' [= <- _]].
  rewrite (re_opt_count_app nc " @@"); [|done|by intros c r' [= <- _]].
  done.
Qed.

(** The loop reads the header [format_diff] prints for [h] as the header of
    [h]. *)
Lemma step_format_header (st : ParseState) (fi : nat) (h : Hunk)
    (header : string) :
  0 <= old_start h -> 0 <= old_count h -> 0 <= new_start h -> 0 <= new_count h ->
  current_file st = Some fi -> format_header lim h = Return header ->
  no_lf header = true
  /\ step lim st header
     = Return (open_hunk fi
                 {| old_start := old_start h; old_count := old_count h;
                    new_start := new_start h; new_count := new_count h;
                    lines := [] |} st).
Proof.
  intros H1 H2 H3 H4 Hfi. unfold format_header.
  intros (os & Hos & (oc & Hoc & (ns & Hns & (nc & Hnc & [= <-])%bind_Return_inv)
    %bind_Return_inv)%bind_Return_inv)%bind_Return_inv.
  destruct (int_of_str _ _ H1 Hos) as [Dos Ios].
  destruct (int_of_str _ _ H2 Hoc) as [Doc Ioc].
  destruct (int_of_str _ _ H3 Hns) as [Dns Ins].
  destruct (int_of_str _ _ H4 Hnc) as [Dnc Inc].
  assert (forall d, decimal_run d = true -> no_lf d = true) as Hlf.
  { intros d [_ Hd]%andb_true_iff. by apply all_digits_no_lf. }
  split.
  - apply (no_lf_app "@@ -"); [done|]. apply no_lf_app; [by apply Hlf|].
    apply (no_lf_app ","); [done|]. apply no_lf_app; [by apply Hlf|].
    apply (no_lf_app " +"); [done|]. apply no_lf_app; [by apply Hlf|].
    apply (no_lf_app ","); [done|]. apply no_lf_app; [by apply Hlf|]. done.
  - rewrite (step_header lim st _ fi os ns (Some oc) (Some nc))
      by (by rewrite ?hunk_match_header).
    cbn [int_or_1].
    apply andb_true_iff in Doc as [-> _]. apply andb_true_iff in Dnc as [-> _].
    by rewrite Ios, Ioc, Ins, Inc.
Qed.

Ltac skip_prefix H := rewrite (startswith_other _ _ _ H) by reflexivity.

(** A content line goes to the open hunk. *)
Lemma step_content (st : ParseState) (line : string) (at_ : nat * nat)
    (t : LineType) :
  startswith line (marker t) = true -> opens_no_file line ->
  current_hunk st = Some at_ ->
  step lim st line
  = Return (append_line at_ t (slice_from 1 line) (bool_decide (t <> delete)) st).
Proof.
  intros H (Hbin & Hold & Hnew) Hat. unfold step.
  destruct t; cbn [marker] in H.
  - do 3 skip_prefix H. rewrite Hbin, Hold, Hnew. skip_prefix H.
    unfold hunk_match. skip_prefix H. by rewrite Hat, H.
  - do 3 skip_prefix H. rewrite Hbin, Hold, Hnew. skip_prefix H.
    unfold hunk_match. skip_prefix H. rewrite Hat. skip_prefix H.
    by rewrite H.
  - do 3 skip_prefix H. rewrite Hbin, Hold, Hnew. skip_prefix H.
    unfold hunk_match. skip_prefix H. rewrite Hat. do 2 skip_prefix H.
    by rewrite H.
Qed.

Lemma slice_format_line (l : Line) : slice_from 1 (format_line l) = content l.
Proof. unfold format_line. by destruct (type l). Qed.

Lemma filter_advances_snoc (ls : list Line) (l : Line) :
  Z.of_nat (length (filter advances (ls ++ [l])))
  = if bool_decide (type l <> delete)
    then Z.of_nat (length (filter advances ls)) + 1
    else Z.of_nat (length (filter advances ls)).
Proof.
  rewrite filter_app, length_app, filter_cons, filter_nil.
  destruct (decide (advances l)) as [Ha|Ha]; case_bool_decide as Hd; cbn [length].
  - lia.
  - unfold advances in Ha. rewrite Hd in Ha. by destruct Ha.
  - exfalso. apply Ha. unfold advances. destruct (type l); auto. done.
  - lia.
Qed.

(** The lines printed for the lines of a hunk rebuild them in the open
    hunk. *)
Lemma run_format_lines (name : string) (done_ : list Hunk)
    (os oc ns nc : Z) (ls : list Line) :
  Forall printable_line ls ->
  forall ls0,
    numbered {| old_start := os; old_count := oc; new_start := ns;
                new_count := nc; lines := ls0 ++ ls |} ->
    run lim
      (printing name
         (done_ ++ [ {| old_start := os; old_count := oc; new_start := ns;
                        new_count := nc; lines := ls0 |} ])
         (Some (0%nat, length done_))
         (ns + Z.of_nat (length (filter advances ls0))))
      (format_line <$> ls)
    = Return
        (printing name
           (done_ ++ [ {| old_start := os; old_count := oc; new_start := ns;
                          new_count := nc; lines := ls0 ++ ls |} ])
           (Some (0%nat, length done_))
           (ns + Z.of_nat (length (filter advances (ls0 ++ ls))))).
Proof.
  induction 1 as [|l ls [Hlf Hno] _ IH]; intros ls0 Hnum.
  - cbn. by rewrite app_nil_r.
  - rewrite fmap_cons. cbn [run].
    rewrite (step_content _ (format_line l) (0%nat, length done_) (type l));
      [|apply startswith_app|done|done].
    cbn [bind]. rewrite slice_format_line.
    pose proof (Hnum ls0 l ls eq_refl) as Hl. cbn in Hl.
    match goal with
    | |- run lim ?st _ = _ =>
        replace st with
          (printing name
             (done_ ++ [ {| old_start := os; old_count := oc; new_start := ns;
                            new_count := nc; lines := ls0 ++ [l] |} ])
             (Some (0%nat, length done_))
             (ns + Z.of_nat (length (filter advances (ls0 ++ [l])))))
    end.
    + rewrite IH by (by rewrite <- app_assoc). by rewrite <- app_assoc.
    + unfold append_line, printing, with_hunks. cbn. rewrite alter_snoc.
      rewrite filter_advances_snoc. unfold push_line. cbn.
      destruct l as [n c t]; cbn in *. subst n.
      destruct (bool_decide (t <> delete)); [by rewrite Z.add_assoc|done].
Qed.

(** The lines printed for hunks rebuild the hunks in the current file. *)
Lemma run_format_hunks (name : string) (hs : list Hunk) :
  Forall printable_hunk hs ->
  forall out done_ open n,
    format_hunks lim hs = Return out ->
    Forall (fun l => no_lf l = true) out
    /\ exists open' n',
         run lim (printing name done_ open n) out
         = Return (printing name (done_ ++ hs) open' n').
Proof.
  induction 1 as [|h hs (H1 & H2 & H3 & H4 & Hnum & Hls) _ IH];
    intros out done_ open n.
  - intros [= <-]. split; [constructor|]. exists open, n. cbn.
    by rewrite app_nil_r.
  - cbn [format_hunks].
    intros (header & Hh & (tl & Htl & [= <-])%bind_Return_inv)%bind_Return_inv.
    destruct (step_format_header (printing name done_ open n) 0 h header
                H1 H2 H3 H4 eq_refl Hh) as [Hlf Hstep].
    destruct (IH tl (done_ ++ [h]) (Some (0%nat, length done_))
                (new_start h + Z.of_nat (length (filter advances (lines h)))) Htl)
      as (Hlftl & open' & n' & Hrun).
    split.
    + constructor; [done|]. apply Forall_app. split; [|done].
      apply Forall_fmap. eapply Forall_impl; [exact Hls|].
      intros l [Hc _]. cbn. unfold format_line.
      apply no_lf_app; [by destruct (type l)|done].
    + exists open', n'. cbn [run]. rewrite Hstep. cbn [bind]. rewrite run_app.
      destruct h as [os oc ns nc ls]. cbn in *.
      pose proof (run_format_lines name done_ os oc ns nc ls Hls [] Hnum) as Hl.
      cbn in Hl. rewrite Z.add_0_r in Hl.
      replace (open_hunk 0 _ _) with
        (printing name
           (done_ ++ [ {| old_start := os; old_count := oc; new_start := ns;
                          new_count := nc; lines := [] |} ])
           (Some (0%nat, length done_)) ns) by done.
      change (map format_line ls) with (format_line <$> ls).
      rewrite Hl. cbn [bind]. rewrite Hrun. by rewrite <- app_assoc.
Qed.

(** The text printed for hunks, put under a new-path line, parses to one
    file with these hunks. *)
Lemma parse_format_hunks (name : string) (hs : list Hunk) (ls : list string) :
  no_lf name = true -> Forall printable_hunk hs ->
  format_hunks lim hs = Return ls ->
  parse_diff lim (join_lines [ "+++ b/" +:+ name; join_lines ls ])
  = Return {| files := [ {| filename := name; old_filename := None;
                            status := modified; hunks := hs;
                            is_binary := false |} ] |}.
Proof.
  intros Hname Hhunks Hls.
  destruct (run_format_hunks name hs Hhunks ls [] None 0 Hls)
    as (Hlf & open' & n' & Hrun).
  assert (parse_lines lim (("+++ b/" +:+ name) :: ls)
          = Return {| files := [ {| filename := name; old_filename := None;
                                    status := modified; hunks := hs;
                                    is_binary := false |} ] |}) as Hparse.
  { unfold parse_lines. cbn [run]. rewrite step_new_path. cbn [bind].
    change (open_file _ initial) with (printing name [] None 0).
    by rewrite Hrun. }
  rewrite parse_diff_join.
  change ([ "+++ b/" +:+ name; join_lines ls ] ≫= split_lines)
    with (split_lines ("+++ b/" +:+ name) ++ split_lines (join_lines ls) ++ []).
  rewrite app_nil_r, (split_lines_no_lf ("+++ b/" +:+ name))
    by (by apply (no_lf_app "+++ b/")).
  destruct ls as [|l ls].
  - revert Hparse. unfold parse_lines.
    cbn [app split_lines join_lines String.concat run].
    destruct (step lim initial _) as [st|]; [|done]. cbn [bind].
    intros [= <-]. by rewrite step_empty.
  - rewrite split_lines_join, bind_split_lines_no_lf by done. exact Hparse.
Qed.

(** X16.  [parse_diff] reads back what [format_diff] prints.  For a file
    with a single-line name, status "modified", no old name, not binary,
    whose hunks have numbers that are not negative and lines numbered as the
    loop numbers them, each line with a single-line content and not printed
    with the old-path or new-path marker in front (a deleted line that begins
    with ["-- "], an added line that begins with ["++ "]): the text of
    [format_diff] under the new-path line of the file parses to that file
    alone. *)
Theorem format_then_parse (f : FileDiff) (out : string) :
  printable f -> format_diff lim f = Return out ->
  parse_diff lim (join_lines [ "+++ b/" +:+ filename f; out ])
  = Return {| files := [ f ] |}.
Proof.
  intros (Hname & Hold & Hstatus & Hbin & Hhunks). unfold format_diff.
  intros (ls & Hls & [= <-])%bind_Return_inv.
  rewrite (parse_format_hunks (filename f) (hunks f) ls Hname Hhunks Hls).
  destruct f; cbn in *. by subst.
Qed.

(** *** The hunks of a parsed file *)

Lemma no_lf_split_lines (s : string) :
  Forall (fun l => no_lf l = true) (split_lines s).
Proof.
  induction s as [|c s IH]; [by repeat constructor|]. cbn [split_lines].
  destruct (Ascii.eqb c "010") eqn:Hc; [by constructor|].
  destruct (split_lines_cons s) as (h & t & Hs). rewrite Hs in IH |- *.
  apply Forall_cons in IH as [Hh Ht]. constructor; [|done].
  cbn. by rewrite Hc, Hh.
Qed.

Lemma no_lf_slice_from (n : nat) (s : string) :
  no_lf s = true -> no_lf (slice_from n s) = true.
Proof.
  revert s. induction n as [|n IH]; intros [|c s]; try done.
  cbn. intros [_ Hs]%andb_true_iff. by apply IH.
Qed.

Lemma lines_printable_branch (st st' : ParseState) (line : string) :
  no_lf line = true -> branch st line st' ->
  lines_printable st -> lines_printable st'.
Proof.
  unfold lines_printable.
  intros Hlf [Hgit|s Hs| |name Hbin|name Hold Hpend|name Hnew|fi h _ Hl _ _ _ _|at_ t Hno Ht _]
    Hfs; cbn [result files reset set_pending open_file open_hunk append_line];
    try done.
  - apply Forall_app. split; [done|]. by repeat constructor.
  - apply Forall_app. split; [done|]. by repeat constructor.
  - apply Forall_app. split; [done|]. by repeat constructor.
  - apply Forall_alter; [done|]. intros f _ Hf. cbn.
    apply Forall_app. split; [done|]. apply Forall_singleton. by rewrite Hl.
  - apply Forall_alter; [done|]. intros f _ Hf. cbn.
    apply Forall_alter; [done|]. intros h _ Hh. cbn.
    apply Forall_app. split; [done|]. apply Forall_singleton. split.
    + by apply (no_lf_slice_from 1 line).
    + by rewrite (format_line_recorded line t _ Ht).
Qed.

Lemma lines_printable_run (s : string) (st : ParseState) :
  run lim initial (split_lines s) = Return st -> lines_printable st.
Proof.
  apply (run_ind lim (split_lines s) (fun _ st => lines_printable st)).
  - constructor.
  - intros pre st0 line st' [post Hpre] _ IH Hstep.
    eapply lines_printable_branch; [|by apply (step_branch lim)|done].
    pose proof (no_lf_split_lines s) as Hall. rewrite Hpre in Hall.
    rewrite <- app_assoc in Hall.
    apply Forall_app in Hall as [_ Hall]. by apply Forall_cons in Hall as [? _].
Qed.

(** X17.  The hunks of a parsed file survive printing and parsing again:
    for every file of a result of [parse_diff], the text [format_diff] prints
    for it, put under the new-path line of any single-line name, parses to
    one file with exactly the hunks of the file. *)
Theorem parsed_hunks_survive (s : string) (r : DiffResult) (f : FileDiff)
    (out name : string) :
  parse_diff lim s = Return r -> f ∈ files r ->
  format_diff lim f = Return out -> no_lf name = true ->
  parse_diff lim (join_lines [ "+++ b/" +:+ name; out ])
  = Return {| files := [ {| filename := name; old_filename := None;
                            status := modified; hunks := hunks f;
                            is_binary := false |} ] |}.
Proof.
  intros (st & Hrun & <-)%parse_diff_inv Hf. unfold format_diff.
  intros (ls & Hls & [= <-])%bind_Return_inv Hname.
  apply parse_format_hunks; [done| |done].
  pose proof (lines_printable_run s st Hrun) as Hall.
  unfold lines_printable in Hall. rewrite Forall_forall in Hall.
  specialize (Hall f Hf). rewrite Forall_forall in Hall.
  apply Forall_forall. intros h Hh.
  destruct (elem_of_hunk_at st f h Hf Hh) as [p Hp].
  destruct (header_numbers_run lim _ st p h Hrun Hp) as (? & ? & ? & ?).
  split_and!; try done.
  - by eapply numbered_run.
  - by apply Hall.
Qed.

End RoundTrip.

(** ** Instances of the further properties *)

Section MoreInstances.
Import Py DiffParser Prompt Reviewer GitLabClient Spec Samples SpecMore
  SamplesMore.

Lemma changes_parse_separately_sample :
  exists r rs,
    parse_diff default_max_str_digits (get_mr_diff_text sample_changes) = Return r
    /\ Forall2
         (fun c rc =>
            parse_diff default_max_str_digits (get_mr_diff_text [c]) = Return rc)
         sample_changes rs
    /\ files r = rs ≫= files.
Proof.
  assert (exists r,
    parse_diff default_max_str_digits (get_mr_diff_text sample_changes)
    = Return r) as [r Hr] by (eexists; vm_compute; reflexivity).
  destruct (changes_parse_separately default_max_str_digits sample_changes r Hr)
    as (rs & Hall & Hfs).
  exists r, rs. split; [exact Hr|]. split; [exact Hall|exact Hfs].
Defined.

Lemma changes_reported_sample :
  exists r,
    parse_diff default_max_str_digits (get_mr_diff_text sample_changes) = Return r
    /\ report <$> files r
       = [ ("a.py", modified, false); ("b.py", added, false);
           ("c.py", deleted, false) ].
Proof.
  eexists. split; [vm_compute; reflexivity|].
  apply (changes_reported default_max_str_digits sample_changes).
  - apply (bool_decide_unpack _). vm_compute. exact I.
  - vm_compute. reflexivity.
Defined.

Lemma parsed_files_fields_binary_then_edit :
  parse_diff default_max_str_digits binary_then_edit
  = Return binary_then_edit_result
  /\ old_filename (FileDiff_new "x.png" binary true) = None
  /\ status (FileDiff_new "x.png" binary true) <> renamed
  /\ (is_binary (FileDiff_new "x.png" binary true) = true
      <-> status (FileDiff_new "x.png" binary true) = binary).
Proof.
  split; [vm_compute; reflexivity|].
  apply (parsed_files_fields default_max_str_digits binary_then_edit
           binary_then_edit_result);
    [vm_compute; reflexivity|apply list_elem_of_here].
Defined.

Lemma summary_bounded_by_input_edit :
  parse_diff default_max_str_digits edit = Return edit_result
  /\ exists total_added total_deleted,
       summary edit_result !! "total_added" = Some total_added
       /\ summary edit_result !! "total_deleted" = Some total_deleted
       /\ total_added <= len (filter plus_line (split_lines edit))
       /\ total_deleted <= len (filter minus_line (split_lines edit)).
Proof.
  split; [vm_compute; reflexivity|].
  apply (summary_bounded_by_input default_max_str_digits edit edit_result).
  vm_compute. reflexivity.
Defined.

Lemma files_bounded_by_openers_edit :
  parse_diff default_max_str_digits edit = Return edit_result
  /\ len (files edit_result) <= len (filter opener (split_lines edit)).
Proof.
  split; [vm_compute; reflexivity|].
  apply (files_bounded_by_openers default_max_str_digits edit edit_result).
  vm_compute. reflexivity.
Defined.

Lemma hunk_numbers_ordered_edit :
  parse_diff default_max_str_digits edit = Return edit_result
  /\ (0 <= old_start edit_hunk /\ 0 <= old_count edit_hunk
      /\ 0 <= new_start edit_hunk /\ 0 <= new_count edit_hunk)
  /\ (forall l, l ∈ lines edit_hunk ->
        new_start edit_hunk <= number l
        <= new_start edit_hunk + len (filter advances (lines edit_hunk)))
  /\ (forall a x b y c,
        lines edit_hunk = a ++ x :: b ++ y :: c -> number x <= number y).
Proof.
  split; [vm_compute; reflexivity|].
  apply (hunk_numbers_ordered default_max_str_digits edit edit_result edit_file
           edit_hunk);
    [vm_compute; reflexivity|apply list_elem_of_here|apply list_elem_of_here].
Defined.

Lemma parse_diff_distributes_two_sections :
  startswith second_section "diff --git" = true
  /\ parse_diff default_max_str_digits (first_section +:+ LF +:+ second_section)
     = let* ra := parse_diff default_max_str_digits first_section in
       let* rb := parse_diff default_max_str_digits second_section in
       Return {| files := files ra ++ files rb |}.
Proof.
  split; [reflexivity|].
  apply (parse_diff_distributes default_max_str_digits first_section
           second_section).
  reflexivity.
Defined.

Lemma format_then_parse_edit :
  exists out,
    format_diff default_max_str_digits edit_file = Return out
    /\ parse_diff default_max_str_digits (join_lines [ "+++ b/m.py"; out ])
       = Return {| files := [ edit_file ] |}.
Proof.
  eexists. split; [vm_compute; reflexivity|].
  apply (format_then_parse default_max_str_digits edit_file).
  - split_and!; try reflexivity. apply Forall_singleton.
    split_and!; try (vm_compute; discriminate).
    + intros pre l post Hl. unfold edit_hunk in *. cbn [lines new_start] in *.
      repeat (destruct pre as [|? pre];
              [injection Hl as <- <-; vm_compute; reflexivity
              |injection Hl as <- Hl]).
      destruct pre; discriminate Hl.
    + repeat constructor.
  - vm_compute. reflexivity.
Defined.

Lemma parsed_hunks_survive_edit :
  exists out,
    parse_diff default_max_str_digits edit = Return edit_result
    /\ format_diff default_max_str_digits edit_file = Return out
    /\ parse_diff default_max_str_digits (join_lines [ "+++ b/copy.py"; out ])
       = Return {| files := [ {| filename := "copy.py"; old_filename := None;
                                 status := modified; hunks := hunks edit_file;
                                 is_binary := false |} ] |}.
Proof.
  eexists. split; [vm_compute; reflexivity|].
  split; [vm_compute; reflexivity|].
  apply (parsed_hunks_survive default_max_str_digits edit edit_result edit_file).
  - vm_compute. reflexivity.
  - apply list_elem_of_here.
  - vm_compute. reflexivity.
  - reflexivity.
Defined.

End MoreInstances.
